(** * BFSkinner-scrape: the paginator [Scraper] and the crawler
    [BFSkinnerScraper], embedded as Rocq functions.

    Python [str] values are modelled as [string]: sequences of code points
    below 256 (the Latin-1 range), on which [str.lower], [str.strip] and
    [str.split] are modelled exactly.  Exceptions are values of the [exc]
    monad.  Sets ([set()]) are [gset string]. *)

From Stdlib Require Import ZArith NArith Ascii String List Lia Bool Permutation.
From stdpp Require Import base option list sets gmap strings.

Set Warnings "-register-all".

Local Open Scope Z_scope.
Local Open Scope nat_scope.

(* ===================================================================== *)
(** ** Exceptions *)
(* ===================================================================== *)

Inductive exn : Type :=
  | ValueError
  | ScraperError.

Inductive exc (A : Type) : Type :=
  | Ret (a : A)
  | Raise (e : exn).
Arguments Ret {A} a.
Arguments Raise {A} e.

#[global] Instance exc_ret : MRet exc := fun A a => Ret a.
#[global] Instance exc_bind : MBind exc := fun A B k m =>
  match m with
  | Ret a => k a
  | Raise e => Raise e
  end.
#[global] Instance exc_fmap : FMap exc := fun A B f m =>
  match m with
  | Ret a => Ret (f a)
  | Raise e => Raise e
  end.

(* ===================================================================== *)
(** ** Python string operations *)
(* ===================================================================== *)

Module Str.

Definition code (c : ascii) : N := N_of_ascii c.

(** [str.isspace] on one code point below 256. *)
Definition isspace (c : ascii) : bool :=
  let n := code c in
  ((9 <=? n) && (n <=? 13) || (28 <=? n) && (n <=? 32)
   || (n =? 133) || (n =? 160))%N.

(** [str.lower] on one code point below 256. *)
Definition lower_char (c : ascii) : ascii :=
  let n := code c in
  if ((65 <=? n) && (n <=? 90) || (192 <=? n) && (n <=? 214)
      || (216 <=? n) && (n <=? 222))%N
  then ascii_of_N (n + 32) else c.

Fixpoint lower (s : string) : string :=
  match s with
  | EmptyString => EmptyString
  | String c r => String (lower_char c) (lower r)
  end.

Definition nonempty (s : string) : bool :=
  match s with EmptyString => false | String _ _ => true end.

(** [s.lstrip(chars)], [s.rstrip(chars)] with the character set as a
    predicate. *)
Fixpoint lstrip (p : ascii -> bool) (s : string) : string :=
  match s with
  | EmptyString => EmptyString
  | String c r => if p c then lstrip p r else s
  end.

Fixpoint rstrip (p : ascii -> bool) (s : string) : string :=
  match s with
  | EmptyString => EmptyString
  | String c r =>
      match rstrip p r with
      | EmptyString => if p c then EmptyString else String c EmptyString
      | r' => String c r'
      end
  end.

Definition strip_with (p : ascii -> bool) (s : string) : string :=
  lstrip p (rstrip p s).

(** [s.strip()] *)
Definition strip (s : string) : string := strip_with isspace s.

Fixpoint startswith (pre s : string) : bool :=
  match pre, s with
  | EmptyString, _ => true
  | String a pre', String b s' => Ascii.eqb a b && startswith pre' s'
  | String _ _, EmptyString => false
  end.

Fixpoint endswith (suf s : string) : bool :=
  String.eqb s suf ||
  match s with
  | EmptyString => false
  | String _ r => endswith suf r
  end.

(** [sub in s] *)
Fixpoint contains (sub s : string) : bool :=
  startswith sub s ||
  match s with
  | EmptyString => false
  | String _ r => contains sub r
  end.

Fixpoint has_char (p : ascii -> bool) (s : string) : bool :=
  match s with
  | EmptyString => false
  | String c r => p c || has_char p r
  end.

Fixpoint all_chars (p : ascii -> bool) (s : string) : bool :=
  match s with
  | EmptyString => true
  | String c r => p c && all_chars p r
  end.

Definition ch (c : ascii) : ascii -> bool := Ascii.eqb c.

(** Removes every character satisfying [p] (deleting a one-character
    substring with [s.replace]). *)
Fixpoint remove (p : ascii -> bool) (s : string) : string :=
  match s with
  | EmptyString => EmptyString
  | String c r => if p c then remove p r else String c (remove p r)
  end.

(** [break p s = (s[:i], s[i:])] where [i] is the index of the first
    character satisfying [p], or [len(s)] when there is none. *)
Fixpoint break (p : ascii -> bool) (s : string) : string * string :=
  match s with
  | EmptyString => (EmptyString, EmptyString)
  | String c r =>
      if p c then (EmptyString, s)
      else let '(a, b) := break p r in (String c a, b)
  end.

(** [rbreak c s = Some (s[:i], s[i:])] where [i = s.rfind(c)], [None]
    when [c] does not occur. *)
Fixpoint rbreak (c : ascii) (s : string) : option (string * string) :=
  match s with
  | EmptyString => None
  | String x r =>
      match rbreak c r with
      | Some (a, b) => Some (String x a, b)
      | None => if Ascii.eqb x c then Some (EmptyString, s) else None
      end
  end.

(** [s] is empty or its first character satisfies [p]: the shape of
    the second part of a [break]. *)
Definition starts_with_char (p : ascii -> bool) (s : string) : Prop :=
  match s with EmptyString => True | String c _ => p c = true end.

Definition tail (s : string) : string :=
  match s with EmptyString => EmptyString | String _ r => r end.

Fixpoint drop (n : nat) (s : string) : string :=
  match n, s with
  | O, _ => s
  | S n', String _ r => drop n' r
  | S _, EmptyString => EmptyString
  end.

(** [s.split(c)] for a one-character separator: never the empty list. *)
Fixpoint split_on (c : ascii) (s : string) : list string :=
  match s with
  | EmptyString => [EmptyString]
  | String x r =>
      if Ascii.eqb x c then EmptyString :: split_on c r
      else match split_on c r with
           | h :: t => String x h :: t
           | [] => [String x EmptyString]
           end
  end.

(** [sep.join(parts)] *)
Fixpoint join (sep : string) (parts : list string) : string :=
  match parts with
  | [] => EmptyString
  | [x] => x
  | x :: rest => x +:+ sep +:+ join sep rest
  end.

(** The join of [parts] with the empty separator. *)
Fixpoint concat (parts : list string) : string :=
  match parts with
  | [] => EmptyString
  | x :: rest => x +:+ concat rest
  end.

(** [s.split()]: maximal runs of non-whitespace characters. *)
Fixpoint split_ws_aux (cur : string) (s : string) : list string :=
  match s with
  | EmptyString => if nonempty cur then [cur] else []
  | String c r =>
      if isspace c
      then (if nonempty cur then cur :: split_ws_aux EmptyString r
            else split_ws_aux EmptyString r)
      else split_ws_aux (cur +:+ String c EmptyString) r
  end.

Definition split_ws (s : string) : list string := split_ws_aux EmptyString s.

Definition mem (x : string) (l : list string) : bool :=
  existsb (String.eqb x) l.

End Str.

(* ===================================================================== *)
(** ** [urllib.parse]: the standard library functions the scrapers call *)
(* ===================================================================== *)

Record ParseResult : Type := mkParseResult {
  scheme : string;
  netloc : string;
  path : string;
  params : string;
  query : string;
  fragment : string
}.

Module Urllib.

Definition uses_relative : list string :=
  [EmptyString; "ftp"; "http"; "gopher"; "nntp"; "imap"; "wais"; "file"; "https";
   "shttp"; "mms"; "prospero"; "rtsp"; "rtspu"; "sftp"; "svn"; "svn+ssh";
   "ws"; "wss"].

Definition uses_netloc : list string :=
  [EmptyString; "ftp"; "http"; "gopher"; "nntp"; "telnet"; "imap"; "wais"; "file";
   "mms"; "https"; "shttp"; "snews"; "prospero"; "rtsp"; "rtspu"; "rsync";
   "svn"; "svn+ssh"; "sftp"; "nfs"; "git"; "git+ssh"; "ws"; "wss"].

Definition uses_params : list string :=
  [EmptyString; "ftp"; "hdl"; "prospero"; "http"; "imap"; "https"; "shttp"; "rtsp";
   "rtspu"; "sip"; "sips"; "mms"; "sftp"; "tel"].

Definition is_alpha (c : ascii) : bool :=
  let n := Str.code c in
  ((65 <=? n) && (n <=? 90) || (97 <=? n) && (n <=? 122))%N.

Definition is_digit (c : ascii) : bool :=
  let n := Str.code c in ((48 <=? n) && (n <=? 57))%N.

Definition scheme_char (c : ascii) : bool :=
  is_alpha c || is_digit c
  || Str.ch "+" c || Str.ch "-" c || Str.ch "." c.

(** [_WHATWG_C0_CONTROL_OR_SPACE] *)
Definition c0_or_space (c : ascii) : bool := (Str.code c <=? 32)%N.

(** [_UNSAFE_URL_BYTES_TO_REMOVE] *)
Definition unsafe_byte (c : ascii) : bool :=
  Str.ch "009" c || Str.ch "013" c || Str.ch "010" c.

Definition netloc_delim (c : ascii) : bool :=
  Str.ch "/" c || Str.ch "?" c || Str.ch "#" c.

(** The scheme test of [urlsplit]: [i = url.find(':')], [i > 0], the
    first character an ASCII letter and [url[:i]] made of scheme
    characters; gives [(url[:i].lower(), url[i+1:])]. *)
Definition split_scheme (url : string) : option (string * string) :=
  let '(pre, post) := Str.break (Str.ch ":") url in
  match pre, post with
  | String c0 _, String _ rest =>
      if is_alpha c0 && Str.all_chars scheme_char pre
      then Some (Str.lower pre, rest)
      else None
  | _, _ => None
  end.

(** [url.split(c, 1)] guarded by [c in url]. *)
Definition cut (c : ascii) (url : string) : string * string :=
  let '(a, b) := Str.break (Str.ch c) url in (a, Str.tail b).

Definition _splitparams (url : string) : string * string :=
  match Str.rbreak "/" url with
  | Some (a, b) =>
      let '(p, q) := Str.break (Str.ch ";") b in
      match q with
      | EmptyString => (url, EmptyString)
      | String _ rest => (a +:+ p, rest)
      end
  | None => cut ";" url
  end.

Definition urlunsplit (sch loc url qry frag : string) : string :=
  let url :=
    if Str.nonempty loc
       || (Str.nonempty sch && Str.mem sch uses_netloc
           && negb (Str.startswith "//" url))
    then "//" +:+ loc +:+
         (if Str.nonempty url && negb (Str.startswith "/" url)
          then "/" +:+ url else url)
    else url in
  let url := if Str.nonempty sch then sch +:+ ":" +:+ url else url in
  let url := if Str.nonempty qry then url +:+ "?" +:+ qry else url in
  if Str.nonempty frag then url +:+ "#" +:+ frag else url.

Definition urlunparse (p : ParseResult) : string :=
  let url := if Str.nonempty (params p)
             then path p +:+ ";" +:+ params p else path p in
  urlunsplit (scheme p) (netloc p) url (query p) (fragment p).

(** The segment loop of [urljoin]: [..] pops, [.] is skipped. *)
Definition resolve_segments (segments : list string) : list string :=
  fold_left
    (fun resolved seg =>
       if String.eqb seg ".." then removelast resolved
       else if String.eqb seg "." then resolved
       else resolved ++ [seg])
    segments [].

(** [segments[1:-1] = filter(None, segments[1:-1])] *)
Definition squeeze_middle (segments : list string) : list string :=
  match segments with
  | first :: (_ :: _) as rest =>
      first :: List.filter Str.nonempty (removelast rest)
            ++ [List.last rest EmptyString]
  | _ => segments
  end.

Section WithHostCheck.

(** The host validation of [urlsplit] (bracketed IPv6 hosts, NFKC
    check): it inspects the netloc only and makes [urlsplit] raise
    [ValueError] when it fails. *)
Variable netloc_ok : string -> bool.

Definition urlsplit (url scheme0 : string)
  : exc (string * string * string * string * string) :=
  let url := Str.lstrip c0_or_space url in
  let scheme0 := Str.strip_with c0_or_space scheme0 in
  let url := Str.remove unsafe_byte url in
  let scheme0 := Str.remove unsafe_byte scheme0 in
  let '(sch, url) :=
    match split_scheme url with
    | Some (s, rest) => (s, rest)
    | None => (scheme0, url)
    end in
  '(loc, url) ←
    (if Str.startswith "//" url
     then let '(loc, rest) := Str.break netloc_delim (Str.drop 2 url) in
          if netloc_ok loc then Ret (loc, rest) else Raise ValueError
     else Ret (EmptyString, url));
  let '(url, frag) := cut "#" url in
  let '(url, qry) := cut "?" url in
  Ret (sch, loc, url, qry, frag).

Definition urlparse_with (url scheme0 : string) : exc ParseResult :=
  '(sch, loc, url, qry, frag) ← urlsplit url scheme0;
  let '(url, prm) :=
    if Str.mem sch uses_params && Str.has_char (Str.ch ";") url
    then _splitparams url
    else (url, EmptyString) in
  Ret (mkParseResult sch loc url prm qry frag).

(** [urlparse(url)] *)
Definition urlparse (url : string) : exc ParseResult :=
  urlparse_with url EmptyString.

Definition urljoin (base url : string) : exc string :=
  if negb (Str.nonempty base) then Ret url
  else if negb (Str.nonempty url) then Ret base
  else
    b ← urlparse_with base EmptyString;
    u ← urlparse_with url (scheme b);
    if negb (String.eqb (scheme u) (scheme b))
       || negb (Str.mem (scheme u) uses_relative)
    then Ret url
    else if Str.mem (scheme u) uses_netloc && Str.nonempty (netloc u)
    then Ret (urlunparse u)
    else
      let loc := if Str.mem (scheme u) uses_netloc
                 then netloc b else netloc u in
      if negb (Str.nonempty (path u)) && negb (Str.nonempty (params u))
      then
        Ret (urlunparse
               (mkParseResult (scheme u) loc (path b) (params b)
                  (if Str.nonempty (query u) then query u else query b)
                  (fragment u)))
      else
        let base_parts := Str.split_on "/" (path b) in
        let base_parts :=
          if Str.nonempty (List.last base_parts EmptyString)
          then removelast base_parts else base_parts in
        let segments :=
          if Str.startswith "/" (path u)
          then Str.split_on "/" (path u)
          else squeeze_middle (base_parts ++ Str.split_on "/" (path u)) in
        let resolved := resolve_segments segments in
        let resolved :=
          if Str.mem (List.last segments EmptyString) ["."; ".."]
          then resolved ++ [EmptyString] else resolved in
        let joined := Str.join "/" resolved in
        Ret (urlunparse
               (mkParseResult (scheme u) loc
                  (if Str.nonempty joined then joined else "/")
                  (params u) (query u) (fragment u))).

End WithHostCheck.

(** A host check for concrete runs: the bracket-balance test of
    [urlsplit] (hosts without brackets always pass the real checks when
    they are ASCII). *)
Definition brackets_balanced (loc : string) : bool :=
  Bool.eqb (Str.has_char (Str.ch "[") loc) (Str.has_char (Str.ch "]") loc).

End Urllib.


(* ===================================================================== *)
(** ** Control flow of the two traversal loops *)
(* ===================================================================== *)

(** The effect of one pass through a [while] body. *)
Inductive step (S : Type) : Type :=
  | Continue (s : S)
  | Break (s : S)
  | Abort (e : exn) (s : S).
Arguments Continue {S} s.
Arguments Break {S} s.
Arguments Abort {S} e s.

(** The state a pass through the body leaves behind. *)
Definition after {S : Type} (s : step S) : S :=
  match s with Continue s' => s' | Break s' => s' | Abort _ s' => s' end.

(** How a call ends: it returns, or an exception leaves it. *)
Inductive outcome (S : Type) : Type :=
  | Returned (s : S)
  | Raised (e : exn) (s : S).
Arguments Returned {S} s.
Arguments Raised {S} e s.

Definition final {S : Type} (o : outcome S) : S :=
  match o with Returned s => s | Raised _ s => s end.

(** Python truthiness of an [Optional[str]]. *)
Definition truthy (o : option string) : bool :=
  match o with Some s => Str.nonempty s | None => false end.

(** [o or ""] for an [Optional[str]]. *)
Definition or_empty (o : option string) : string :=
  match o with Some s => s | None => EmptyString end.

(** [s or None] for a [str]. *)
Definition or_none (s : string) : option string :=
  if Str.nonempty s then Some s else None.

(* ===================================================================== *)
(** ** [xml.etree.ElementTree] elements *)
(* ===================================================================== *)

Inductive Element : Type :=
  mkElement (tag : string) (attrib : list (string * string))
            (text tail : option string) (children : list Element).

Module ET.

Definition tag (e : Element) : string :=
  match e with mkElement t _ _ _ _ => t end.
Definition attrib (e : Element) : list (string * string) :=
  match e with mkElement _ a _ _ _ => a end.
Definition text (e : Element) : option string :=
  match e with mkElement _ _ t _ _ => t end.
Definition tail (e : Element) : option string :=
  match e with mkElement _ _ _ t _ => t end.
Definition children (e : Element) : list Element :=
  match e with mkElement _ _ _ _ cs => cs end.

(** [element.get(key)] *)
Definition get (e : Element) (key : string) : option string :=
  snd <$> List.find (fun kv => String.eqb (fst kv) key) (attrib e).

(** The proper descendants of an element, in document order. *)
Fixpoint descendants (e : Element) : list Element :=
  match e with
  | mkElement _ _ _ _ cs => flat_map (fun c => c :: descendants c) cs
  end.

(** [element.findall(".//" + name)] *)
Definition findall (e : Element) (name : string) : list Element :=
  List.filter (fun d => String.eqb (tag d) name) (descendants e).

(** [element.find(".//" + name)] *)
Definition find (e : Element) (name : string) : option Element :=
  head (findall e name).

End ET.

(* ===================================================================== *)
(** ** bfskinner_scrape/scraper.py: the paginator *)
(* ===================================================================== *)

Module ArticleRecord.
Record t : Type := mk {
  title : string;
  url : string;
  summary : option string;
  published : option string
}.
End ArticleRecord.

Module Scraper.

Definition DEFAULT_USER_AGENT : string := "BFSkinnerScraper/1.0".
Definition DEFAULT_TIMEOUT : Z := 10%Z.

(** The fields of a [Scraper]; the opener is the [opener_open] of the
    section below. *)
Record t : Type := mk {
  base_url : string;
  user_agent : string;
  timeout : Z
}.

Definition __init__ (base_url user_agent : string) (timeout : Z) : exc t :=
  if negb (Str.nonempty base_url) then Raise ValueError
  else Ret (mk base_url user_agent timeout).

Definition _contains_flag (attribute_value flag : string) : bool :=
  let tokens :=
    map (fun token => Str.lower (Str.strip token))
        (List.filter (fun token => Str.nonempty (Str.strip token))
                     (Str.split_ws attribute_value)) in
  Str.mem (Str.lower flag) tokens.

(** The loop of [_text_content] over the children, appending to
    [parts]. *)
Fixpoint _text_content_el (element : Element) : string :=
  match element with
  | mkElement _ _ text _ children =>
      let parts := [or_empty text] in
      let parts :=
        fold_left
          (fun parts child =>
             let parts := parts ++ [_text_content_el child] in
             if truthy (ET.tail child)
             then parts ++ [or_empty (ET.tail child)] else parts)
          children parts in
      Str.strip (Str.concat parts)
  end.

Definition _text_content (element : option Element) : string :=
  match element with
  | None => EmptyString
  | Some e => _text_content_el e
  end.

(** The run of [scrape]: its local variables, the state of the network
    and the addresses handed to [_fetch] so far, oldest first. *)
Record State (World : Type) : Type := mkState {
  next_page : string;
  visited_pages : gset string;
  seen_articles : gset string;
  collected : list ArticleRecord.t;
  world : World;
  fetched : list string
}.
Arguments mkState {World}.
Arguments next_page {World}.
Arguments visited_pages {World}.
Arguments seen_articles {World}.
Arguments collected {World}.
Arguments world {World}.
Arguments fetched {World}.

Section Methods.

Variable netloc_ok : string -> bool.
(** The network seen through [opener.open]: a request either yields
    the decoded payload or raises [URLError] ([None]); the network may
    change with every request. *)
Variable World : Type.
Variable opener_open : World -> string -> option string * World.
(** [ET.fromstring]; [None] is [ET.ParseError]. *)
Variable fromstring : string -> option Element.

Variable self : t.

Definition _fetch (w : World) (url : string) : exc string * World :=
  match opener_open w url with
  | (Some payload, w') => (Ret payload, w')
  | (None, w') => (Raise ScraperError, w')
  end.

Definition _parse_html (html : string) : exc Element :=
  match fromstring html with
  | Some root => Ret root
  | None => Raise ScraperError
  end.

(** The [for] loop of [_extract_articles]. *)
Fixpoint _extract_articles_loop (article_els : list Element)
    (articles : list ArticleRecord.t) (seen_urls : gset string)
  : exc (list ArticleRecord.t) :=
  match article_els with
  | [] => Ret articles
  | article_el :: rest =>
      let title_el := ET.find article_el "h2" in
      let link_el :=
        match title_el with
        | Some h => ET.find h "a"
        | None => None
        end in
      match link_el with
      | None => _extract_articles_loop rest articles seen_urls
      | Some link =>
          let title :=
            if Str.nonempty (_text_content (Some link))
            then _text_content (Some link)
            else _text_content title_el in
          let href := Str.strip (or_empty (ET.get link "href")) in
          if negb (Str.nonempty title) || negb (Str.nonempty href)
          then _extract_articles_loop rest articles seen_urls
          else
            url ← Urllib.urljoin netloc_ok (base_url self) href;
            if bool_decide (url ∈ seen_urls)
            then _extract_articles_loop rest articles seen_urls
            else
              let seen_urls := {[url]} ∪ seen_urls in
              let summary_el := ET.find article_el "p" in
              let summary := _text_content summary_el in
              let time_el := ET.find article_el "time" in
              let published :=
                match time_el with
                | Some t =>
                    or_none
                      (if truthy (ET.get t "datetime")
                       then or_empty (ET.get t "datetime")
                       else _text_content time_el)
                | None => None
                end in
              _extract_articles_loop rest
                (articles ++
                   [ArticleRecord.mk title url (or_none summary) published])
                seen_urls
      end
  end.

Definition _extract_articles (root : Element)
  : exc (list ArticleRecord.t) :=
  _extract_articles_loop (ET.findall root "article") [] ∅.

(** The [for] loop of [_find_next_link]. *)
Fixpoint _find_next_link_loop (links : list Element)
  : exc (option string) :=
  match links with
  | [] => Ret None
  | link :: rest =>
      let rel := or_empty (ET.get link "rel") in
      let classes := or_empty (ET.get link "class") in
      if _contains_flag rel "next" || _contains_flag classes "next"
      then
        let href := Str.strip (or_empty (ET.get link "href")) in
        if Str.nonempty href
        then Some <$> Urllib.urljoin netloc_ok (base_url self) href
        else _find_next_link_loop rest
      else _find_next_link_loop rest
  end.

Definition _find_next_link (root : Element) : exc (option string) :=
  _find_next_link_loop (ET.findall root "a").

Definition parse_listing (html : string)
  : exc (list ArticleRecord.t * option string) :=
  root ← _parse_html html;
  articles ← _extract_articles root;
  next_url ← _find_next_link root;
  Ret (articles, next_url).

(** The [for article in articles] loop of [scrape]. *)
Definition merge_articles (articles : list ArticleRecord.t)
    (seen : gset string) (acc : list ArticleRecord.t)
  : gset string * list ArticleRecord.t :=
  fold_left
    (fun '(seen, acc) article =>
       if bool_decide (ArticleRecord.url article ∈ seen)
       then (seen, acc)
       else ({[ArticleRecord.url article]} ∪ seen, acc ++ [article]))
    articles (seen, acc).

(** The body of the [while] loop of [scrape]. *)
Definition scrape_body (st : State World) : step (State World) :=
  let visited := {[next_page st]} ∪ visited_pages st in
  let '(r, w) := _fetch (world st) (next_page st) in
  let st1 := mkState (next_page st) visited (seen_articles st)
                     (collected st) w (fetched st ++ [next_page st]) in
  match r with
  | Raise e => Abort e st1
  | Ret html =>
      match parse_listing html with
      | Raise e => Abort e st1
      | Ret (articles, possible_next) =>
          let '(seen, acc) :=
            merge_articles articles (seen_articles st) (collected st) in
          let st2 := mkState (next_page st) visited seen acc w
                             (fetched st1) in
          if negb (truthy possible_next)
             || bool_decide (or_empty possible_next ∈ visited)
          then Break st2
          else Continue
                 (mkState (or_empty possible_next) visited seen acc w
                          (fetched st1))
      end
  end.

(** [while next_page and next_page not in visited_pages] *)
Definition scrape_guard (st : State World) : bool :=
  Str.nonempty (next_page st)
  && negb (bool_decide (next_page st ∈ visited_pages st)).

Fixpoint scrape_loop (fuel : nat) (st : State World)
  : option (outcome (State World)) :=
  match fuel with
  | O => None
  | S fuel' =>
      if scrape_guard st then
        match scrape_body st with
        | Continue st' => scrape_loop fuel' st'
        | Break st' => Some (Returned st')
        | Abort e st' => Some (Raised e st')
        end
      else Some (Returned st)
  end.

Definition scrape_init (start_url : option string) (w : World)
  : State World :=
  mkState (if truthy start_url then or_empty start_url else base_url self)
          ∅ ∅ [] w [].

(** [scrape(start_url=...)]; the returned list is [collected] of a
    [Returned] state.  [None]: the fuel did not suffice. *)
Definition scrape (fuel : nat) (start_url : option string) (w : World)
  : option (outcome (State World)) :=
  scrape_loop fuel (scrape_init start_url w).

End Methods.

Arguments scrape_guard {World} st.

End Scraper.

(* ===================================================================== *)
(** ** bfskinner_scraper/scraper.py: the crawler *)
(* ===================================================================== *)

Module ResourceRecord.
Record t : Type := mk {
  page_url : string;
  resource_url : string;
  resource_title : string;
  resource_type : string;
  page_title : option string;
  description : option string
}.

(** The generated [__eq__] of the frozen dataclass: field by field. *)
#[global] Instance eq_dec : EqDecision t.
Proof. solve_decision. Defined.
End ResourceRecord.

(** What the crawler reads from a [BeautifulSoup] tag returned by
    [find_all("a", href=True)]. *)
Module Anchor.
Record t : Type := mk {
  (** [anchor.get("href")] *)
  href : string;
  (** [anchor.get_text(" ", strip=True)] *)
  text : string;
  (** [parent.get_text(" ", strip=True)] of
      [anchor.find_parent(["p", "li", "div"])], when there is one *)
  parent_text : option string
}.
End Anchor.

(** What the crawler reads from a parsed page. *)
Module Soup.
Record t : Type := mk {
  (** [soup.title.string], when [soup.title] exists and has one *)
  title_string : option string;
  (** [soup.find_all("a", href=True)], in document order *)
  anchors : list Anchor.t
}.
End Soup.

(** What [_fetch] reads from a [requests] response. *)
Module Response.
Record t : Type := mk {
  ok : bool;
  (** [response.headers.get("Content-Type", "")] *)
  content_type : string;
  text : string
}.
End Response.

Module BFSkinnerScraper.

Definition RESOURCE_EXTENSIONS : list string :=
  [".pdf"; ".doc"; ".docx"; ".ppt"; ".pptx"; ".xls"; ".xlsx"; ".zip";
   ".mp3"; ".mp4"; ".wav"; ".m4a"].

Definition KEYWORD_HINTS : list string :=
  ["download"; "free"; "resource"; "handout"; "worksheet"; "guide";
   "ebook"; "podcast"; "video"; "audio"; "pdf"].

(** The fields of a [BFSkinnerScraper] that [crawl] reads or writes; the
    session is the [session_get] of the section below. *)
Record t : Type := mk {
  base_url : string;
  max_pages : Z;
  _visited : gset string
}.

Definition __init__ (base_url : string) (max_pages : Z) : t :=
  mk (Str.rstrip (Str.ch "/") base_url +:+ "/") max_pages ∅.

(** The result of [_fetch]: it raises [requests.RequestException],
    returns [None], or returns the page text. *)
Inductive fetch_result : Type :=
  | FetchRaised
  | FetchNone
  | FetchText (html : string).

(** The run of [crawl]: its local variables, [self._visited], the state
    of the network and the addresses handed to [_fetch] so far, oldest
    first, each with whether the call returned. *)
Record State (World : Type) : Type := mkState {
  queue : list string;
  visited : gset string;
  resources : list ResourceRecord.t;
  world : World;
  fetched : list (string * bool)
}.
Arguments mkState {World}.
Arguments queue {World}.
Arguments visited {World}.
Arguments resources {World}.
Arguments world {World}.
Arguments fetched {World}.

Definition _derive_description (anchor : Anchor.t) : option string :=
  if truthy (Anchor.parent_text anchor)
  then Anchor.parent_text anchor
  else or_none (Anchor.text anchor).

Definition _extract_page_title (soup : Soup.t) : option string :=
  if truthy (Soup.title_string soup)
  then Some (Str.strip (or_empty (Soup.title_string soup)))
  else None.

Section Methods.

Variable netloc_ok : string -> bool.

Definition _normalize_url (url : string) : exc string :=
  parsed ← Urllib.urlparse netloc_ok url;
  let scheme := if Str.nonempty (scheme parsed)
                then scheme parsed else "https" in
  let netloc := netloc parsed in
  let path := if Str.nonempty (path parsed) then path parsed else "/" in
  let query := if Str.nonempty (query parsed)
               then "?" +:+ query parsed else EmptyString in
  let fragment := EmptyString in
  Ret (if Str.nonempty netloc
       then scheme +:+ "://" +:+ netloc +:+ path +:+ query +:+ fragment
       else url).

Variable self : t.

Definition _is_internal_url (url : string) : exc bool :=
  parsed ← Urllib.urlparse netloc_ok url;
  base ← Urllib.urlparse netloc_ok (base_url self);
  Ret (String.eqb (netloc parsed) (netloc base)
       || negb (Str.nonempty (netloc parsed))
          && Str.nonempty (path parsed)).

(** [_classify_resource], with the order in which the [for] loop meets
    the members of the set [RESOURCE_EXTENSIONS] made explicit. *)
Definition _classify_resource_in (order : list string)
    (resource_url anchor_text : string) : exc (option string) :=
  parsed ← Urllib.urlparse netloc_ok resource_url;
  if negb (Str.startswith "http" (scheme parsed)) then Ret None
  else
    let lower_path := Str.lower (path parsed) in
    match List.find (fun ext => Str.endswith ext lower_path) order with
    | Some ext => Ret (Some (Str.lstrip (Str.ch ".") ext))
    | None =>
        let lower_text := Str.lower anchor_text in
        if existsb (fun keyword => Str.contains keyword lower_text)
                   KEYWORD_HINTS
        then
          internal ← _is_internal_url resource_url;
          Ret (if internal : bool then Some "page" else None)
        else Ret None
    end.

Definition _classify_resource (resource_url anchor_text : string)
  : exc (option string) :=
  _classify_resource_in RESOURCE_EXTENSIONS resource_url anchor_text.

(** The [for] loop of [_extract_resources]. *)
Fixpoint _extract_resources_loop (page_url : string)
    (page_title : option string) (anchors : list Anchor.t)
    (resources : list ResourceRecord.t) : exc (list ResourceRecord.t) :=
  match anchors with
  | [] => Ret resources
  | anchor :: rest =>
      let href := Anchor.href anchor in
      let text := Anchor.text anchor in
      if negb (Str.nonempty href)
      then _extract_resources_loop page_url page_title rest resources
      else
        resource_url ← Urllib.urljoin netloc_ok page_url href;
        resource_type ← _classify_resource resource_url text;
        match resource_type with
        | None =>
            _extract_resources_loop page_url page_title rest resources
        | Some ty =>
            let description := _derive_description anchor in
            pu ← _normalize_url page_url;
            ru ← _normalize_url resource_url;
            let record :=
              ResourceRecord.mk pu ru
                (if Str.nonempty text then text else or_empty page_title)
                ty page_title description in
            _extract_resources_loop page_url page_title rest
              (if bool_decide (record ∈ resources)
               then resources else resources ++ [record])
        end
  end.

Definition _extract_resources (page_url : string)
    (page_title : option string) (soup : Soup.t)
  : exc (list ResourceRecord.t) :=
  _extract_resources_loop page_url page_title (Soup.anchors soup) [].

(** The addresses [_extract_internal_links] yields, in order. *)
Fixpoint _extract_internal_links_loop (page_url : string)
    (anchors : list Anchor.t) : exc (list string) :=
  match anchors with
  | [] => Ret []
  | anchor :: rest =>
      let href := Anchor.href anchor in
      if negb (Str.nonempty href)
      then _extract_internal_links_loop page_url rest
      else
        absolute ← Urllib.urljoin netloc_ok page_url href;
        internal ← _is_internal_url absolute;
        if internal : bool then
          cleaned ← _normalize_url absolute;
          more ← _extract_internal_links_loop page_url rest;
          Ret (if Str.nonempty cleaned then cleaned :: more else more)
        else _extract_internal_links_loop page_url rest
  end.

Definition _extract_internal_links (page_url : string) (soup : Soup.t)
  : exc (list string) :=
  _extract_internal_links_loop page_url (Soup.anchors soup).

(** The network seen through [session.get]: a request yields a
    response or raises [requests.RequestException] ([None]); the
    network may change with every request. *)
Variable World : Type.
Variable session_get : World -> string -> option Response.t * World.
(** [BeautifulSoup(html, "html.parser")] *)
Variable BeautifulSoup : string -> Soup.t.

Definition _fetch (w : World) (url : string) : fetch_result * World :=
  match session_get w url with
  | (None, w') => (FetchRaised, w')
  | (Some response, w') =>
      if negb (Response.ok response) then (FetchNone, w')
      else if negb (Str.contains "text/html"
                      (Response.content_type response))
      then (FetchNone, w')
      else (FetchText (Response.text response), w')
  end.

(** [if link not in self._visited and link not in queue:
    queue.append(link)] for each link. *)
Definition enqueue_links (visited : gset string) (links : list string)
    (queue : list string) : list string :=
  fold_left
    (fun queue link =>
       if negb (bool_decide (link ∈ visited))
          && negb (bool_decide (link ∈ queue))
       then queue ++ [link] else queue)
    links queue.

(** The body of the [while] loop of [crawl], after
    [url = queue.popleft()] left [queue'].  [time.sleep] changes nothing
    that is modelled.  When the extraction raises, the exception leaves
    [crawl]; the queue, a local variable, is then lost, and the state
    keeps it as it was. *)
Definition crawl_body (st : State World) (url : string)
    (queue' : list string) : step (State World) :=
  if bool_decide (url ∈ visited st)
  then Continue (mkState queue' (visited st) (resources st) (world st)
                         (fetched st))
  else
    match _fetch (world st) url with
    | (FetchRaised, w) =>
        Continue (mkState queue' (visited st) (resources st) w
                          (fetched st ++ [(url, false)]))
    | (FetchNone, w) =>
        Continue (mkState queue' ({[url]} ∪ visited st) (resources st) w
                          (fetched st ++ [(url, true)]))
    | (FetchText html, w) =>
        let visited' := {[url]} ∪ visited st in
        let log := fetched st ++ [(url, true)] in
        let soup := BeautifulSoup html in
        let page_title := _extract_page_title soup in
        match _extract_resources url page_title soup with
        | Raise e =>
            Abort e (mkState queue' visited' (resources st) w log)
        | Ret found =>
            let resources' := resources st ++ found in
            match _extract_internal_links url soup with
            | Raise e =>
                Abort e (mkState queue' visited' resources' w log)
            | Ret links =>
                Continue (mkState (enqueue_links visited' links queue')
                                  visited' resources' w log)
            end
        end
    end.

(** [while queue and len(self._visited) < self.max_pages] *)
Fixpoint crawl_loop (fuel : nat) (st : State World)
  : option (outcome (State World)) :=
  match fuel with
  | O => None
  | S fuel' =>
      match queue st with
      | [] => Some (Returned st)
      | url :: queue' =>
          if (Z.of_nat (size (visited st)) <? max_pages self)%Z then
            match crawl_body st url queue' with
            | Continue st' => crawl_loop fuel' st'
            | Break st' => Some (Returned st')
            | Abort e st' => Some (Raised e st')
            end
          else Some (Returned st)
      end
  end.

Definition crawl_init (w : World) : State World :=
  mkState [base_url self] (_visited self) [] w [].

(** [crawl()]; the returned list is [resources] of a [Returned] state
    and [visited] is [self._visited] afterwards.  [None]: the fuel did
    not suffice. *)
Definition crawl (fuel : nat) (w : World)
  : option (outcome (State World)) :=
  crawl_loop fuel (crawl_init w).

End Methods.

(** The addresses of the calls to [_fetch] that returned, oldest
    first. *)
Definition returned_fetches (log : list (string * bool)) : list string :=
  map fst (List.filter snd log).

End BFSkinnerScraper.

(* ===================================================================== *)
(** ** The specification's wording, to compare the code with *)
(* ===================================================================== *)

Module Spec.

(** An attribute's token list contains the case-insensitive token
    [flag]: one of its whitespace-separated tokens equals [flag] up to
    case. *)
Definition has_token (attribute_value flag : string) : bool :=
  existsb (fun token => String.eqb (Str.lower token) (Str.lower flag))
          (Str.split_ws attribute_value).

(** An anchor whose [rel] or [class] token list contains [next]. *)
Definition next_anchor (link : Element) : bool :=
  has_token (or_empty (ET.get link "rel")) "next"
  || has_token (or_empty (ET.get link "class")) "next".

(** The next link as the specification words it: the resolved address
    of the first anchor, in document order, that is a [next_anchor];
    none when there is no such anchor. *)
Definition find_next_link (netloc_ok : string -> bool) (self : Scraper.t)
    (root : Element) : exc (option string) :=
  match List.find next_anchor (ET.findall root "a") with
  | Some link =>
      Some <$> Urllib.urljoin netloc_ok (Scraper.base_url self)
                 (Str.strip (or_empty (ET.get link "href")))
  | None => Ret None
  end.

(** Reading "stripped only from the final result" as one strip of the
    whole subtree's text: the element's text, then for each child all
    of its text followed by its tail, with nothing stripped inside. *)
Fixpoint raw_text (element : Element) : string :=
  match element with
  | mkElement _ _ text _ children =>
      or_empty text
      +:+ Str.concat
            (map (fun child => raw_text child +:+ or_empty (ET.tail child))
                 children)
  end.

(** The next pointer of a page of a fixed web: what [parse_listing]
    finds on the page at [url], when the page can be fetched and
    parsed and names a non-empty address. *)
Definition next_of (netloc_ok : string -> bool)
    (fromstring : string -> option Element) (self : Scraper.t)
    (web : string -> option string) (url : string) : option string :=
  match web url with
  | Some html =>
      match Scraper.parse_listing netloc_ok fromstring self html with
      | Ret (_, Some n) => if Str.nonempty n then Some n else None
      | _ => None
      end
  | None => None
  end.

(** The pages linked one to the next by their next pointers. *)
Inductive next_chain (next : string -> option string)
  : list string -> Prop :=
  | chain_one (p : string) : next_chain next [p]
  | chain_cons (p q : string) (l : list string) :
      next p = Some q -> next_chain next (q :: l) ->
      next_chain next (p :: q :: l).

(** The chain stops at its last page: that page has no next pointer,
    or its next pointer repeats a page of the chain. *)
Definition chain_ends (next : string -> option string) (l : list string)
  : Prop :=
  match List.last (map Some l) None with
  | Some p =>
      match next p with
      | None => True
      | Some q => In q l
      end
  | None => True
  end.

End Spec.

(* ===================================================================== *)
(** ** Concrete pages and networks *)
(* ===================================================================== *)

Module Examples.

Definition host_check : string -> bool := Urllib.brackets_balanced.

(** *** A site for the crawler: the home page links to [/a] and [/b],
    [/b] links back to [/a], and every request for [/a] times out. *)

Definition home_html : string :=
  "<html><body><a href='/a'>A</a> <a href='/b'>Download the free guide</a></body></html>".
Definition b_html : string :=
  "<html><body><a href='/a'>A again</a></body></html>".

Definition site_get (w : unit) (url : string) : option Response.t * unit :=
  if String.eqb url "https://www.bfskinner.org/"
  then (Some (Response.mk true "text/html; charset=utf-8" home_html), w)
  else if String.eqb url "https://www.bfskinner.org/b"
  then (Some (Response.mk true "text/html; charset=utf-8" b_html), w)
  else (None, w).

Definition site_soup (html : string) : Soup.t :=
  if String.eqb html home_html
  then Soup.mk None
       [Anchor.mk "/a" "A" None;
        Anchor.mk "/b" "Download the free guide" None]
  else if String.eqb html b_html
  then Soup.mk None [Anchor.mk "/a" "A again" None]
  else Soup.mk None [].

Definition crawler (max_pages : Z) : BFSkinnerScraper.t :=
  BFSkinnerScraper.__init__ "https://www.bfskinner.org/" max_pages.

Definition site_crawl (max_pages : Z)
  : option (outcome (BFSkinnerScraper.State unit)) :=
  BFSkinnerScraper.crawl host_check (crawler max_pages) unit site_get
    site_soup 10 tt.

(** *** A crawl started from an address that is not normalized: the
    home page is reached under two spellings of its address. *)

Definition shout_html : string :=
  "<html><body><a href='/files/paper.pdf'>Paper</a> <a href='/'>Home</a></body></html>".

Definition shout_get (w : unit) (url : string) : option Response.t * unit :=
  if String.eqb url "HTTPS://www.bfskinner.org/"
     || String.eqb url "https://www.bfskinner.org/"
  then (Some (Response.mk true "text/html" shout_html), w)
  else if String.eqb url "https://www.bfskinner.org/files/paper.pdf"
  then (Some (Response.mk true "application/pdf" EmptyString), w)
  else (None, w).

Definition shout_soup (html : string) : Soup.t :=
  if String.eqb html shout_html
  then Soup.mk None
         [Anchor.mk "/files/paper.pdf" "Paper" None;
          Anchor.mk "/" "Home" None]
  else Soup.mk None [].

Definition shout_crawl : option (outcome (BFSkinnerScraper.State unit)) :=
  BFSkinnerScraper.crawl host_check
    (BFSkinnerScraper.__init__ "HTTPS://www.bfskinner.org" 10) unit
    shout_get shout_soup 10 tt.

Definition paper_record : ResourceRecord.t :=
  ResourceRecord.mk "https://www.bfskinner.org/"
    "https://www.bfskinner.org/files/paper.pdf" "Paper" "pdf" None
    (Some "Paper").

(** *** A paragraph with inner whitespace *)

Definition spaced_paragraph : Element :=
  mkElement "p" [] (Some "a ") None
    [mkElement "b" [] (Some " x ") (Some " c") []].

(** *** A page with resources of every kind *)

Definition library_soup : Soup.t :=
  Soup.mk (Some " Library ")
    [Anchor.mk "/files/paper.PDF" "Paper" (Some "Read the Paper here");
     Anchor.mk "/about" "Download the free guide" None;
     Anchor.mk "https://elsewhere.example/about" "Free download" None;
     Anchor.mk "mailto:archive@bfskinner.org?subject=paper.pdf"
               "Free pdf by mail" None;
     Anchor.mk "/files/paper.PDF" "Paper" (Some "Read the Paper here")].

(** *** A listing for the paginator: two pages, the second pointing
    back to the first *)

Definition a_el (attrib : list (string * string)) (label : string)
  : Element :=
  mkElement "a" attrib (Some label) None [].

Definition article_el (href label : string) : Element :=
  mkElement "article" [] None None
    [mkElement "h2" [] None None [a_el [("href", href)] label]].

Definition page1_html : string :=
  "<html><body><article><h2><a href='/loop'>Loop</a></h2></article><a class='next' href='/page/2'>Next</a></body></html>".
Definition page2_html : string :=
  "<html><body><article><h2><a href='/second'>Second</a></h2></article><article><h2><a href='/loop'>Loop</a></h2></article><a class='next' href='/'>Back</a></body></html>".

Definition page1 : Element :=
  mkElement "html" [] None None
    [mkElement "body" [] None None
       [article_el "/loop" "Loop";
        a_el [("class", "next"); ("href", "/page/2")] "Next"]].

Definition page2 : Element :=
  mkElement "html" [] None None
    [mkElement "body" [] None None
       [article_el "/second" "Second";
        article_el "/loop" "Loop";
        a_el [("class", "next"); ("href", "/")] "Back"]].

Definition listing_web (url : string) : option string :=
  if String.eqb url "https://example.com/" then Some page1_html
  else if String.eqb url "https://example.com/page/2" then Some page2_html
  else None.

Definition listing_open (w : unit) (url : string) : option string * unit :=
  (listing_web url, w).

Definition listing_fromstring (html : string) : option Element :=
  if String.eqb html page1_html then Some page1
  else if String.eqb html page2_html then Some page2
  else None.

Definition paginator : Scraper.t :=
  Scraper.mk "https://example.com/" Scraper.DEFAULT_USER_AGENT
             Scraper.DEFAULT_TIMEOUT.

Definition listing_scrape : option (outcome (Scraper.State unit)) :=
  Scraper.scrape host_check unit listing_open listing_fromstring paginator
    5 None tt.

(** *** The listing page of the repository's first test, blanks
    between the tags included *)

Definition test_article (href label date shown : string)
    (p_attrib : list (string * string)) (excerpt : string) : Element :=
  mkElement "article" [] (Some " ") (Some " ")
    [mkElement "h2" [("class", "entry-title")] None (Some " ")
       [a_el [("href", href)] label];
     mkElement "time" [("datetime", date)] (Some shown) (Some " ") [];
     mkElement "p" p_attrib (Some excerpt) (Some " ") []].

Definition test_listing : Element :=
  mkElement "html" [] (Some " ") None
    [mkElement "body" [] (Some " ") (Some " ")
       [mkElement "section" [("id", "posts")] (Some " ") (Some " ")
          [test_article "/article-1" "The first article" "2020-01-01"
             "January 1, 2020" [("class", "excerpt")]
             "A short summary of the first piece.";
           test_article "https://example.com/article-2" "Second article"
             "2021-03-04" "March 4, 2021" []
             "Follow-up research and commentary."];
        mkElement "nav" [("class", "pagination")] (Some " ") (Some " ")
          [mkElement "a" [("class", "next"); ("href", "/page/2")]
             (Some "Next page") (Some " ") []]]].

Definition test_scraper : Scraper.t :=
  Scraper.mk "https://example.com" Scraper.DEFAULT_USER_AGENT
             Scraper.DEFAULT_TIMEOUT.

(** *** A navigation bar whose first [next] anchor has no [href] *)

Definition nav : Element :=
  mkElement "nav" [] None None
    [a_el [("class", "Next disabled")] "Next";
     a_el [("rel", "next"); ("href", " /page/2 ")] "More"].

End Examples.

(* ===================================================================== *)
(** ** Notions used to state further properties *)
(* ===================================================================== *)

Module Notions.

(** Of the articles that share an address, the first one only. *)
Fixpoint keep_first (articles : list ArticleRecord.t)
  : list ArticleRecord.t :=
  match articles with
  | [] => []
  | a :: rest =>
      a :: List.filter
             (fun b => negb (String.eqb (ArticleRecord.url b)
                                        (ArticleRecord.url a)))
             (keep_first rest)
  end.

(** The articles [parse_listing] finds on a page of a fixed web, when
    the page can be fetched and parsed. *)
Definition articles_of (netloc_ok : string -> bool)
    (fromstring : string -> option Element) (self : Scraper.t)
    (web : string -> option string) (url : string)
  : option (list ArticleRecord.t) :=
  match web url with
  | Some html =>
      match Scraper.parse_listing netloc_ok fromstring self html with
      | Ret (articles, _) => Some articles
      | Raise _ => None
      end
  | None => None
  end.

(** A string that [strip] leaves alone: it neither starts nor ends with
    whitespace. *)
Definition stripped (s : string) : Prop :=
  Str.lstrip Str.isspace s = s /\ Str.rstrip Str.isspace s = s.

(** What every article record of the paginator satisfies: a non-empty
    title without surrounding whitespace, an address resolved from a
    non-empty stripped [href], and optional fields that are absent
    rather than empty. *)
Definition article_ok (netloc_ok : string -> bool) (self : Scraper.t)
    (a : ArticleRecord.t) : Prop :=
  Str.nonempty (ArticleRecord.title a) = true
  /\ stripped (ArticleRecord.title a)
  /\ (exists href,
        Str.nonempty href = true /\ stripped href
        /\ Urllib.urljoin netloc_ok (Scraper.base_url self) href
           = Ret (ArticleRecord.url a))
  /\ ArticleRecord.summary a <> Some EmptyString
  /\ ArticleRecord.published a <> Some EmptyString.

(** An address the crawler may ask for: the start address, or a
    non-empty normalized internal address. *)
Definition on_site (netloc_ok : string -> bool) (self : BFSkinnerScraper.t)
    (u : string) : Prop :=
  u = BFSkinnerScraper.base_url self
  \/ (Str.nonempty u = true
      /\ BFSkinnerScraper._normalize_url netloc_ok u = Ret u
      /\ BFSkinnerScraper._is_internal_url netloc_ok self u = Ret true).

(** The scraper object as a run of [crawl] leaves it: [crawl] assigns
    to no attribute and mutates [self._visited] only. *)
Definition crawled {World : Type} (self : BFSkinnerScraper.t)
    (st : BFSkinnerScraper.State World) : BFSkinnerScraper.t :=
  BFSkinnerScraper.mk (BFSkinnerScraper.base_url self)
    (BFSkinnerScraper.max_pages self) (BFSkinnerScraper.visited st).

End Notions.

(* ===================================================================== *)
(** ** More concrete pages and networks *)
(* ===================================================================== *)

Module MoreExamples.

(** *** A listing whose second page cannot be fetched *)

Definition broken_web (url : string) : option string :=
  if String.eqb url "https://example.com/" then Some Examples.page1_html
  else None.

Definition loop_article : ArticleRecord.t :=
  ArticleRecord.mk "Loop" "https://example.com/loop" None None.

Definition second_article : ArticleRecord.t :=
  ArticleRecord.mk "Second" "https://example.com/second" None None.

(** *** The crawler's site with a server that answers every request:
    what is not there is answered with an error status. *)

Definition steady_get (w : unit) (url : string) : option Response.t * unit :=
  match Examples.site_get w url with
  | (None, w') => (Some (Response.mk false "text/html" EmptyString), w')
  | answer => answer
  end.

End MoreExamples.

(* ===================================================================== *)
(** * Proofs *)
(* ===================================================================== *)

#[local] Arguments String.append : simpl nomatch.
#[local] Arguments Ascii.eqb : simpl never.

Lemma Ret_inj {A : Type} (a b : A) : Ret a = Ret b -> a = b.
Proof. congruence. Qed.

(** ** Strings *)

Section StrFacts.

Implicit Types (s a b : string) (p q : ascii -> bool) (c : ascii).

Lemma append_nil_r s : s +:+ EmptyString = s.
Proof. induction s as [|c s IH]; simpl; [done | by rewrite IH]. Qed.

Lemma append_assoc a b s : (a +:+ b) +:+ s = a +:+ (b +:+ s).
Proof. induction a as [|c a IH]; simpl; [done | by rewrite IH]. Qed.

Lemma has_char_app p a b :
  Str.has_char p (a +:+ b) = Str.has_char p a || Str.has_char p b.
Proof.
  induction a as [|c a IH]; simpl; [done|].
  by rewrite IH, orb_assoc.
Qed.

Lemma has_char_app_false p a b :
  Str.has_char p a = false -> Str.has_char p b = false ->
  Str.has_char p (a +:+ b) = false.
Proof. intros Ha Hb. by rewrite has_char_app, Ha, Hb. Qed.

Lemma has_char_app_inv p a b :
  Str.has_char p (a +:+ b) = false ->
  Str.has_char p a = false /\ Str.has_char p b = false.
Proof. rewrite has_char_app. apply orb_false_elim. Qed.

Lemma has_char_tail p s :
  Str.has_char p s = false -> Str.has_char p (Str.tail s) = false.
Proof. destruct s as [|c s]; simpl; [done|]. by intros [_ ?]%orb_false_elim. Qed.

Lemma remove_id p s : Str.has_char p s = false -> Str.remove p s = s.
Proof.
  induction s as [|c s IH]; simpl; [done|].
  intros [Hc Hs]%orb_false_elim. rewrite Hc. by rewrite IH.
Qed.

Lemma has_char_remove p s : Str.has_char p (Str.remove p s) = false.
Proof.
  induction s as [|c s IH]; simpl; [done|].
  destruct (p c) eqn:Hc; simpl; [done|]. by rewrite Hc.
Qed.

Lemma break_split p s a b : Str.break p s = (a, b) -> s = a +:+ b.
Proof.
  revert a b. induction s as [|c s IH]; simpl; intros a b.
  - by intros [= <- <-].
  - destruct (p c).
    + by intros [= <- <-].
    + destruct (Str.break p s) as [a' b'] eqn:E. intros [= <- <-].
      simpl. f_equal. by apply IH.
Qed.

Lemma break_fst p s a b :
  Str.break p s = (a, b) -> Str.has_char p a = false.
Proof.
  revert a b. induction s as [|c s IH]; simpl; intros a b.
  - by intros [= <- <-].
  - destruct (p c) eqn:Hc.
    + by intros [= <- <-].
    + destruct (Str.break p s) as [a' b'] eqn:E. intros [= <- <-].
      simpl. rewrite Hc. simpl. by eapply IH.
Qed.

Lemma break_snd p s a b :
  Str.break p s = (a, b) -> Str.starts_with_char p b.
Proof.
  revert a b. induction s as [|c s IH]; simpl; intros a b.
  - by intros [= <- <-].
  - destruct (p c) eqn:Hc.
    + by intros [= <- <-].
    + destruct (Str.break p s) as [a' b'] eqn:E. intros [= <- <-].
      by eapply IH.
Qed.

Lemma break_app p a b :
  Str.has_char p a = false -> Str.starts_with_char p b ->
  Str.break p (a +:+ b) = (a, b).
Proof.
  intros Ha Hb. induction a as [|c a IH]; simpl in *.
  - destruct b as [|c b]; simpl in *; [done|]. by rewrite Hb.
  - apply orb_false_elim in Ha as [Hc Ha]. rewrite Hc, IH; done.
Qed.

Lemma break_none p s : Str.has_char p s = false -> Str.break p s = (s, EmptyString).
Proof.
  intros H. rewrite <- (append_nil_r s) at 1. by apply break_app.
Qed.

Lemma rbreak_app c a r :
  Str.has_char (Str.ch c) r = false ->
  Str.rbreak c (a +:+ String c r) = Some (a, String c r).
Proof.
  intros Hr.
  assert (Hn : Str.rbreak c r = None).
  { clear a. induction r as [|x r IH]; simpl in *; [done|].
    apply orb_false_elim in Hr as [Hx Hr]. rewrite (IH Hr).
    unfold Str.ch in Hx. rewrite Ascii.eqb_sym in Hx. by rewrite Hx. }
  induction a as [|x a IH]; simpl.
  - rewrite Hn. by rewrite Ascii.eqb_refl.
  - by rewrite IH.
Qed.

Lemma rbreak_some c s a b :
  Str.rbreak c s = Some (a, b) ->
  s = a +:+ b /\ exists r, b = String c r /\ Str.has_char (Str.ch c) r = false.
Proof.
  revert a b. induction s as [|x s IH]; simpl; intros a b; [done|].
  destruct (Str.rbreak c s) as [[a' b']|] eqn:E.
  - intros [= <- <-]. destruct (IH _ _ eq_refl) as (-> & r & -> & Hr).
    split; [done|]. eauto.
  - destruct (Ascii.eqb x c) eqn:Hx; [|done]. intros [= <- <-].
    apply Ascii.eqb_eq in Hx as ->. split; [done|]. exists s. split; [done|].
    clear IH. induction s as [|y s IH]; simpl in *; [done|].
    destruct (Str.rbreak c s) as [[? ?]|] eqn:E'; [done|].
    destruct (Ascii.eqb y c) eqn:Hy; [done|].
    unfold Str.ch. rewrite Ascii.eqb_sym, Hy. simpl. by apply IH.
Qed.

Lemma rbreak_none c s :
  Str.rbreak c s = None -> Str.has_char (Str.ch c) s = false.
Proof.
  induction s as [|y s IH]; simpl; [done|].
  destruct (Str.rbreak c s) as [[? ?]|] eqn:E'; [done|].
  destruct (Ascii.eqb y c) eqn:Hy; [done|]. intros _.
  unfold Str.ch. rewrite Ascii.eqb_sym, Hy. simpl. by apply IH.
Qed.

Lemma lstrip_suffix p q s :
  Str.has_char q s = false -> Str.has_char q (Str.lstrip p s) = false.
Proof.
  induction s as [|c s IH]; simpl; [done|].
  intros H. destruct (p c); [|done].
  apply IH. by apply orb_false_elim in H as [_ ?].
Qed.

Lemma lstrip_head p s :
  match Str.lstrip p s with
  | EmptyString => True
  | String c _ => p c = false
  end.
Proof.
  induction s as [|c s IH]; simpl; [done|].
  destruct (p c) eqn:Hc; [done|]. simpl. done.
Qed.

Lemma lstrip_id p c s : p c = false -> Str.lstrip p (String c s) = String c s.
Proof. intros H. simpl. by rewrite H. Qed.

Lemma nonempty_true s : Str.nonempty s = true <-> s <> EmptyString.
Proof. destruct s; simpl; split; congruence. Qed.

Lemma nonempty_false s : Str.nonempty s = false <-> s = EmptyString.
Proof. destruct s; simpl; split; congruence. Qed.

End StrFacts.

(** ** [urllib.parse] *)

Section UrllibFacts.

Implicit Types (s a b url : string) (c : ascii).

Lemma lower_char_idem c : Str.lower_char (Str.lower_char c) = Str.lower_char c.
Proof. destruct c as [[] [] [] [] [] [] [] []]; reflexivity. Qed.

Lemma lower_idem s : Str.lower (Str.lower s) = Str.lower s.
Proof.
  induction s as [|c s IH]; simpl; [done|].
  by rewrite lower_char_idem, IH.
Qed.

Lemma is_alpha_lower c :
  Urllib.is_alpha c = true -> Urllib.is_alpha (Str.lower_char c) = true.
Proof. destruct c as [[] [] [] [] [] [] [] []]; vm_compute; congruence. Qed.

Lemma scheme_char_lower c :
  Urllib.scheme_char c = true -> Urllib.scheme_char (Str.lower_char c) = true.
Proof. destruct c as [[] [] [] [] [] [] [] []]; vm_compute; congruence. Qed.

Lemma scheme_char_not_colon c :
  Urllib.scheme_char c = true -> Str.ch ":" c = false.
Proof. destruct c as [[] [] [] [] [] [] [] []]; vm_compute; congruence. Qed.

Lemma scheme_char_not_unsafe c :
  Urllib.scheme_char c = true -> Urllib.unsafe_byte c = false.
Proof. destruct c as [[] [] [] [] [] [] [] []]; vm_compute; congruence. Qed.

Lemma is_alpha_not_c0 c :
  Urllib.is_alpha c = true -> Urllib.c0_or_space c = false.
Proof. destruct c as [[] [] [] [] [] [] [] []]; vm_compute; congruence. Qed.

Lemma netloc_delim_cases c :
  Urllib.netloc_delim c = true -> Str.ch "#" c = false ->
  Str.ch "?" c = false -> c = "/"%char.
Proof. destruct c as [[] [] [] [] [] [] [] []]; vm_compute; congruence. Qed.

Lemma all_chars_lower s :
  Str.all_chars Urllib.scheme_char s = true ->
  Str.all_chars Urllib.scheme_char (Str.lower s) = true.
Proof.
  induction s as [|c s IH]; simpl; [done|].
  intros [Hc Hs]%andb_prop. by rewrite scheme_char_lower, IH.
Qed.

Lemma all_chars_excludes (p q : ascii -> bool) s :
  (forall c, p c = true -> q c = false) ->
  Str.all_chars p s = true -> Str.has_char q s = false.
Proof.
  intros Hpq. induction s as [|c s IH]; simpl; [done|].
  intros [Hc Hs]%andb_prop. by rewrite (Hpq c Hc), IH.
Qed.

(** What [urlsplit] accepts as a scheme, once lowercased. *)
Lemma split_scheme_some url sch rest :
  Urllib.split_scheme url = Some (sch, rest) ->
  (exists c r, sch = String c r /\ Urllib.is_alpha c = true)
  /\ Str.all_chars Urllib.scheme_char sch = true
  /\ Str.lower sch = sch
  /\ exists pre, url = pre +:+ String ":" rest.
Proof.
  unfold Urllib.split_scheme.
  destruct (Str.break (Str.ch ":") url) as [pre post] eqn:E.
  destruct pre as [|c0 pre]; [done|]. destruct post as [|x post]; [done|].
  destruct (Urllib.is_alpha c0 && _) eqn:Hc; [|done].
  apply andb_prop in Hc as [Ha Hall]. intros [= <- <-].
  pose proof (break_snd _ _ _ _ E) as Hx.
  change (Ascii.eqb ":" x = true) in Hx. apply Ascii.eqb_eq in Hx as <-.
  split; [|split; [|split]].
  - eexists _, _. split; [done|]. by apply is_alpha_lower.
  - by apply (all_chars_lower (String c0 pre)).
  - apply (lower_idem (String c0 pre)).
  - exists (String c0 pre). by apply break_split in E.
Qed.

Lemma split_scheme_build c r rest :
  Urllib.is_alpha c = true ->
  Str.all_chars Urllib.scheme_char (String c r) = true ->
  Str.lower (String c r) = String c r ->
  Urllib.split_scheme (String c r +:+ String ":" rest)
  = Some (String c r, rest).
Proof.
  intros Ha Hall Hlow. unfold Urllib.split_scheme.
  rewrite break_app.
  - by rewrite Ha, Hall, Hlow.
  - by apply (all_chars_excludes Urllib.scheme_char), Hall;
      apply scheme_char_not_colon.
  - reflexivity.
Qed.

Lemma startswith_slash s :
  Str.startswith "/" s = true <-> exists r, s = String "/" r.
Proof.
  destruct s as [|c s]; simpl; [split; [done | by intros [? ?]]|].
  rewrite andb_true_r. split.
  - intros H%Ascii.eqb_eq. subst. eauto.
  - intros [r [= -> _]]. done.
Qed.

(** Splitting the parameters off a rooted path leaves a rooted path
    that has none. *)
Lemma splitparams_fix url :
  Str.startswith "/" url = true ->
  let pth := fst (Urllib._splitparams url) in
  Str.startswith "/" pth = true
  /\ Urllib._splitparams pth = (pth, EmptyString)
  /\ exists rest, url = pth +:+ rest.
Proof.
  intros Hroot. unfold Urllib._splitparams.
  destruct (Str.rbreak "/" url) as [[a b]|] eqn:E.
  - apply rbreak_some in E as (Hurl & r & -> & Hr).
    destruct (Str.break (Str.ch ";") (String "/" r)) as [p q] eqn:Ep.
    destruct q as [|x q]; cbn [fst].
    + split; [done|]. split.
      * subst url. rewrite rbreak_app by done. by rewrite Ep.
      * exists EmptyString. by rewrite append_nil_r.
    + cbn [Str.break] in Ep. change (Str.ch ";" "/") with false in Ep.
      destruct (Str.break (Str.ch ";") r) as [p' q'] eqn:Ep'.
      injection Ep as <- ->.
      pose proof (break_split _ _ _ _ Ep') as Hr'.
      pose proof (break_fst _ _ _ _ Ep') as Hp'.
      assert (Hp'' : Str.has_char (Str.ch "/") p' = false).
      { subst r. by apply has_char_app_inv in Hr as [? _]. }
      split; [|split].
      * subst url. apply startswith_slash in Hroot as [r0 Hr0].
        apply startswith_slash. destruct a as [|y a]; simpl in *.
        -- eauto.
        -- injection Hr0 as -> _. eauto.
      * rewrite rbreak_app by done.
        change (Str.break (Str.ch ";") (String "/" p'))
          with (let '(a0, b0) := Str.break (Str.ch ";") p' in
                (String "/" a0, b0)).
        by rewrite (break_none _ _ Hp').
      * exists (String x q). subst url r.
        change (String "/" (p' +:+ String x q))
          with (String "/" p' +:+ String x q).
        by rewrite append_assoc.
  - apply rbreak_none in E. apply startswith_slash in Hroot as [r ->].
    simpl in E. done.
Qed.

End UrllibFacts.

Section UrlsplitFacts.

Variable netloc_ok : string -> bool.
Implicit Types (s a b url sch loc pth qry frag : string) (c : ascii).

Lemma has_char_weaken (p q : ascii -> bool) s :
  (forall c, q c = true -> p c = true) ->
  Str.has_char p s = false -> Str.has_char q s = false.
Proof.
  intros Hqp. induction s as [|c s IH]; simpl; [done|].
  intros [Hc Hs]%orb_false_elim. rewrite (IH Hs), orb_false_r.
  destruct (q c) eqn:Hq; [|done]. by rewrite (Hqp c Hq) in Hc.
Qed.

Lemma drop_suffix (p : ascii -> bool) n s :
  Str.has_char p s = false -> Str.has_char p (Str.drop n s) = false.
Proof.
  revert s. induction n as [|n IH]; intros [|c s]; simpl; try done.
  intros [_ Hs]%orb_false_elim. by apply IH.
Qed.

(** The components [urlsplit] returns for an address with a host. *)
Lemma urlsplit_inv url sch loc pth qry frag :
  Urllib.urlsplit netloc_ok url EmptyString = Ret (sch, loc, pth, qry, frag) ->
  Str.nonempty loc = true ->
  (sch = EmptyString
   \/ exists c r, sch = String c r /\ Urllib.is_alpha c = true
        /\ Str.all_chars Urllib.scheme_char sch = true
        /\ Str.lower sch = sch)
  /\ netloc_ok loc = true
  /\ Str.has_char Urllib.netloc_delim loc = false
  /\ Str.has_char Urllib.unsafe_byte loc = false
  /\ (pth = EmptyString \/ Str.startswith "/" pth = true)
  /\ Str.has_char (Str.ch "?") pth = false
  /\ Str.has_char (Str.ch "#") pth = false
  /\ Str.has_char Urllib.unsafe_byte pth = false
  /\ Str.has_char (Str.ch "#") qry = false
  /\ Str.has_char Urllib.unsafe_byte qry = false.
Proof.
  unfold Urllib.urlsplit.
  set (url1 := Str.remove Urllib.unsafe_byte
                 (Str.lstrip Urllib.c0_or_space url)).
  assert (H1 : Str.has_char Urllib.unsafe_byte url1 = false)
    by apply has_char_remove.
  change (Str.remove Urllib.unsafe_byte
            (Str.strip_with Urllib.c0_or_space EmptyString))
    with EmptyString.
  clearbody url1. clear url.
  destruct (match Urllib.split_scheme url1 with
            | Some (s, rest) => (s, rest)
            | None => (EmptyString, url1)
            end) as [sch0 url2] eqn:E1.
  assert (Hsch : (sch0 = EmptyString
                  \/ exists c r, sch0 = String c r
                       /\ Urllib.is_alpha c = true
                       /\ Str.all_chars Urllib.scheme_char sch0 = true
                       /\ Str.lower sch0 = sch0)
                 /\ Str.has_char Urllib.unsafe_byte url2 = false).
  { destruct (Urllib.split_scheme url1) as [[s rest]|] eqn:E;
      injection E1 as <- <-; [|by split; [left|]].
    apply split_scheme_some in E as ((c & r & -> & Ha) & Hall & Hlow & pre & ->).
    split; [right; eauto 10|].
    apply has_char_app_inv in H1 as [_ H1]. by apply has_char_tail in H1. }
  destruct Hsch as [Hsch H2]. clear E1 H1 url1.
  unfold mbind, exc_bind.
  destruct (Str.startswith "//" url2) eqn:Hss.
  - destruct (Str.break Urllib.netloc_delim (Str.drop 2 url2))
      as [loc0 rest3] eqn:E3.
    destruct (netloc_ok loc0) eqn:Hok; [|done].
    unfold Urllib.cut.
    destruct (Str.break (Str.ch "#") rest3) as [url4 b4] eqn:E4.
    destruct (Str.break (Str.ch "?") url4) as [url5 b5] eqn:E5.
    intros [= <- <- <- <- <-] Hne.
    assert (H3 : Str.has_char Urllib.unsafe_byte (Str.drop 2 url2) = false)
      by by apply drop_suffix.
    pose proof (break_split _ _ _ _ E3) as S3.
    pose proof (break_split _ _ _ _ E4) as S4.
    pose proof (break_split _ _ _ _ E5) as S5.
    rewrite S3 in H3. apply has_char_app_inv in H3 as [Hl3 Hr3].
    rewrite S4 in Hr3. apply has_char_app_inv in Hr3 as [Hu4 _].
    pose proof (break_fst _ _ _ _ E4) as F4.
    rewrite S5 in Hu4, F4.
    apply has_char_app_inv in Hu4 as [Hu5 Hb5].
    apply has_char_app_inv in F4 as [F5 G5].
    split; [done|]. split; [done|].
    split; [by eapply break_fst|]. split; [done|].
    split; [|split; [by eapply break_fst|split; [done|split; [done|]]]].
    + pose proof (break_snd _ _ _ _ E3) as D3.
      destruct rest3 as [|c r3]; cbn [Str.break] in E4.
      { injection E4 as <- <-. cbn [Str.break] in E5.
        injection E5 as <- <-. by left. }
      cbn [Str.starts_with_char] in D3.
      destruct (Str.ch "#" c) eqn:Hc1.
      { injection E4 as <- <-. cbn [Str.break] in E5.
        injection E5 as <- <-. by left. }
      destruct (Str.break (Str.ch "#") r3) as [a4 b4'].
      injection E4 as <- <-. cbn [Str.break] in E5.
      destruct (Str.ch "?" c) eqn:Hc2; [by injection E5 as <- <-; left|].
      destruct (Str.break (Str.ch "?") a4) as [a5 b5'].
      injection E5 as <- <-. right.
      by rewrite (netloc_delim_cases c D3 Hc1 Hc2).
    + split; by apply has_char_tail.
  - destruct (Urllib.cut "#" url2) as [u4 f4].
    destruct (Urllib.cut "?" u4) as [u5 q5].
    by intros [= <- <- <- <- <-].
Qed.

Lemma urlsplit_build c r loc pth qry :
  Urllib.is_alpha c = true ->
  Str.all_chars Urllib.scheme_char (String c r) = true ->
  Str.lower (String c r) = String c r ->
  netloc_ok loc = true ->
  Str.has_char Urllib.netloc_delim loc = false ->
  Str.has_char Urllib.unsafe_byte loc = false ->
  Str.startswith "/" pth = true ->
  Str.has_char (Str.ch "?") pth = false ->
  Str.has_char (Str.ch "#") pth = false ->
  Str.has_char Urllib.unsafe_byte pth = false ->
  Str.has_char (Str.ch "#") qry = false ->
  Str.has_char Urllib.unsafe_byte qry = false ->
  Urllib.urlsplit netloc_ok
    (String c r +:+ "://" +:+ loc +:+ pth
     +:+ (if Str.nonempty qry then "?" +:+ qry else EmptyString)
     +:+ EmptyString) EmptyString
  = Ret (String c r, loc, pth, qry, EmptyString).
Proof.
  intros Ha Hall Hlow Hok Hld Hlu Hroot Hpq Hpf Hpu Hqf Hqu.
  rewrite append_nil_r.
  set (q' := if Str.nonempty qry then "?" +:+ qry else EmptyString).
  assert (Hq'u : Str.has_char Urllib.unsafe_byte q' = false).
  { subst q'. destruct (Str.nonempty qry); [|done]. by apply has_char_app_false. }
  assert (Hq'f : Str.has_char (Str.ch "#") q' = false).
  { subst q'. destruct (Str.nonempty qry); [|done]. by apply has_char_app_false. }
  unfold Urllib.urlsplit.
  change (Str.remove Urllib.unsafe_byte
            (Str.strip_with Urllib.c0_or_space EmptyString))
    with EmptyString.
  change (String c r +:+ "://" +:+ loc +:+ pth +:+ q')
    with (String c (r +:+ "://" +:+ loc +:+ pth +:+ q')) at 1.
  rewrite lstrip_id by by apply is_alpha_not_c0.
  change (String c (r +:+ "://" +:+ loc +:+ pth +:+ q'))
    with (String c r +:+ String ":" ("//" +:+ loc +:+ pth +:+ q')).
  rewrite remove_id.
  2:{ apply has_char_app_false.
      - by apply (all_chars_excludes Urllib.scheme_char), Hall;
          apply scheme_char_not_unsafe.
      - change (String ":" ("//" +:+ loc +:+ pth +:+ q'))
          with ("://" +:+ (loc +:+ pth +:+ q')).
        repeat (apply has_char_app_false; try done). }
  rewrite split_scheme_build by done.
  change (Str.startswith "//" ("//" +:+ loc +:+ pth +:+ q')) with true.
  change (Str.drop 2 ("//" +:+ loc +:+ pth +:+ q')) with (loc +:+ pth +:+ q').
  cbv iota beta.
  apply startswith_slash in Hroot as [p' ->].
  rewrite (break_app Urllib.netloc_delim loc) by done.
  rewrite Hok. unfold mbind, exc_bind, Urllib.cut.
  rewrite (break_none (Str.ch "#")) by by apply has_char_app_false.
  cbn [Str.tail].
  assert (Hcut : Str.break (Str.ch "?") (String "/" p' +:+ q')
                 = (String "/" p', if Str.nonempty qry
                                   then String "?" qry else EmptyString)).
  { subst q'. destruct (Str.nonempty qry).
    - by apply break_app.
    - rewrite append_nil_r. by apply break_none. }
  rewrite Hcut. by destruct qry.
Qed.

End UrlsplitFacts.

(** ** Normalization *)

Section NormalizeFacts.

Variable netloc_ok : string -> bool.

Lemma mem_uses_params_default sch :
  Str.mem (if Str.nonempty sch then sch else "https") Urllib.uses_params
  = Str.mem sch Urllib.uses_params.
Proof. by destruct sch. Qed.

(** Parsing a normalized address with a host gives back the components
    it was built from. *)
Lemma urlparse_rebuild u p :
  Urllib.urlparse netloc_ok u = Ret p ->
  Str.nonempty (netloc p) = true ->
  let sch := if Str.nonempty (scheme p) then scheme p else "https" in
  let pth := if Str.nonempty (path p) then path p else "/" in
  Urllib.urlparse netloc_ok
    (sch +:+ "://" +:+ netloc p +:+ pth
     +:+ (if Str.nonempty (query p) then "?" +:+ query p else EmptyString)
     +:+ EmptyString)
  = Ret (mkParseResult sch (netloc p) pth EmptyString (query p) EmptyString).
Proof.
  unfold Urllib.urlparse, Urllib.urlparse_with.
  destruct (Urllib.urlsplit netloc_ok u EmptyString)
    as [[[[[sch0 loc] pth0] qry] frag]|] eqn:Es; [|done].
  unfold mbind at 1, exc_bind at 1.
  destruct (if Str.mem sch0 Urllib.uses_params
               && Str.has_char (Str.ch ";") pth0
            then Urllib._splitparams pth0 else (pth0, EmptyString))
    as [pth1 prm] eqn:Ep.
  intros [= <-] Hne. cbn [scheme netloc path query] in *.
  destruct (urlsplit_inv netloc_ok _ _ _ _ _ _ Es Hne)
    as (Hsch & Hok & Hld & Hlu & Hroot & Hpq & Hpf & Hpu & Hqf & Hqu).
  set (sch := if Str.nonempty sch0 then sch0 else "https").
  set (pth := if Str.nonempty pth1 then pth1 else "/").
  (* the path that was returned *)
  assert (Hpth : Str.startswith "/" pth = true
                 /\ Str.has_char (Str.ch "?") pth = false
                 /\ Str.has_char (Str.ch "#") pth = false
                 /\ Str.has_char Urllib.unsafe_byte pth = false
                 /\ (if Str.mem sch Urllib.uses_params
                        && Str.has_char (Str.ch ";") pth
                     then Urllib._splitparams pth else (pth, EmptyString))
                    = (pth, EmptyString)).
  { subst sch. rewrite mem_uses_params_default.
    destruct (Str.mem sch0 Urllib.uses_params
              && Str.has_char (Str.ch ";") pth0) eqn:Hc.
    - apply andb_prop in Hc as [Hm Hsemi]. rewrite Hm.
      destruct Hroot as [-> | Hroot]; [done|].
      destruct (splitparams_fix pth0 Hroot) as (Hr1 & Hfix & rest & Hpre).
      rewrite Ep in Hr1, Hfix, Hpre. cbn [fst] in *.
      assert (pth = pth1) as ->.
      { subst pth. apply startswith_slash in Hr1 as [? ->]. done. }
      rewrite Hpre in Hpq, Hpf, Hpu.
      apply has_char_app_inv in Hpq as [? _].
      apply has_char_app_inv in Hpf as [? _].
      apply has_char_app_inv in Hpu as [? _].
      repeat (split; [done|]).
      rewrite Hfix. by destruct (_ && _).
    - injection Ep as <- <-.
      destruct Hroot as [-> | Hroot].
      + subst pth. cbn. by rewrite andb_false_r.
      + assert (pth = pth0) as ->.
        { subst pth. apply startswith_slash in Hroot as [? ->]. done. }
        repeat (split; [done|]). by rewrite Hc. }
  destruct Hpth as (Hr & Hq & Hf & Hu & Hstable).
  assert (Hs : exists c r, sch = String c r /\ Urllib.is_alpha c = true
                 /\ Str.all_chars Urllib.scheme_char sch = true
                 /\ Str.lower sch = sch).
  { subst sch. destruct Hsch as [-> | (c & r & -> & ?)].
    - by exists "h"%char, "ttps".
    - exists c, r. done. }
  destruct Hs as (c & r & Hs & Ha & Hall & Hlow). rewrite Hs in *.
  rewrite (urlsplit_build netloc_ok c r loc pth qry) by done.
  unfold mbind, exc_bind. by rewrite Hstable.
Qed.

(** A normalized address is a fixed point of normalization. *)
Lemma normalize_url_fixed u v :
  BFSkinnerScraper._normalize_url netloc_ok u = Ret v ->
  BFSkinnerScraper._normalize_url netloc_ok v = Ret v.
Proof.
  unfold BFSkinnerScraper._normalize_url at 1.
  destruct (Urllib.urlparse netloc_ok u) as [p|] eqn:E; [|done].
  unfold mbind, exc_bind. cbv zeta.
  destruct (Str.nonempty (netloc p)) eqn:Hn; intros <-%Ret_inj.
  - unfold BFSkinnerScraper._normalize_url.
    rewrite (urlparse_rebuild u p E Hn). unfold mbind, exc_bind.
    cbv zeta. cbn [scheme netloc path query]. rewrite Hn.
    destruct (Str.nonempty (scheme p)) eqn:Hs,
      (Str.nonempty (path p)) eqn:Hp; cbn [Str.nonempty];
      by rewrite ?Hs, ?Hp.
  - unfold BFSkinnerScraper._normalize_url. rewrite E.
    unfold mbind, exc_bind. cbv zeta. by rewrite Hn.
Qed.

End NormalizeFacts.

(** Normalization on sample addresses: the scheme defaults to [https],
    the empty path to [/], the fragment and the parameters of the last
    path segment go, and an address without a host is left as it is. *)
Example normalize_url_samples :
  BFSkinnerScraper._normalize_url Examples.host_check
    "//example.com/a;b?x=1#top" = Ret "https://example.com/a?x=1"
  /\ BFSkinnerScraper._normalize_url Examples.host_check
       "HTTP://example.com" = Ret "http://example.com/"
  /\ BFSkinnerScraper._normalize_url Examples.host_check
       "/just/a/path#top" = Ret "/just/a/path#top"
  /\ BFSkinnerScraper._normalize_url Examples.host_check
       "http://[::1/" = Raise ValueError.
Proof. repeat split; vm_compute; reflexivity. Qed.

(** C5. Normalizing an address twice gives what normalizing it once gives:
    the same address when [urlparse] accepts it, the same [ValueError]
    when it does not.  The host validation of [urlsplit] is arbitrary. *)
Theorem normalize_url_idempotent (netloc_ok : string -> bool) (u : string) :
  (v ← BFSkinnerScraper._normalize_url netloc_ok u;
   BFSkinnerScraper._normalize_url netloc_ok v)
  = BFSkinnerScraper._normalize_url netloc_ok u.
Proof.
  destruct (BFSkinnerScraper._normalize_url netloc_ok u) as [v|e] eqn:E.
  - unfold mbind, exc_bind. by apply (normalize_url_fixed netloc_ok u).
  - done.
Qed.

(** ** The paginator's extraction *)

Section TextFacts.

Implicit Types (s t cur : string) (p : ascii -> bool).

Lemma concat_app (l1 l2 : list string) :
  Str.concat (l1 ++ l2) = Str.concat l1 +:+ Str.concat l2.
Proof.
  induction l1 as [|x l1 IH]; simpl; [done|].
  by rewrite IH, append_assoc.
Qed.

Lemma or_empty_falsy (o : option string) :
  truthy o = false -> or_empty o = EmptyString.
Proof. destruct o as [[|c s]|]; simpl; congruence. Qed.

(** The loop of [_text_content] appends, child by child, the child's
    flattened text and its tail. *)
Lemma text_content_parts (f : Element -> string) (children : list Element)
    (parts : list string) :
  Str.concat
    (fold_left
       (fun parts child =>
          let parts := parts ++ [f child] in
          if truthy (ET.tail child)
          then parts ++ [or_empty (ET.tail child)] else parts)
       children parts)
  = Str.concat parts
    +:+ Str.concat
          (map (fun child => f child +:+ or_empty (ET.tail child)) children).
Proof.
  revert parts. induction children as [|child rest IH]; intros parts;
    cbn [fold_left map Str.concat].
  - by rewrite append_nil_r.
  - rewrite IH. destruct (truthy (ET.tail child)) eqn:Ht.
    + rewrite !concat_app. cbn [Str.concat].
      by rewrite !append_nil_r, !append_assoc.
    + rewrite (or_empty_falsy _ Ht), concat_app. cbn [Str.concat].
      by rewrite !append_nil_r, !append_assoc.
Qed.

Lemma rstrip_clean p s : Str.has_char p s = false -> Str.rstrip p s = s.
Proof.
  induction s as [|c s IH]; simpl; [done|].
  intros [Hc Hs]%orb_false_elim. rewrite (IH Hs), Hc. by destruct s.
Qed.

Lemma lstrip_clean p s : Str.has_char p s = false -> Str.lstrip p s = s.
Proof.
  destruct s as [|c s]; simpl; [done|].
  intros [Hc _]%orb_false_elim. by rewrite Hc.
Qed.

Lemma strip_clean s : Str.has_char Str.isspace s = false -> Str.strip s = s.
Proof.
  intros H. unfold Str.strip, Str.strip_with.
  by rewrite rstrip_clean, lstrip_clean.
Qed.

(** The tokens of [s.split()] are non-empty and free of whitespace. *)
Lemma split_ws_aux_tokens cur s t :
  Str.has_char Str.isspace cur = false ->
  In t (Str.split_ws_aux cur s) ->
  Str.nonempty t = true /\ Str.has_char Str.isspace t = false.
Proof.
  revert cur. induction s as [|c s IH]; intros cur Hcur; simpl.
  - destruct (Str.nonempty cur) eqn:Hn; [|done].
    intros [<- | []]. done.
  - destruct (Str.isspace c) eqn:Hc.
    + destruct (Str.nonempty cur) eqn:Hn.
      * intros [<- | Hin]; [done|]. by apply (IH EmptyString).
      * by apply (IH EmptyString).
    + apply IH. rewrite has_char_app, Hcur. simpl. by rewrite Hc.
Qed.

Lemma split_ws_tokens s t :
  In t (Str.split_ws s) ->
  Str.nonempty t = true /\ Str.strip t = t.
Proof.
  intros [Hn Hc]%split_ws_aux_tokens; [|done].
  split; [done|]. by apply strip_clean.
Qed.

(** [_contains_flag] is membership of the flag, up to case, among the
    whitespace-separated tokens. *)
Lemma contains_flag_has_token attribute_value flag :
  Scraper._contains_flag attribute_value flag
  = Spec.has_token attribute_value flag.
Proof.
  unfold Scraper._contains_flag, Spec.has_token, Str.mem.
  pose proof (split_ws_tokens attribute_value) as Htok.
  induction (Str.split_ws attribute_value) as [|t ts IH];
    cbn [List.filter map existsb]; [done|].
  destruct (Htok t (or_introl eq_refl)) as [Hn Hs].
  rewrite Hs, Hn. cbn [map existsb]. rewrite Hs, String.eqb_sym.
  f_equal. apply IH. intros t' Hin. apply Htok. by right.
Qed.

End TextFacts.

(** C3. The text of an element is the concatenation, in document order,
    of its own text and, for each child, the child's flattened text
    followed by the child's tail, stripped once at the end; an absent
    element has the empty text. *)
Theorem text_content_flattens (tag : string) (attrib : list (string * string))
    (text tail : option string) (children : list Element) :
  Scraper._text_content (Some (mkElement tag attrib text tail children))
  = Str.strip
      (or_empty text
       +:+ Str.concat
             (map (fun child =>
                     Scraper._text_content (Some child)
                     +:+ or_empty (ET.tail child))
                  children))
  /\ Scraper._text_content None = EmptyString.
Proof.
  split; [|done].
  cbn [Scraper._text_content Scraper._text_content_el].
  rewrite (text_content_parts Scraper._text_content_el).
  cbn [Str.concat]. by rewrite append_nil_r.
Qed.

(** The flattened text of a child is itself stripped before it is
    concatenated: stripping the whole subtree's text once would keep the
    child's inner blanks. *)
Example text_content_strips_each_level :
  Scraper._text_content (Some Examples.spaced_paragraph) = "a x c"
  /\ Str.strip (Spec.raw_text Examples.spaced_paragraph) = "a  x  c".
Proof. split; vm_compute; reflexivity. Qed.

(** C10. [Scraper(base_url)] raises [ValueError] when [base_url] is empty,
    and otherwise returns the scraper holding that [base_url]; nothing
    else happens before the test. *)
Theorem scraper_init_checks_base_url (base_url user_agent : string)
    (timeout : Z) :
  Scraper.__init__ base_url user_agent timeout
  = if decide (base_url = EmptyString) then Raise ValueError
    else Ret (Scraper.mk base_url user_agent timeout).
Proof. unfold Scraper.__init__. by destruct base_url. Qed.

(** [test_parse_listing_extracts_articles_and_next_link], replayed on
    the parsed page. *)
Example parse_listing_test_page :
  Scraper._extract_articles Examples.host_check Examples.test_scraper
    Examples.test_listing
  = Ret [ArticleRecord.mk "The first article" "https://example.com/article-1"
           (Some "A short summary of the first piece.") (Some "2020-01-01");
         ArticleRecord.mk "Second article" "https://example.com/article-2"
           (Some "Follow-up research and commentary.") (Some "2021-03-04")]
  /\ Scraper._find_next_link Examples.host_check Examples.test_scraper
       Examples.test_listing
     = Ret (Some "https://example.com/page/2").
Proof. split; vm_compute; reflexivity. Qed.

(** C8, as the code has it. The next link is the resolved address of the
    first anchor, in document order among the descendants of the root,
    that both carries the token [next] (up to case) in its [rel] or
    [class] attribute and has an [href] that is non-empty once stripped;
    the stripped [href] is what is resolved.  There is none when no anchor
    qualifies. *)
Theorem find_next_link_first_usable (netloc_ok : string -> bool)
    (self : Scraper.t) (root : Element) :
  Scraper._find_next_link netloc_ok self root
  = match
      List.find
        (fun link =>
           Spec.next_anchor link
           && Str.nonempty (Str.strip (or_empty (ET.get link "href"))))
        (ET.findall root "a")
    with
    | Some link =>
        Some <$> Urllib.urljoin netloc_ok (Scraper.base_url self)
                   (Str.strip (or_empty (ET.get link "href")))
    | None => Ret None
    end.
Proof.
  unfold Scraper._find_next_link.
  induction (ET.findall root "a") as [|link rest IH];
    cbn [Scraper._find_next_link_loop List.find]; [done|].
  unfold Spec.next_anchor. rewrite !contains_flag_has_token.
  destruct (Spec.has_token _ _ || Spec.has_token _ _); cbn [andb]; [|done].
  by destruct (Str.nonempty _).
Qed.

(** C8, as stated, fails: in a navigation bar whose first [next] anchor
    has no [href], the code answers with the address of the second
    anchor, where the stated rule picks the first. *)
Lemma find_next_link_skips_hrefless :
  Scraper._find_next_link Examples.host_check Examples.paginator Examples.nav
  = Ret (Some "https://example.com/page/2")
  /\ Spec.find_next_link Examples.host_check Examples.paginator Examples.nav
     = Ret (Some "https://example.com/").
Proof. split; vm_compute; reflexivity. Qed.

(** ** Resource classification *)

Section ClassifyFacts.

Implicit Types (s a b ext : string).

Lemma endswith_refl s : Str.endswith s s = true.
Proof. destruct s; cbn [Str.endswith]; by rewrite String.eqb_refl. Qed.

Lemma endswith_tail suf c s :
  Str.endswith suf s = true -> Str.endswith suf (String c s) = true.
Proof. intros H. cbn [Str.endswith]. rewrite H. apply orb_true_r. Qed.

(** Two suffixes of one string: one is a suffix of the other. *)
Lemma endswith_total a b s :
  Str.endswith a s = true -> Str.endswith b s = true ->
  Str.endswith a b = true \/ Str.endswith b a = true.
Proof.
  induction s as [|c s IH]; cbn [Str.endswith].
  - rewrite !orb_false_r. intros Ha%String.eqb_eq Hb%String.eqb_eq.
    subst. left. apply endswith_refl.
  - intros [Ha%String.eqb_eq | Ha]%orb_prop [Hb%String.eqb_eq | Hb]%orb_prop.
    + subst. left. apply endswith_refl.
    + subst a. right. by apply endswith_tail.
    + subst b. left. by apply endswith_tail.
    + by apply IH.
Qed.

(** No recognized extension is a suffix of another one, and each is a
    dot followed by its name. *)
Lemma extensions_incomparable a b :
  In a BFSkinnerScraper.RESOURCE_EXTENSIONS ->
  In b BFSkinnerScraper.RESOURCE_EXTENSIONS ->
  Str.endswith a b = true -> a = b.
Proof.
  intros Ha Hb.
  assert (H : forallb
                (fun a => forallb
                   (fun b => implb (Str.endswith a b) (String.eqb a b))
                   BFSkinnerScraper.RESOURCE_EXTENSIONS)
                BFSkinnerScraper.RESOURCE_EXTENSIONS = true)
    by (vm_compute; reflexivity).
  rewrite forallb_forall in H. specialize (H a Ha).
  rewrite forallb_forall in H. specialize (H b Hb).
  intros He. rewrite He in H. by apply String.eqb_eq.
Qed.

Lemma extension_name ext :
  In ext BFSkinnerScraper.RESOURCE_EXTENSIONS ->
  ext = String "." (Str.lstrip (Str.ch ".") ext).
Proof.
  intros Hin.
  assert (H : forallb
                (fun ext => String.eqb ext
                   (String "." (Str.lstrip (Str.ch ".") ext)))
                BFSkinnerScraper.RESOURCE_EXTENSIONS = true)
    by (vm_compute; reflexivity).
  rewrite forallb_forall in H. by apply String.eqb_eq, H.
Qed.

(** Whatever the order in which the set of extensions is visited, the
    loop stops at the one extension the path ends with. *)
Lemma find_extension order lower_path ext :
  Permutation order BFSkinnerScraper.RESOURCE_EXTENSIONS ->
  In ext BFSkinnerScraper.RESOURCE_EXTENSIONS ->
  Str.endswith ext lower_path = true ->
  List.find (fun ext => Str.endswith ext lower_path) order = Some ext.
Proof.
  intros Hperm Hin Hend.
  destruct (List.find _ order) as [ext'|] eqn:E.
  - apply find_some in E as [Hin' Hend'].
    apply (Permutation_in _ Hperm) in Hin'.
    destruct (endswith_total _ _ _ Hend Hend') as [H | H].
    + f_equal. symmetry. by apply extensions_incomparable.
    + f_equal. by apply extensions_incomparable.
  - apply (Permutation_in _ (Permutation_sym Hperm)) in Hin.
    pose proof (find_none _ _ E ext Hin) as H. cbv beta in H. congruence.
Qed.

Lemma find_no_extension order lower_path :
  Permutation order BFSkinnerScraper.RESOURCE_EXTENSIONS ->
  (forall ext, In ext BFSkinnerScraper.RESOURCE_EXTENSIONS ->
               Str.endswith ext lower_path = false) ->
  List.find (fun ext => Str.endswith ext lower_path) order = None.
Proof.
  intros Hperm Hnone.
  destruct (List.find _ order) as [ext'|] eqn:E; [|done].
  apply find_some in E as [Hin' Hend'].
  apply (Permutation_in _ Hperm) in Hin'. by rewrite Hnone in Hend'.
Qed.

End ClassifyFacts.

(** C9. An address whose scheme does not start with [http] has no
    resource type, whatever its path and the anchor's text, and an anchor
    resolving to it adds no record to the page's resources. *)
Theorem classify_resource_requires_http (netloc_ok : string -> bool)
    (self : BFSkinnerScraper.t) (order : list string) (url : string)
    (p : ParseResult) :
  Urllib.urlparse netloc_ok url = Ret p ->
  Str.startswith "http" (scheme p) = false ->
  (forall text,
     BFSkinnerScraper._classify_resource_in netloc_ok self order url text
     = Ret None)
  /\ forall page_url page_title anchor rest found,
       Urllib.urljoin netloc_ok page_url (Anchor.href anchor) = Ret url ->
       BFSkinnerScraper._extract_resources_loop netloc_ok self page_url
         page_title (anchor :: rest) found
       = BFSkinnerScraper._extract_resources_loop netloc_ok self page_url
           page_title rest found.
Proof.
  intros Hp Hs.
  assert (Hc : forall order text,
             BFSkinnerScraper._classify_resource_in netloc_ok self order
               url text = Ret None).
  { intros order' text. unfold BFSkinnerScraper._classify_resource_in.
    rewrite Hp. unfold mbind, exc_bind. by rewrite Hs. }
  split; [apply Hc|].
  intros page_url page_title anchor rest found Hj.
  cbn [BFSkinnerScraper._extract_resources_loop].
  destruct (negb (Str.nonempty (Anchor.href anchor))); [done|].
  rewrite Hj. unfold BFSkinnerScraper._classify_resource.
  unfold mbind at 1 2, exc_bind at 1 2. by rewrite Hc.
Qed.

Lemma classify_resource_requires_http_witness :
  BFSkinnerScraper._classify_resource_in Examples.host_check
    (Examples.crawler 200) BFSkinnerScraper.RESOURCE_EXTENSIONS
    "mailto:archive@bfskinner.org?subject=paper.pdf" "Free pdf by mail"
  = Ret None
  /\ BFSkinnerScraper._extract_resources_loop Examples.host_check
       (Examples.crawler 200) "https://www.bfskinner.org/library" None
       [Anchor.mk "mailto:archive@bfskinner.org?subject=paper.pdf"
                  "Free pdf by mail" None] []
     = Ret [].
Proof.
  destruct (classify_resource_requires_http Examples.host_check
              (Examples.crawler 200) BFSkinnerScraper.RESOURCE_EXTENSIONS
              "mailto:archive@bfskinner.org?subject=paper.pdf"
              (mkParseResult "mailto" EmptyString "archive@bfskinner.org"
                 EmptyString "subject=paper.pdf" EmptyString)
              eq_refl eq_refl) as [Hc Hx].
  split; [apply Hc|].
  exact (Hx "https://www.bfskinner.org/library" None
            (Anchor.mk "mailto:archive@bfskinner.org?subject=paper.pdf"
                       "Free pdf by mail" None) [] [] eq_refl).
Defined.

(** C4, as the code has it. For an address whose scheme starts with
    [http]: when its lowercased path ends with a recognized extension,
    the type is that extension without its dot, whatever the order in
    which the set of extensions is visited; otherwise the type is [page]
    exactly when the anchor text contains a hint keyword, case ignored,
    and the address is internal, and there is no type in every other
    case. *)
Theorem classify_resource_http (netloc_ok : string -> bool)
    (self : BFSkinnerScraper.t) (order : list string) (url text : string)
    (p : ParseResult) :
  Permutation order BFSkinnerScraper.RESOURCE_EXTENSIONS ->
  Urllib.urlparse netloc_ok url = Ret p ->
  Str.startswith "http" (scheme p) = true ->
  let classified :=
    BFSkinnerScraper._classify_resource_in netloc_ok self order url text in
  let has_hint :=
    existsb (fun keyword => Str.contains keyword (Str.lower text))
            BFSkinnerScraper.KEYWORD_HINTS in
  (forall name,
     In (String "." name) BFSkinnerScraper.RESOURCE_EXTENSIONS ->
     Str.endswith (String "." name) (Str.lower (path p)) = true ->
     classified = Ret (Some name))
  /\ ((forall ext, In ext BFSkinnerScraper.RESOURCE_EXTENSIONS ->
                   Str.endswith ext (Str.lower (path p)) = false) ->
      (has_hint = false -> classified = Ret None)
      /\ forall internal,
           BFSkinnerScraper._is_internal_url netloc_ok self url
           = Ret internal ->
           classified
           = Ret (if has_hint && internal then Some "page" else None)).
Proof.
  intros Hperm Hp Hs classified has_hint. subst classified.
  unfold BFSkinnerScraper._classify_resource_in. rewrite Hp.
  unfold mbind at 1 3 5, exc_bind at 1 3 5. rewrite Hs. cbn [negb].
  split.
  - intros name Hin Hend. rewrite (find_extension _ _ _ Hperm Hin Hend).
    do 2 f_equal. pose proof (extension_name _ Hin) as E. congruence.
  - intros Hnone. rewrite (find_no_extension _ _ Hperm Hnone).
    fold has_hint. split.
    + by intros ->.
    + intros internal ->. unfold mbind, exc_bind.
      by destruct has_hint.
Qed.

Lemma classify_resource_http_witness :
  BFSkinnerScraper._classify_resource_in Examples.host_check
    (Examples.crawler 200) (rev BFSkinnerScraper.RESOURCE_EXTENSIONS)
    "https://www.bfskinner.org/files/paper.PDF" "Paper"
  = Ret (Some "pdf")
  /\ BFSkinnerScraper._classify_resource_in Examples.host_check
       (Examples.crawler 200) (rev BFSkinnerScraper.RESOURCE_EXTENSIONS)
       "https://www.bfskinner.org/about" "Download the free guide"
     = Ret (Some "page")
  /\ BFSkinnerScraper._classify_resource_in Examples.host_check
       (Examples.crawler 200) (rev BFSkinnerScraper.RESOURCE_EXTENSIONS)
       "https://elsewhere.example/about" "Free download"
     = Ret None.
Proof.
  assert (Hperm : Permutation (rev BFSkinnerScraper.RESOURCE_EXTENSIONS)
                    BFSkinnerScraper.RESOURCE_EXTENSIONS)
    by (symmetry; apply Permutation_rev).
  assert (Hnone : forall ext,
             In ext BFSkinnerScraper.RESOURCE_EXTENSIONS ->
             Str.endswith ext (Str.lower "/about") = false).
  { intros ext Hin.
    assert (H : forallb (fun ext => negb (Str.endswith ext (Str.lower "/about")))
                  BFSkinnerScraper.RESOURCE_EXTENSIONS = true)
      by (vm_compute; reflexivity).
    rewrite forallb_forall in H. by apply negb_true_iff, H. }
  split; [|split].
  - refine (proj1 (classify_resource_http Examples.host_check
                     (Examples.crawler 200) _
                     "https://www.bfskinner.org/files/paper.PDF" "Paper"
                     (mkParseResult "https" "www.bfskinner.org"
                        "/files/paper.PDF" EmptyString EmptyString
                        EmptyString)
                     Hperm eq_refl eq_refl) "pdf" _ eq_refl).
    vm_compute. tauto.
  - exact (proj2 (proj2 (classify_resource_http Examples.host_check
                    (Examples.crawler 200) _
                    "https://www.bfskinner.org/about"
                    "Download the free guide"
                    (mkParseResult "https" "www.bfskinner.org" "/about"
                       EmptyString EmptyString EmptyString)
                    Hperm eq_refl eq_refl) Hnone) true eq_refl).
  - exact (proj2 (proj2 (classify_resource_http Examples.host_check
                    (Examples.crawler 200) _
                    "https://elsewhere.example/about" "Free download"
                    (mkParseResult "https" "elsewhere.example" "/about"
                       EmptyString EmptyString EmptyString)
                    Hperm eq_refl eq_refl) Hnone) false eq_refl).
Defined.

(** C4, as stated, fails: the path of this [ftp] address ends with
    [.pdf], yet the address has no resource type. *)
Lemma classify_resource_ftp_pdf :
  path <$> Urllib.urlparse Examples.host_check
             "ftp://ftp.bfskinner.org/files/paper.pdf"
  = Ret "/files/paper.pdf"
  /\ Str.endswith ".pdf" (Str.lower "/files/paper.pdf") = true
  /\ BFSkinnerScraper._classify_resource Examples.host_check
       (Examples.crawler 200) "ftp://ftp.bfskinner.org/files/paper.pdf"
       "Paper"
     = Ret None.
Proof. repeat split; vm_compute; reflexivity. Qed.

(** ** The crawler's loop *)

Section CrawlFacts.

Variable netloc_ok : string -> bool.
Variable self : BFSkinnerScraper.t.
Variable World : Type.
Variable session_get : World -> string -> option Response.t * World.
Variable BeautifulSoup : string -> Soup.t.

#[local] Abbreviation CState := (BFSkinnerScraper.State World).
#[local] Abbreviation body :=
  (BFSkinnerScraper.crawl_body netloc_ok self World session_get
     BeautifulSoup).
#[local] Abbreviation loop :=
  (BFSkinnerScraper.crawl_loop netloc_ok self World session_get
     BeautifulSoup).
#[local] Abbreviation extract :=
  (BFSkinnerScraper._extract_resources netloc_ok self).
#[local] Abbreviation returned := BFSkinnerScraper.returned_fetches.

Import BFSkinnerScraper.

Lemma returned_app_true log u : returned (log ++ [(u, true)]) = returned log ++ [u].
Proof.
  unfold returned_fetches. by rewrite List.filter_app, List.map_app.
Qed.

Lemma returned_app_false log u : returned (log ++ [(u, false)]) = returned log.
Proof.
  unfold returned_fetches. rewrite List.filter_app, List.map_app.
  apply app_nil_r.
Qed.

(** One pass through the body either leaves [_visited] alone and
    consumes the dequeued address, or records that address, which was
    not yet visited, after a fetch that returned. *)
Lemma crawl_body_shape (st : CState) url q :
  let st' := after (body st url q) in
  (visited st' = visited st /\ queue st' = q
   /\ resources st' = resources st
   /\ (fetched st' = fetched st
       \/ ((url ∉ visited st)
           /\ fetched st' = fetched st ++ [(url, false)]))
   /\ body st url q = Continue st')
  \/ ((url ∉ visited st) /\ visited st' = {[url]} ∪ visited st
      /\ fetched st' = fetched st ++ [(url, true)]
      /\ (resources st' = resources st
          \/ exists page_title soup found,
               extract url page_title soup = Ret found
               /\ resources st' = resources st ++ found)).
Proof.
  unfold crawl_body. case_bool_decide as Hv.
  - left. cbn. eauto 10.
  - destruct (_fetch World session_get (world st) url) as [[| |html] w].
    + left. cbn. eauto 10.
    + right. cbn. eauto 10.
    + right.
      destruct (_extract_resources netloc_ok self url _ _)
        as [found|e] eqn:Ex; [|cbn; eauto 10].
      destruct (_extract_internal_links netloc_ok self url _)
        as [links|e]; cbn; eauto 15.
Qed.

Lemma size_add_fresh (X : gset string) (x : string) :
  x ∉ X -> size ({[x]} ∪ X) = S (size X).
Proof.
  intros Hx. rewrite size_union by by apply disjoint_singleton_l.
  by rewrite size_singleton.
Qed.

(** A property that every pass through the body preserves holds when
    the loop is left. *)
Lemma crawl_loop_invariant (I : CState -> Prop) :
  (forall st url q,
     I st -> queue st = url :: q ->
     (Z.of_nat (size (visited st)) < max_pages self)%Z ->
     I (after (body st url q))) ->
  forall fuel st o, I st -> loop fuel st = Some o -> I (final o).
Proof.
  intros Hstep. induction fuel as [|fuel IH]; intros st o Hst; [done|].
  cbn [crawl_loop]. destruct (queue st) as [|url q] eqn:Hq.
  { by intros [= <-]. }
  destruct (Z.ltb_spec (Z.of_nat (size (visited st))) (max_pages self))
    as [Hlt | Hge]; [|by intros [= <-]].
  specialize (Hstep st url q Hst Hq Hlt).
  destruct (body st url q) as [st'|st'|e st'] eqn:Hb; cbn [after] in Hstep.
  - by apply IH.
  - by intros [= <-].
  - by intros [= <-].
Qed.

Lemma crawl_loop_more_fuel fuel fuel' (st : CState) o :
  loop fuel st = Some o -> fuel <= fuel' -> loop fuel' st = Some o.
Proof.
  revert fuel' st. induction fuel as [|fuel IH]; intros fuel' st; [done|].
  intros H Hle. destruct fuel' as [|fuel']; [lia|].
  cbn [crawl_loop] in *. destruct (queue st) as [|url q]; [done|].
  destruct (_ <? _)%Z; [|done].
  destruct (body st url q) as [st'|st'|e st']; [|done|done].
  apply IH; [done | lia].
Qed.

(** The loop is left: each pass either adds to [_visited], whose size
    is bounded by [max_pages], or shortens the queue. *)
Lemma crawl_loop_halts (st : CState) : exists fuel o, loop fuel st = Some o.
Proof.
  remember (Z.to_nat (max_pages self - Z.of_nat (size (visited st))))
    as n eqn:Hn.
  revert st Hn. induction n as [n IHn] using lt_wf_ind. intros st Hn.
  remember (length (queue st)) as m eqn:Hm.
  revert st Hn Hm. induction m as [m IHm] using lt_wf_ind. intros st Hn Hm.
  destruct (queue st) as [|url q] eqn:Hq.
  { exists 1, (Returned st). cbn. by rewrite Hq. }
  destruct (Z.ltb_spec (Z.of_nat (size (visited st))) (max_pages self))
    as [Hlt | Hge].
  2:{ exists 1, (Returned st). cbn. rewrite Hq.
      by destruct (Z.ltb_spec (Z.of_nat (size (visited st)))
                     (max_pages self)); [lia|]. }
  assert (Hone : forall o, (exists fuel, loop fuel (after (body st url q)) = Some o
                            /\ body st url q = Continue (after (body st url q)))
                           \/ (exists st', o = Returned st' /\ body st url q = Break st')
                           \/ (exists e st', o = Raised e st' /\ body st url q = Abort e st') ->
                        exists fuel o, loop fuel st = Some o).
  { intros o [(fuel & Hl & Hb) | [(st' & -> & Hb) | (e & st' & -> & Hb)]].
    - exists (S fuel), o. cbn. rewrite Hq.
      destruct (Z.ltb_spec (Z.of_nat (size (visited st))) (max_pages self));
        [|lia]. by rewrite Hb.
    - exists 1, (Returned st'). cbn. rewrite Hq.
      destruct (Z.ltb_spec (Z.of_nat (size (visited st))) (max_pages self));
        [|lia]. by rewrite Hb.
    - exists 1, (Raised e st'). cbn. rewrite Hq.
      destruct (Z.ltb_spec (Z.of_nat (size (visited st))) (max_pages self));
        [|lia]. by rewrite Hb. }
  pose proof (crawl_body_shape st url q) as Hshape. cbv zeta in Hshape.
  destruct (body st url q) as [st'|st'|e st'] eqn:Hb; cbn [after] in *.
  - assert (exists fuel o, loop fuel st' = Some o) as (fuel & o & Hl).
    { destruct Hshape as [(Hv & Hq' & _) | (Hu & Hv & _)].
      - eapply (IHm (length q)); [rewrite Hm; cbn; lia | | by rewrite Hq'].
        by rewrite Hv.
      - eapply (IHn _ _ st' eq_refl). Unshelve.
        rewrite Hn, Hv, size_add_fresh by done. lia. }
    apply (Hone o). left. eauto.
  - apply (Hone (Returned st')). right. left. eauto.
  - apply (Hone (Raised e st')). right. right. eauto.
Qed.

End CrawlFacts.

Section CrawlRun.

Variable netloc_ok : string -> bool.
Variable self : BFSkinnerScraper.t.
Variable World : Type.
Variable session_get : World -> string -> option Response.t * World.
Variable BeautifulSoup : string -> Soup.t.

#[local] Abbreviation crawl_body' :=
  (BFSkinnerScraper.crawl_body netloc_ok self World session_get
     BeautifulSoup).
#[local] Abbreviation crawl' :=
  (BFSkinnerScraper.crawl netloc_ok self World session_get BeautifulSoup).
#[local] Abbreviation extract' :=
  (BFSkinnerScraper._extract_resources netloc_ok self).

Import BFSkinnerScraper.

(** The loop of [_extract_resources] never appends a record that is
    already there. *)
Lemma extract_resources_loop_nodup page_url page_title anchors found batch :
  NoDup found ->
  _extract_resources_loop netloc_ok self page_url page_title anchors found
  = Ret batch ->
  NoDup batch.
Proof.
  revert found. induction anchors as [|anchor rest IH]; intros found Hnd;
    cbn [_extract_resources_loop].
  { by intros [= <-]. }
  destruct (negb (Str.nonempty (Anchor.href anchor))); [by apply IH|].
  destruct (Urllib.urljoin netloc_ok page_url (Anchor.href anchor))
    as [resource_url|]; [|done].
  unfold mbind at 1, exc_bind at 1.
  destruct (_classify_resource netloc_ok self resource_url (Anchor.text anchor))
    as [[ty|]|]; [| by apply IH | done].
  unfold mbind at 1, exc_bind at 1.
  destruct (_normalize_url netloc_ok page_url) as [pu|]; [|done].
  unfold mbind at 1, exc_bind at 1.
  destruct (_normalize_url netloc_ok resource_url) as [ru|]; [|done].
  unfold mbind at 1, exc_bind at 1.
  case_bool_decide as Hin; apply IH; [done|].
  apply NoDup_app. split; [done|]. split; [|apply NoDup_singleton].
  intros x Hx ->%list_elem_of_singleton. done.
Qed.

Lemma extract_resources_nodup page_url page_title soup batch :
  extract' page_url page_title soup = Ret batch -> NoDup batch.
Proof. apply extract_resources_loop_nodup. apply NoDup_nil_2. Qed.

(** What holds of the state in which [crawl] ends. *)
Lemma crawl_final_state fuel w o :
  crawl' fuel w = Some o ->
  let st := final o in
  let log := returned_fetches (fetched st) in
  size (visited st) = size (_visited self) + length log
  /\ (Z.of_nat (size (visited st))
      <= Z.max (max_pages self) (Z.of_nat (size (_visited self))))%Z
  /\ NoDup log
  /\ (forall u, u ∈ log -> u ∈ visited st /\ u ∉ _visited self)
  /\ _visited self ⊆ visited st
  /\ exists batches : list (string * list ResourceRecord.t),
       resources st = List.concat (map snd batches)
       /\ NoDup (map fst batches)
       /\ (forall u, u ∈ map fst batches -> u ∈ log)
       /\ Forall (fun pb => exists page_title soup,
                    extract' (fst pb) page_title soup = Ret (snd pb))
                 batches.
Proof.
  unfold crawl. cbv zeta.
  apply (crawl_loop_invariant netloc_ok self World session_get BeautifulSoup
           (fun st =>
              size (visited st)
              = size (_visited self) + length (returned_fetches (fetched st))
              /\ (Z.of_nat (size (visited st))
                  <= Z.max (max_pages self) (Z.of_nat (size (_visited self))))%Z
              /\ NoDup (returned_fetches (fetched st))
              /\ (forall u, u ∈ returned_fetches (fetched st) ->
                            u ∈ visited st /\ u ∉ _visited self)
              /\ _visited self ⊆ visited st
              /\ exists batches : list (string * list ResourceRecord.t),
                   resources st = List.concat (map snd batches)
                   /\ NoDup (map fst batches)
                   /\ (forall u, u ∈ map fst batches ->
                                 u ∈ returned_fetches (fetched st))
                   /\ Forall (fun pb => exists page_title soup,
                                extract' (fst pb) page_title soup
                                = Ret (snd pb))
                             batches)).
  - intros st url q (Hsz & Hle & Hnd & Hin & Hsub & batches & Hres & Hbn & Hbi & Hbx)
      Hq Hlt.
    pose proof (crawl_body_shape netloc_ok self World session_get
                  BeautifulSoup st url q) as Hshape.
    cbv zeta in Hshape. set (st' := after (crawl_body' st url q)) in *.
    destruct Hshape as
      [(Hv & _ & Hr & Hf & _) | (Hu & Hv & Hf & Hr)].
    + rewrite Hv, Hr.
      assert (Hlog : returned_fetches (fetched st')
                     = returned_fetches (fetched st)).
      { destruct Hf as [-> | [_ ->]]; [done | apply returned_app_false]. }
      rewrite Hlog. eauto 10.
    + rewrite Hv, Hf, returned_app_true, length_app. cbn [length].
      rewrite size_add_fresh by done.
      split; [lia|]. split; [lia|].
      split.
      { apply NoDup_app. split; [done|]. split; [|apply NoDup_singleton].
        intros x Hx ->%list_elem_of_singleton. by apply Hin in Hx as [? _]. }
      split.
      { intros u [Hu' | ->%list_elem_of_singleton]%elem_of_app.
        - destruct (Hin u Hu'). split; [|done].
          apply elem_of_union. by right.
        - split; [apply elem_of_union; left; by apply elem_of_singleton|].
          intros Hc. apply Hu. by apply Hsub. }
      split; [etrans; [exact Hsub | apply union_subseteq_r]|].
      destruct Hr as [-> | (page_title & soup & found & Hx & ->)].
      * exists batches. repeat split; try done.
        intros u Hu'. apply elem_of_app. left. by apply Hbi.
      * exists (batches ++ [(url, found)]).
        rewrite !List.map_app, List.concat_app. cbn [map fst snd List.concat].
        rewrite app_nil_r. split; [by rewrite Hres|].
        split.
        { apply NoDup_app. split; [done|]. split; [|apply NoDup_singleton].
          intros x Hx' ->%list_elem_of_singleton.
          apply Hbi, Hin in Hx' as [? _]. done. }
        split.
        { intros u [Hu' | Hu']%elem_of_app; apply elem_of_app;
            [left; by apply Hbi | by right]. }
        apply Forall_app. split; [done|].
        apply Forall_cons. split; [|done]. cbn [fst snd]. eauto.
  - cbn. split; [lia|]. split; [lia|]. split; [apply NoDup_nil_2|].
    split; [by intros u Hu%not_elem_of_nil|]. split; [done|].
    exists []. cbn. repeat split; try done; apply NoDup_nil_2.
Qed.

End CrawlRun.

Section CrawlDistinct.

Variable netloc_ok : string -> bool.
Variable self : BFSkinnerScraper.t.
Variable World : Type.
Variable session_get : World -> string -> option Response.t * World.
Variable BeautifulSoup : string -> Soup.t.

#[local] Abbreviation crawl_body'' :=
  (BFSkinnerScraper.crawl_body netloc_ok self World session_get
     BeautifulSoup).
#[local] Abbreviation normalize := (BFSkinnerScraper._normalize_url netloc_ok).

Import BFSkinnerScraper.

(** Every address [_extract_internal_links] yields is normalized. *)
Lemma extract_internal_links_normalized page_url anchors links :
  _extract_internal_links_loop netloc_ok self page_url anchors = Ret links ->
  forall u, u ∈ links -> normalize u = Ret u.
Proof.
  revert links. induction anchors as [|anchor rest IH]; intros links;
    cbn [_extract_internal_links_loop].
  { intros [= <-] u Hu. by apply not_elem_of_nil in Hu. }
  destruct (negb (Str.nonempty (Anchor.href anchor))); [by apply IH|].
  destruct (Urllib.urljoin netloc_ok page_url (Anchor.href anchor))
    as [absolute|]; [|done].
  unfold mbind at 1, exc_bind at 1.
  destruct (_is_internal_url netloc_ok self absolute) as [[|]|];
    [| by apply IH | done].
  unfold mbind at 1, exc_bind at 1.
  destruct (normalize absolute) as [cleaned|] eqn:Hc; [|done].
  unfold mbind at 1, exc_bind at 1.
  destruct (_extract_internal_links_loop netloc_ok self page_url rest)
    as [more|]; [|done].
  unfold mbind, exc_bind. intros Hl%Ret_inj u Hu. subst links.
  destruct (Str.nonempty cleaned); [|by eapply IH].
  apply elem_of_cons in Hu as [-> | Hu]; [|by eapply IH].
  by eapply normalize_url_fixed.
Qed.

Lemma enqueue_links_elem visited links queue u :
  u ∈ enqueue_links visited links queue -> u ∈ queue \/ u ∈ links.
Proof.
  unfold enqueue_links. revert queue.
  induction links as [|link rest IH]; intros queue; cbn [fold_left];
    [by left|].
  intros [Hu | Hu]%IH.
  - destruct (negb (bool_decide (link ∈ visited)) && _); [|by left].
    apply elem_of_app in Hu as [Hu | ->%list_elem_of_singleton];
      [by left | right; apply elem_of_cons; by left].
  - right. apply elem_of_cons. by right.
Qed.

(** The records of a page carry the page's normalized address. *)
Lemma extract_resources_loop_page_url page_url pu page_title anchors found
    batch :
  normalize page_url = Ret pu ->
  (forall r, r ∈ found -> ResourceRecord.page_url r = pu) ->
  _extract_resources_loop netloc_ok self page_url page_title anchors found
  = Ret batch ->
  forall r, r ∈ batch -> ResourceRecord.page_url r = pu.
Proof.
  intros Hpu. revert found.
  induction anchors as [|anchor rest IH]; intros found Hfound;
    cbn [_extract_resources_loop].
  { by intros [= <-]. }
  destruct (negb (Str.nonempty (Anchor.href anchor))); [by apply IH|].
  destruct (Urllib.urljoin netloc_ok page_url (Anchor.href anchor))
    as [resource_url|]; [|done].
  unfold mbind at 1, exc_bind at 1.
  destruct (_classify_resource netloc_ok self resource_url (Anchor.text anchor))
    as [[ty|]|]; [| by apply IH | done].
  unfold mbind at 1, exc_bind at 1. rewrite Hpu.
  unfold mbind at 1, exc_bind at 1.
  destruct (normalize resource_url) as [ru|]; [|done].
  unfold mbind at 1, exc_bind at 1.
  case_bool_decide as Hin; apply IH; [done|].
  intros r [Hr | ->%list_elem_of_singleton]%elem_of_app; [by apply Hfound|].
  done.
Qed.

(** After a pass through the body, the queue holds addresses it held
    before and links of the page just read. *)
Lemma crawl_body_queue (st : State World) url q u :
  u ∈ queue (after (crawl_body'' st url q)) ->
  u ∈ q
  \/ exists soup links,
       _extract_internal_links netloc_ok self url soup = Ret links
       /\ u ∈ links.
Proof.
  unfold crawl_body. case_bool_decide as Hv; [by left|].
  destruct (_fetch World session_get (world st) url) as [[| |html] w];
    [by left | by left |].
  destruct (_extract_resources netloc_ok self url _ _) as [found|e];
    [|by left].
  destruct (_extract_internal_links netloc_ok self url _)
    as [links|e] eqn:El; [|by left].
  cbn [after queue]. intros [Hu | Hu]%enqueue_links_elem; [by left|].
  right. eauto.
Qed.

(** Batches of records, each batch carrying its own key in every record,
    put end to end: no record occurs twice. *)
Lemma concat_keyed_nodup (batches : list (string * list ResourceRecord.t)) :
  NoDup (map fst batches) ->
  Forall (fun pb => NoDup (snd pb)
                    /\ forall r, r ∈ snd pb ->
                                 ResourceRecord.page_url r = fst pb)
         batches ->
  NoDup (List.concat (map snd batches))
  /\ forall r, r ∈ List.concat (map snd batches) ->
               ResourceRecord.page_url r ∈ map fst batches.
Proof.
  induction batches as [|[k b] rest IH]; cbn [map fst snd List.concat].
  { intros _ _. split; [apply NoDup_nil_2|].
    by intros r Hr%not_elem_of_nil. }
  intros [Hk Hnd]%NoDup_cons [[Hb Hkey] Hrest]%Forall_cons.
  cbn [fst snd] in *. destruct (IH Hnd Hrest) as [IHnd IHkey]. split.
  - apply NoDup_app. split; [done|]. split; [|done].
    intros r Hr Hr'. apply Hk. rewrite <- (Hkey r Hr). by apply IHkey.
  - intros r [Hr | Hr]%elem_of_app; apply elem_of_cons.
    + left. by apply Hkey.
    + right. by apply IHkey.
Qed.

(** When the start address is normalized, every address fetched is, and
    the resources of the crawl are pairwise different. *)
Lemma crawl_resources_nodup fuel w o :
  normalize (base_url self) = Ret (base_url self) ->
  crawl netloc_ok self World session_get BeautifulSoup fuel w = Some o ->
  NoDup (resources (final o)).
Proof.
  intros Hbase Hrun.
  cut ((forall u, u ∈ queue (final o) -> normalize u = Ret u)
       /\ exists batches : list (string * list ResourceRecord.t),
            resources (final o) = List.concat (map snd batches)
            /\ NoDup (map fst batches)
            /\ (forall u, u ∈ map fst batches -> u ∈ visited (final o))
            /\ Forall (fun pb => NoDup (snd pb)
                                 /\ forall r, r ∈ snd pb ->
                                      ResourceRecord.page_url r = fst pb)
                      batches).
  { intros (_ & batches & -> & Hnd & _ & Hall).
    by apply concat_keyed_nodup. }
  revert Hrun. unfold crawl.
  apply (crawl_loop_invariant netloc_ok self World session_get BeautifulSoup
           (fun st =>
              (forall u, u ∈ queue st -> normalize u = Ret u)
              /\ exists batches : list (string * list ResourceRecord.t),
                   resources st = List.concat (map snd batches)
                   /\ NoDup (map fst batches)
                   /\ (forall u, u ∈ map fst batches -> u ∈ visited st)
                   /\ Forall (fun pb => NoDup (snd pb)
                                        /\ forall r, r ∈ snd pb ->
                                             ResourceRecord.page_url r
                                             = fst pb)
                             batches)).
  - intros st url q (Hq & batches & Hres & Hnd & Hin & Hall) Hqueue Hlt.
    assert (Hurl : normalize url = Ret url).
    { apply Hq. rewrite Hqueue. apply elem_of_cons. by left. }
    split.
    { intros u [Hu | (soup & links & Hl & Hu)]%crawl_body_queue.
      - apply Hq. rewrite Hqueue. apply elem_of_cons. by right.
      - by eapply extract_internal_links_normalized. }
    pose proof (crawl_body_shape netloc_ok self World session_get
                  BeautifulSoup st url q) as Hshape.
    cbv zeta in Hshape. set (st' := after (crawl_body'' st url q)) in *.
    destruct Hshape as [(Hv & _ & Hr & _) | (Hu & Hv & _ & Hr)].
    + rewrite Hv, Hr. eauto 10.
    + rewrite Hv.
      destruct Hr as [-> | (page_title & soup & found & Hx & ->)].
      * exists batches. repeat split; try done.
        intros u Hu'. apply elem_of_union. right. by apply Hin.
      * exists (batches ++ [(url, found)]).
        rewrite !List.map_app, List.concat_app. cbn [map fst snd List.concat].
        rewrite app_nil_r. split; [by rewrite Hres|].
        split.
        { apply NoDup_app. split; [done|]. split; [|apply NoDup_singleton].
          intros x Hx' ->%list_elem_of_singleton. by apply Hin in Hx'. }
        split.
        { intros u [Hu' | ->%list_elem_of_singleton]%elem_of_app;
            apply elem_of_union; [right; by apply Hin | left].
          by apply elem_of_singleton. }
        apply Forall_app. split; [done|].
        apply Forall_cons. split; [|done]. cbn [fst snd]. split.
        -- by eapply extract_resources_nodup.
        -- eapply extract_resources_loop_page_url; [exact Hurl | | exact Hx].
           by intros r Hr%not_elem_of_nil.
  - cbn. split.
    + by intros u ->%list_elem_of_singleton.
    + exists []. cbn. repeat split; try done; try apply NoDup_nil_2.
      by intros u Hu%not_elem_of_nil.
Qed.

End CrawlDistinct.

(** C1, as the code has it. Whatever the pages link to and however the
    session behaves, [crawl] ends, and at most [max_pages] calls to
    [_fetch] return in it (fewer when [_visited] is not empty at the
    start); the calls that raise are not counted. *)
Theorem crawl_halts_within_bound (netloc_ok : string -> bool)
    (self : BFSkinnerScraper.t) (World : Type)
    (session_get : World -> string -> option Response.t * World)
    (BeautifulSoup : string -> Soup.t) (w : World) :
  exists fuel o,
    (forall fuel', fuel <= fuel' ->
       BFSkinnerScraper.crawl netloc_ok self World session_get BeautifulSoup
         fuel' w = Some o)
    /\ (Z.of_nat
          (length
             (BFSkinnerScraper.returned_fetches
                (BFSkinnerScraper.fetched (final o))))
        <= Z.max 0
             (BFSkinnerScraper.max_pages self
              - Z.of_nat (size (BFSkinnerScraper._visited self))))%Z.
Proof.
  destruct (crawl_loop_halts netloc_ok self World session_get BeautifulSoup
              (BFSkinnerScraper.crawl_init self World w)) as (fuel & o & Hrun).
  exists fuel, o. split.
  - intros fuel' Hle. by eapply crawl_loop_more_fuel.
  - destruct (crawl_final_state netloc_ok self World session_get
                BeautifulSoup fuel w o Hrun) as (Hsz & Hle & _).
    lia.
Qed.

Lemma crawl_halts_within_bound_witness :
  exists fuel o,
    (forall fuel', fuel <= fuel' ->
       BFSkinnerScraper.crawl Examples.host_check (Examples.crawler 2) unit
         Examples.site_get Examples.site_soup fuel' tt = Some o)
    /\ (Z.of_nat
          (length
             (BFSkinnerScraper.returned_fetches
                (BFSkinnerScraper.fetched (final o))))
        <= Z.max 0
             (BFSkinnerScraper.max_pages (Examples.crawler 2)
              - Z.of_nat
                  (size (BFSkinnerScraper._visited (Examples.crawler 2)))))%Z.
Proof.
  exact (crawl_halts_within_bound Examples.host_check (Examples.crawler 2)
           unit Examples.site_get Examples.site_soup tt).
Defined.

(** C1, as stated, fails: with [max_pages = 2] the crawl of this site
    makes three fetch attempts, the second of which raises. *)
Lemma crawl_attempts_exceed_max_pages :
  BFSkinnerScraper.max_pages (Examples.crawler 2) = 2%Z
  /\ (fun o => BFSkinnerScraper.fetched (final o)) <$> Examples.site_crawl 2
     = Some [("https://www.bfskinner.org/", true);
             ("https://www.bfskinner.org/a", false);
             ("https://www.bfskinner.org/b", true)].
Proof. split; vm_compute; reflexivity. Qed.

(** ** The paginator's loop *)

Section ScrapeFacts.

Variable netloc_ok : string -> bool.
Variable World : Type.
Variable opener_open : World -> string -> option string * World.
Variable fromstring : string -> option Element.
Variable self : Scraper.t.

#[local] Abbreviation SState := (Scraper.State World).
#[local] Abbreviation scrape_body' :=
  (Scraper.scrape_body netloc_ok World opener_open fromstring self).
#[local] Abbreviation scrape_loop' :=
  (Scraper.scrape_loop netloc_ok World opener_open fromstring self).

Import Scraper.

(** The articles kept so far have distinct addresses, all of them in
    [seen_articles]; merging a page's articles keeps it so. *)
Lemma merge_articles_distinct articles seen acc :
  NoDup (map ArticleRecord.url acc) ->
  (forall u, u ∈ map ArticleRecord.url acc -> u ∈ seen) ->
  let '(seen', acc') := merge_articles articles seen acc in
  NoDup (map ArticleRecord.url acc')
  /\ (forall u, u ∈ map ArticleRecord.url acc' -> u ∈ seen').
Proof.
  unfold merge_articles. revert seen acc.
  induction articles as [|article rest IH]; intros seen acc Hnd Hin;
    cbn [fold_left]; [done|].
  case_bool_decide as Hs; [by apply IH|]. apply IH.
  - rewrite List.map_app. apply NoDup_app. split; [done|].
    split; [|apply NoDup_singleton].
    intros x Hx ->%list_elem_of_singleton. by apply Hin in Hx.
  - intros u. rewrite List.map_app.
    intros [Hu | ->%list_elem_of_singleton]%elem_of_app;
      apply elem_of_union; [right; by apply Hin | left].
    by apply elem_of_singleton.
Qed.

(** One pass through the body records the current page as visited and
    fetches it; the articles are left alone or merged with a page's. *)
Lemma scrape_body_shape (st : SState) :
  let st' := after (scrape_body' st) in
  visited_pages st' = {[next_page st]} ∪ visited_pages st
  /\ fetched st' = fetched st ++ [next_page st]
  /\ ((seen_articles st' = seen_articles st /\ collected st' = collected st)
      \/ exists articles,
           (seen_articles st', collected st')
           = merge_articles articles (seen_articles st) (collected st)).
Proof.
  unfold scrape_body.
  destruct (_fetch World opener_open (world st) (next_page st)) as [[html|e] w];
    [|cbn; eauto].
  destruct (parse_listing netloc_ok fromstring self html)
    as [[articles possible_next]|e]; [|cbn; eauto].
  destruct (merge_articles articles (seen_articles st) (collected st))
    as [seen acc] eqn:Hm.
  destruct (negb (truthy possible_next) || _); cbn;
    (split; [done|]; split; [done|]; right; exists articles; by rewrite Hm).
Qed.

Lemma scrape_loop_invariant (I : SState -> Prop) :
  (forall st, I st -> scrape_guard st = true -> I (after (scrape_body' st))) ->
  forall fuel st o, I st -> scrape_loop' fuel st = Some o -> I (final o).
Proof.
  intros Hstep. induction fuel as [|fuel IH]; intros st o Hst; [done|].
  cbn [scrape_loop]. destruct (scrape_guard st) eqn:Hg; [|by intros [= <-]].
  specialize (Hstep st Hst Hg).
  destruct (scrape_body' st) as [st'|st'|e st']; cbn [after] in Hstep.
  - by apply IH.
  - by intros [= <-].
  - by intros [= <-].
Qed.

Lemma scrape_loop_more_fuel fuel fuel' (st : SState) o :
  scrape_loop' fuel st = Some o -> fuel <= fuel' ->
  scrape_loop' fuel' st = Some o.
Proof.
  revert fuel' st. induction fuel as [|fuel IH]; intros fuel' st; [done|].
  intros H Hle. destruct fuel' as [|fuel']; [lia|].
  cbn [scrape_loop] in *. destruct (scrape_guard st); [|done].
  destruct (scrape_body' st) as [st'|st'|e st']; [|done|done].
  apply IH; [done | lia].
Qed.

Lemma scrape_guard_true (st : SState) :
  scrape_guard st = true <->
  Str.nonempty (next_page st) = true /\ next_page st ∉ visited_pages st.
Proof.
  unfold scrape_guard. rewrite andb_true_iff, negb_true_iff.
  by rewrite bool_decide_eq_false.
Qed.

(** What holds of the state in which [scrape] ends. *)
Lemma scrape_final_state fuel start_url w o :
  scrape netloc_ok World opener_open fromstring self fuel start_url w
  = Some o ->
  let st := final o in
  NoDup (fetched st)
  /\ (forall u, u ∈ fetched st -> u ∈ visited_pages st)
  /\ NoDup (map ArticleRecord.url (collected st))
  /\ (forall u, u ∈ map ArticleRecord.url (collected st) ->
                u ∈ seen_articles st).
Proof.
  unfold scrape. cbv zeta.
  apply (scrape_loop_invariant
           (fun st =>
              NoDup (fetched st)
              /\ (forall u, u ∈ fetched st -> u ∈ visited_pages st)
              /\ NoDup (map ArticleRecord.url (collected st))
              /\ (forall u, u ∈ map ArticleRecord.url (collected st) ->
                            u ∈ seen_articles st))).
  - intros st (Hnd & Hin & Hcn & Hci) [_ Hnew]%scrape_guard_true.
    destruct (scrape_body_shape st) as (Hv & Hf & Hm).
    rewrite Hv, Hf. split.
    { apply NoDup_app. split; [done|]. split; [|apply NoDup_singleton].
      intros x Hx ->%list_elem_of_singleton. by apply Hin in Hx. }
    split.
    { intros u [Hu | ->%list_elem_of_singleton]%elem_of_app;
        apply elem_of_union; [right; by apply Hin | left].
      by apply elem_of_singleton. }
    destruct Hm as [[-> ->] | (articles & Hm)]; [done|].
    pose proof (merge_articles_distinct articles _ _ Hcn Hci) as Hmerge.
    rewrite <- Hm in Hmerge. done.
  - cbn. split; [apply NoDup_nil_2|]. split; [by intros u Hu%not_elem_of_nil|].
    split; [apply NoDup_nil_2|]. by intros u Hu%not_elem_of_nil.
Qed.

End ScrapeFacts.

(** ** The paginator on a fixed web *)

Section StaticWeb.

Variable netloc_ok : string -> bool.
Variable fromstring : string -> option Element.
Variable self : Scraper.t.
Variable web : string -> option string.

#[local] Abbreviation static_open :=
  (fun (w : unit) (url : string) => (web url, w)).
#[local] Abbreviation static_body :=
  (Scraper.scrape_body netloc_ok unit static_open fromstring self).
#[local] Abbreviation static_loop :=
  (Scraper.scrape_loop netloc_ok unit static_open fromstring self).
#[local] Abbreviation next :=
  (Spec.next_of netloc_ok fromstring self web).

Import Scraper.

(** The body leaves the loop when the page read has no next pointer or
    one that is already visited, the page itself included. *)
Lemma scrape_body_done (st : State unit) html articles possible_next :
  web (next_page st) = Some html ->
  parse_listing netloc_ok fromstring self html
  = Ret (articles, possible_next) ->
  possible_next = None
  \/ possible_next = Some (next_page st)
  \/ (exists n, possible_next = Some n /\ n ∈ visited_pages st) ->
  exists st', static_body st = Break st'
              /\ fetched st' = fetched st ++ [next_page st].
Proof.
  intros Hweb Hparse Hdone. unfold scrape_body, _fetch.
  rewrite Hweb, Hparse.
  destruct (merge_articles articles (seen_articles st) (collected st))
    as [seen acc].
  assert (negb (truthy possible_next)
          || bool_decide (or_empty possible_next
                          ∈ {[next_page st]} ∪ visited_pages st) = true)
    as ->; [|eauto].
  destruct Hdone as [-> | [-> | (n & -> & Hn)]]; [done| |];
    apply orb_true_iff; right; apply bool_decide_eq_true, elem_of_union;
    [left; by apply elem_of_singleton | by right].
Qed.

(** The body with respect to the next pointer of the current page. *)
Lemma scrape_body_next (st : State unit) :
  let st' := after (static_body st) in
  fetched st' = fetched st ++ [next_page st]
  /\ visited_pages st' = {[next_page st]} ∪ visited_pages st
  /\ match next (next_page st) with
     | Some q =>
         Str.nonempty q = true
         /\ if bool_decide (q ∈ {[next_page st]} ∪ visited_pages st)
            then static_body st = Break st'
            else static_body st = Continue st' /\ next_page st' = q
     | None =>
         static_body st = Break st'
         \/ exists e, static_body st = Abort e st'
     end.
Proof.
  unfold Spec.next_of, scrape_body, _fetch.
  destruct (web (next_page st)) as [html|]; [|cbn; eauto 10].
  destruct (parse_listing netloc_ok fromstring self html)
    as [[articles possible_next]|e]; [|cbn; eauto 10].
  destruct (merge_articles articles (seen_articles st) (collected st))
    as [seen acc].
  destruct possible_next as [n|]; [|cbn; eauto 10].
  cbn [truthy or_empty]. destruct (Str.nonempty n) eqn:Hn; cbn [negb orb].
  - case_bool_decide; cbn; eauto 10.
  - cbn. eauto 10.
Qed.

(** From a page that starts a chain of distinct, unvisited pages, the
    loop fetches exactly the pages of the chain. *)
Lemma scrape_loop_follows_chain rest :
  forall p (st : State unit),
    next_page st = p -> Str.nonempty p = true ->
    NoDup (p :: rest) ->
    (forall u, u ∈ p :: rest -> u ∉ visited_pages st) ->
    Spec.next_chain next (p :: rest) ->
    match List.last (map Some (p :: rest)) None with
    | Some e =>
        match next e with
        | None => True
        | Some q => q ∈ visited_pages st \/ q ∈ p :: rest
        end
    | None => True
    end ->
    exists fuel o,
      static_loop fuel st = Some o
      /\ fetched (final o) = fetched st ++ p :: rest.
Proof.
  induction rest as [|q rest IH]; intros p st Hp Hne Hnd Hfresh Hchain Hend.
  - assert (Hg : scrape_guard st = true).
    { apply scrape_guard_true. rewrite Hp. split; [done|].
      apply Hfresh, list_elem_of_singleton. done. }
    pose proof (scrape_body_next st) as (Hf & Hv & Hn). cbv zeta in *.
    cbn [map List.last] in Hend. rewrite Hp in Hn, Hf.
    assert (Hout : static_body st = Break (after (static_body st))
                   \/ exists e, static_body st
                                = Abort e (after (static_body st))).
    { destruct (next p) as [r|]; [|done]. destruct Hn as [_ Hn].
      rewrite bool_decide_eq_true_2 in Hn; [by left|].
      apply elem_of_union.
      destruct Hend as [Hr | ->%list_elem_of_singleton];
        [by right | left; by apply elem_of_singleton]. }
    destruct Hout as [Hb | [e Hb]].
    + exists 1, (Returned (after (static_body st))).
      cbn [scrape_loop]. rewrite Hg, Hb. cbn [after final]. by split.
    + exists 1, (Raised e (after (static_body st))).
      cbn [scrape_loop]. rewrite Hg, Hb. cbn [after final]. by split.
  - assert (Hg : scrape_guard st = true).
    { apply scrape_guard_true. rewrite Hp. split; [done|].
      apply Hfresh, elem_of_cons. by left. }
    pose proof (scrape_body_next st) as (Hf & Hv & Hn). cbv zeta in *.
    rewrite Hp in Hn, Hf, Hv.
    inversion Hchain as [|p' q' l' Hnext Hchain']; subst p' q' l'.
    rewrite Hnext in Hn. destruct Hn as [Hqne Hn].
    apply NoDup_cons in Hnd as [Hpq Hnd'].
    rewrite bool_decide_eq_false_2 in Hn.
    2:{ intros [->%elem_of_singleton | Hq]%elem_of_union.
        - apply Hpq, elem_of_cons. by left.
        - apply (Hfresh q); [|done]. apply elem_of_cons. right.
          apply elem_of_cons. by left. }
    destruct Hn as [Hb Hq].
    destruct (IH q (after (static_body st)) Hq Hqne Hnd') as (fuel & o & Hl & Ho).
    + intros u Hu. rewrite Hv.
      intros [->%elem_of_singleton | Hu']%elem_of_union.
      * by apply Hpq.
      * apply (Hfresh u); [|done]. apply elem_of_cons. by right.
    + done.
    + change (List.last (map Some (p :: q :: rest)) None)
        with (List.last (map Some (q :: rest)) None) in Hend.
      destruct (List.last (map Some (q :: rest)) None) as [e|]; [|done].
      destruct (next e) as [r|]; [|done]. rewrite Hv.
      destruct Hend as [Hr | [-> | Hr]%elem_of_cons].
      * left. apply elem_of_union. by right.
      * left. apply elem_of_union. left. by apply elem_of_singleton.
      * by right.
    + exists (S fuel), o. cbn [scrape_loop]. rewrite Hg, Hb. split; [done|].
      rewrite Ho, Hf. by rewrite <- app_assoc.
Qed.

End StaticWeb.

(** C2, as the code has it. In a crawl no address is fetched twice with
    the fetch returning, and in a scrape no address is fetched twice at
    all; every pass through either loop leaves the visited set a superset
    of what it was.  (In a crawl an address whose fetch raised is not
    recorded as visited.) *)
Theorem pages_fetched_once :
  (forall (netloc_ok : string -> bool) (self : BFSkinnerScraper.t)
          (World : Type)
          (session_get : World -> string -> option Response.t * World)
          (BeautifulSoup : string -> Soup.t),
     (forall fuel w o,
        BFSkinnerScraper.crawl netloc_ok self World session_get
          BeautifulSoup fuel w = Some o ->
        NoDup (BFSkinnerScraper.returned_fetches
                 (BFSkinnerScraper.fetched (final o)))
        /\ BFSkinnerScraper._visited self
           ⊆ BFSkinnerScraper.visited (final o))
     /\ forall st url queue',
          BFSkinnerScraper.visited st
          ⊆ BFSkinnerScraper.visited
              (after (BFSkinnerScraper.crawl_body netloc_ok self World
                        session_get BeautifulSoup st url queue')))
  /\ (forall (netloc_ok : string -> bool) (World : Type)
             (opener_open : World -> string -> option string * World)
             (fromstring : string -> option Element) (self : Scraper.t),
        (forall fuel start_url w o,
           Scraper.scrape netloc_ok World opener_open fromstring self fuel
             start_url w = Some o ->
           NoDup (Scraper.fetched (final o)))
        /\ forall st,
             Scraper.visited_pages st
             ⊆ Scraper.visited_pages
                 (after (Scraper.scrape_body netloc_ok World opener_open
                           fromstring self st))).
Proof.
  split.
  - intros netloc_ok self World session_get BeautifulSoup. split.
    + intros fuel w o Hrun.
      destruct (crawl_final_state _ _ _ _ _ _ _ _ Hrun)
        as (_ & _ & Hnd & _ & Hsub & _). done.
    + intros st url q.
      destruct (crawl_body_shape netloc_ok self World session_get
                  BeautifulSoup st url q)
        as [(-> & _) | (_ & -> & _)]; [done | apply union_subseteq_r].
  - intros netloc_ok World opener_open fromstring self. split.
    + intros fuel start_url w o Hrun.
      by destruct (scrape_final_state _ _ _ _ _ _ _ _ _ Hrun) as (Hnd & _).
    + intros st.
      destruct (scrape_body_shape netloc_ok World opener_open fromstring
                  self st) as (-> & _).
      apply union_subseteq_r.
Qed.

Lemma pages_fetched_once_witness :
  match Examples.site_crawl 10 with
  | Some o =>
      NoDup (BFSkinnerScraper.returned_fetches
               (BFSkinnerScraper.fetched (final o)))
  | None => False
  end
  /\ match Examples.listing_scrape with
     | Some o => NoDup (Scraper.fetched (final o))
     | None => False
     end.
Proof.
  split.
  - destruct (Examples.site_crawl 10) as [o|] eqn:E.
    + exact (proj1 (proj1 (proj1 pages_fetched_once Examples.host_check
                             (Examples.crawler 10) unit Examples.site_get
                             Examples.site_soup) 10 tt o E)).
    + vm_compute in E. discriminate E.
  - destruct Examples.listing_scrape as [o|] eqn:E.
    + exact (proj1 (proj2 pages_fetched_once Examples.host_check unit
                      Examples.listing_open Examples.listing_fromstring
                      Examples.paginator) 5 None tt o E).
    + vm_compute in E. discriminate E.
Defined.

(** C2, as stated, fails: in the crawl of this site the address [/a],
    whose fetch raises, is fetched a second time when [/b] links to it
    again. *)
Lemma crawl_fetches_failed_page_twice :
  (fun o => map fst (BFSkinnerScraper.fetched (final o)))
    <$> Examples.site_crawl 10
  = Some ["https://www.bfskinner.org/"; "https://www.bfskinner.org/a";
          "https://www.bfskinner.org/b"; "https://www.bfskinner.org/a"].
Proof. vm_compute. reflexivity. Qed.

(** C6. The articles a scrape returns have pairwise different addresses;
    the records [_extract_resources] returns for a page are pairwise
    different; the resources of a crawl are such batches put end to end,
    one for each of some fetched addresses that are pairwise different;
    and when the crawl starts from a normalized address, its resources
    are pairwise different altogether. *)
Theorem records_deduplicated :
  (forall (netloc_ok : string -> bool) (World : Type)
          (opener_open : World -> string -> option string * World)
          (fromstring : string -> option Element) (self : Scraper.t)
          fuel start_url w o,
     Scraper.scrape netloc_ok World opener_open fromstring self fuel
       start_url w = Some o ->
     NoDup (map ArticleRecord.url (Scraper.collected (final o))))
  /\ (forall (netloc_ok : string -> bool) (self : BFSkinnerScraper.t)
             page_url page_title soup batch,
        BFSkinnerScraper._extract_resources netloc_ok self page_url
          page_title soup = Ret batch ->
        NoDup batch)
  /\ (forall (netloc_ok : string -> bool) (self : BFSkinnerScraper.t)
             (World : Type)
             (session_get : World -> string -> option Response.t * World)
             (BeautifulSoup : string -> Soup.t) fuel w o,
        BFSkinnerScraper.crawl netloc_ok self World session_get
          BeautifulSoup fuel w = Some o ->
        exists batches : list (string * list ResourceRecord.t),
          BFSkinnerScraper.resources (final o)
          = List.concat (map snd batches)
          /\ NoDup (map fst batches)
          /\ Forall
               (fun pb =>
                  NoDup (snd pb)
                  /\ exists page_title soup,
                       BFSkinnerScraper._extract_resources netloc_ok self
                         (fst pb) page_title soup = Ret (snd pb))
               batches)
  /\ (forall (netloc_ok : string -> bool) (self : BFSkinnerScraper.t)
             (World : Type)
             (session_get : World -> string -> option Response.t * World)
             (BeautifulSoup : string -> Soup.t) fuel w o,
        BFSkinnerScraper._normalize_url netloc_ok
          (BFSkinnerScraper.base_url self)
        = Ret (BFSkinnerScraper.base_url self) ->
        BFSkinnerScraper.crawl netloc_ok self World session_get
          BeautifulSoup fuel w = Some o ->
        NoDup (BFSkinnerScraper.resources (final o))).
Proof.
  split; [|split; [|split]]; [| | |by apply crawl_resources_nodup].
  - intros netloc_ok World opener_open fromstring self fuel start_url w o Hrun.
    by destruct (scrape_final_state _ _ _ _ _ _ _ _ _ Hrun) as (_ & _ & Hnd & _).
  - intros netloc_ok self page_url page_title soup batch.
    apply extract_resources_nodup.
  - intros netloc_ok self World session_get BeautifulSoup fuel w o Hrun.
    destruct (crawl_final_state _ _ _ _ _ _ _ _ Hrun)
      as (_ & _ & _ & _ & _ & batches & Hres & Hnd & _ & Hall).
    exists batches. split; [done|]. split; [done|].
    eapply Forall_impl; [exact Hall|]. cbv beta.
    intros pb (page_title & soup & Hx). split; [|eauto].
    by eapply extract_resources_nodup.
Qed.

Lemma records_deduplicated_witness :
  match Examples.listing_scrape with
  | Some o => NoDup (map ArticleRecord.url (Scraper.collected (final o)))
  | None => False
  end
  /\ match
       BFSkinnerScraper._extract_resources Examples.host_check
         (Examples.crawler 10) "https://www.bfskinner.org/library#top"
         (BFSkinnerScraper._extract_page_title Examples.library_soup)
         Examples.library_soup
     with
     | Ret batch => NoDup batch /\ length batch = 2
     | Raise _ => False
     end
  /\ match Examples.site_crawl 10 with
     | Some o =>
         exists batches : list (string * list ResourceRecord.t),
           BFSkinnerScraper.resources (final o)
           = List.concat (map snd batches)
           /\ NoDup (map fst batches)
     | None => False
     end
  /\ match Examples.site_crawl 10 with
     | Some o => NoDup (BFSkinnerScraper.resources (final o))
     | None => False
     end.
Proof.
  destruct records_deduplicated as (Hart & Hbatch & Hcrawl & Hall).
  split; [|split; [|split]].
  - destruct Examples.listing_scrape as [o|] eqn:E.
    + exact (Hart Examples.host_check unit Examples.listing_open
               Examples.listing_fromstring Examples.paginator 5 None tt o E).
    + vm_compute in E. discriminate E.
  - destruct (BFSkinnerScraper._extract_resources _ _ _ _ _)
      as [batch|e] eqn:E.
    + split; [exact (Hbatch _ _ _ _ _ _ E)|].
      vm_compute in E. injection E as <-. reflexivity.
    + vm_compute in E. discriminate E.
  - destruct (Examples.site_crawl 10) as [o|] eqn:E.
    + destruct (Hcrawl Examples.host_check (Examples.crawler 10) unit
                  Examples.site_get Examples.site_soup 10 tt o E)
        as (batches & Hres & Hnd & _).
      exists batches. by split.
    + vm_compute in E. discriminate E.
  - destruct (Examples.site_crawl 10) as [o|] eqn:E.
    + exact (Hall Examples.host_check (Examples.crawler 10) unit
               Examples.site_get Examples.site_soup 10 tt o eq_refl E).
    + vm_compute in E. discriminate E.
Defined.

(** The crawl of C6 from an address that is not normalized: the home
    page is fetched under both spellings of its address, and its record
    comes once with each batch. *)
Example crawl_from_unnormalized_start :
  (fun o => (map fst (BFSkinnerScraper.fetched (final o)),
             BFSkinnerScraper.resources (final o)))
    <$> Examples.shout_crawl
  = Some (["HTTPS://www.bfskinner.org/";
           "https://www.bfskinner.org/files/paper.pdf";
           "https://www.bfskinner.org/"],
          [Examples.paper_record; Examples.paper_record]).
Proof. vm_compute. reflexivity. Qed.

(** C7. On a fixed web, let the start page be followed by [rest], the
    [V] pages reached by following next pointers, all different, until
    the last page has no next pointer or points back into the chain.
    Then [scrape] ends after at most [V + 1] fetches (it fetches the
    pages of the chain, each once); and the loop is left as soon as the
    page read has no next pointer, or one that equals the current page
    or an already visited page. *)
Theorem scrape_halts_on_chain (netloc_ok : string -> bool)
    (fromstring : string -> option Element) (self : Scraper.t)
    (web : string -> option string) (start_url : option string)
    (first : string) (rest : list string) :
  let next := Spec.next_of netloc_ok fromstring self web in
  let opener_open := fun (w : unit) (url : string) => (web url, w) in
  first = (if truthy start_url then or_empty start_url
           else Scraper.base_url self) ->
  NoDup (first :: rest) ->
  Spec.next_chain next (first :: rest) ->
  Spec.chain_ends next (first :: rest) ->
  (exists fuel o,
     (forall fuel', fuel <= fuel' ->
        Scraper.scrape netloc_ok unit opener_open fromstring self fuel'
          start_url tt = Some o)
     /\ length (Scraper.fetched (final o)) <= length rest + 1
     /\ (Str.nonempty first = true ->
         Scraper.fetched (final o) = first :: rest))
  /\ forall st html articles possible_next,
       Scraper.scrape_guard st = true ->
       web (Scraper.next_page st) = Some html ->
       Scraper.parse_listing netloc_ok fromstring self html
       = Ret (articles, possible_next) ->
       possible_next = None
       \/ possible_next = Some (Scraper.next_page st)
       \/ (exists n, possible_next = Some n
                     /\ n ∈ Scraper.visited_pages st) ->
       exists st',
         Scraper.scrape_body netloc_ok unit opener_open fromstring self st
         = Break st'
         /\ forall fuel,
              Scraper.scrape_loop netloc_ok unit opener_open fromstring
                self (S fuel) st = Some (Returned st').
Proof.
  intros next opener_open Hfirst Hnd Hchain Hend. subst opener_open. split.
  - destruct (Str.nonempty first) eqn:Hne.
    + destruct (scrape_loop_follows_chain netloc_ok fromstring self web rest
                  first (Scraper.scrape_init unit self start_url tt))
        as (fuel & o & Hl & Hf).
      * by rewrite Hfirst.
      * done.
      * done.
      * intros u _. apply not_elem_of_empty.
      * done.
      * unfold Spec.chain_ends in Hend.
        destruct (List.last (map Some (first :: rest)) None) as [e|]; [|done].
        fold next. destruct (next e) as [q|]; [|done].
        right. by apply list_elem_of_In.
      * exists fuel, o. split; [|split].
        -- intros fuel' Hle. by eapply scrape_loop_more_fuel.
        -- rewrite Hf. cbn. lia.
        -- by rewrite Hf.
    + exists 1, (Returned (Scraper.scrape_init unit self start_url tt)).
      assert (Hg : Scraper.scrape_guard
                     (Scraper.scrape_init unit self start_url tt) = false).
      { unfold Scraper.scrape_guard, Scraper.scrape_init.
        cbn [Scraper.next_page]. by rewrite <- Hfirst, Hne. }
      split; [|split; [cbn; lia | done]].
      intros [|fuel'] Hle; [lia|].
      unfold Scraper.scrape. cbn [Scraper.scrape_loop]. by rewrite Hg.
  - intros st html articles possible_next Hg Hweb Hparse Hdone.
    destruct (scrape_body_done netloc_ok fromstring self web st html
                articles possible_next Hweb Hparse Hdone) as (st' & Hb & _).
    exists st'. split; [done|]. intros fuel.
    cbn [Scraper.scrape_loop]. by rewrite Hg, Hb.
Qed.

Lemma scrape_halts_on_chain_witness :
  (exists fuel o,
     (forall fuel', fuel <= fuel' ->
        Scraper.scrape Examples.host_check unit
          (fun (w : unit) (url : string) => (Examples.listing_web url, w))
          Examples.listing_fromstring Examples.paginator fuel' None tt
        = Some o)
     /\ Scraper.fetched (final o)
        = ["https://example.com/"; "https://example.com/page/2"])
  /\ exists st',
       Scraper.scrape_body Examples.host_check unit
         (fun (w : unit) (url : string) => (Examples.listing_web url, w))
         Examples.listing_fromstring Examples.paginator
         (Scraper.mkState "https://example.com/page/2"
            {["https://example.com/"]} ∅ [] tt ["https://example.com/"])
       = Break st'.
Proof.
  destruct (scrape_halts_on_chain Examples.host_check
              Examples.listing_fromstring Examples.paginator
              Examples.listing_web None "https://example.com/"
              ["https://example.com/page/2"])
    as [(fuel & o & Hrun & _ & Hlog) Hdone].
  - reflexivity.
  - apply NoDup_cons. split; [|apply NoDup_singleton].
    intros H%list_elem_of_singleton. discriminate H.
  - apply Spec.chain_cons; [vm_compute; reflexivity | apply Spec.chain_one].
  - unfold Spec.chain_ends. cbn [map List.last].
    replace (Spec.next_of Examples.host_check Examples.listing_fromstring
               Examples.paginator Examples.listing_web
               "https://example.com/page/2")
      with (Some "https://example.com/") by (vm_compute; reflexivity).
    left. reflexivity.
  - split.
    + exists fuel, o. split; [exact Hrun | apply Hlog; reflexivity].
    + destruct (Scraper.parse_listing Examples.host_check
                  Examples.listing_fromstring Examples.paginator
                  Examples.page2_html) as [[articles possible_next]|e] eqn:E.
      * destruct (Hdone (Scraper.mkState "https://example.com/page/2"
                           {["https://example.com/"]} ∅ [] tt
                           ["https://example.com/"])
                    Examples.page2_html articles possible_next)
          as (st' & Hb & _).
        -- vm_compute. reflexivity.
        -- reflexivity.
        -- exact E.
        -- right. right. exists "https://example.com/". split.
           ++ vm_compute in E. injection E as _ <-. reflexivity.
           ++ apply elem_of_singleton. reflexivity.
        -- exists st'. exact Hb.
      * vm_compute in E. discriminate E.
Defined.

(* ===================================================================== *)
(** * Further properties of the code *)
(* ===================================================================== *)

(** ** Stripping *)

Section StripFacts.

Implicit Types (s t : string) (p : ascii -> bool) (c : ascii).

Lemma rstrip_tail_fixed p c s :
  Str.rstrip p (String c s) = String c s -> Str.rstrip p s = s.
Proof.
  cbn [Str.rstrip]. destruct (Str.rstrip p s) as [|c' s'] eqn:E.
  - destruct (p c); [done|]. by intros [= <-].
  - by intros [= <-].
Qed.

Lemma rstrip_cons p c s :
  Str.rstrip p (String c s)
  = match Str.rstrip p s with
    | EmptyString => if p c then EmptyString else String c EmptyString
    | String c' s' => String c (String c' s')
    end.
Proof. done. Qed.

Lemma rstrip_rstrip p s : Str.rstrip p (Str.rstrip p s) = Str.rstrip p s.
Proof.
  induction s as [|c s IH]; [done|]. rewrite rstrip_cons.
  destruct (Str.rstrip p s) as [|c' s'] eqn:E.
  - destruct (p c) eqn:Hc; [done|]. cbn. by rewrite Hc.
  - rewrite rstrip_cons, IH. done.
Qed.

Lemma rstrip_lstrip_fixed p s :
  Str.rstrip p s = s -> Str.rstrip p (Str.lstrip p s) = Str.lstrip p s.
Proof.
  induction s as [|c s IH]; [done|]. intros H. cbn [Str.lstrip].
  destruct (p c); [|done]. apply IH. by eapply rstrip_tail_fixed.
Qed.

Lemma lstrip_lstrip p s : Str.lstrip p (Str.lstrip p s) = Str.lstrip p s.
Proof.
  pose proof (lstrip_head p s) as H.
  destruct (Str.lstrip p s) as [|c r]; [done|]. by apply lstrip_id.
Qed.

Lemma strip_with_fixed p s :
  Str.lstrip p (Str.strip_with p s) = Str.strip_with p s
  /\ Str.rstrip p (Str.strip_with p s) = Str.strip_with p s.
Proof.
  unfold Str.strip_with. split; [apply lstrip_lstrip|].
  apply rstrip_lstrip_fixed, rstrip_rstrip.
Qed.

Lemma strip_stripped s : Notions.stripped (Str.strip s).
Proof. apply strip_with_fixed. Qed.

Lemma stripped_strip s : Notions.stripped s -> Str.strip s = s.
Proof.
  intros [Hl Hr]. unfold Str.strip, Str.strip_with. by rewrite Hr, Hl.
Qed.

Lemma stripped_empty : Notions.stripped EmptyString.
Proof. done. Qed.

Lemma text_content_is_stripped element :
  Notions.stripped (Scraper._text_content element).
Proof.
  destruct element as [[tag attrib text tail children]|];
    [|apply stripped_empty].
  cbn [Scraper._text_content Scraper._text_content_el]. apply strip_stripped.
Qed.

End StripFacts.

(** X1. The flattened text of an element never starts or ends with
    whitespace, and stripping it again changes nothing. *)
Theorem text_content_stripped (element : option Element) :
  Notions.stripped (Scraper._text_content element)
  /\ Str.strip (Scraper._text_content element)
     = Scraper._text_content element.
Proof.
  split; [apply text_content_is_stripped|].
  apply stripped_strip, text_content_is_stripped.
Qed.

(** X2. [_contains_flag] holds exactly when one of the
    whitespace-separated tokens of the attribute equals the flag up to
    case; a longer token that merely contains the flag does not count,
    and an attribute without tokens has no flag. *)
Theorem contains_flag_tokens (attribute_value flag : string) :
  (Scraper._contains_flag attribute_value flag = true <->
   exists token,
     In token (Str.split_ws attribute_value)
     /\ Str.lower token = Str.lower flag)
  /\ (Str.split_ws attribute_value = [] ->
      Scraper._contains_flag attribute_value flag = false).
Proof.
  rewrite contains_flag_has_token. unfold Spec.has_token. split.
  - rewrite existsb_exists. split.
    + intros (token & Hin & He%String.eqb_eq). eauto.
    + intros (token & Hin & He). exists token. split; [done|].
      by apply String.eqb_eq.
  - by intros ->.
Qed.

Lemma contains_flag_tokens_witness :
  Scraper._contains_flag "  " "next" = false.
Proof.
  exact (proj2 (contains_flag_tokens "  " "next") eq_refl).
Defined.

(** ** The paginator's articles *)

Section ArticleFacts.

Variable netloc_ok : string -> bool.
Variable self : Scraper.t.

Import Scraper.

Lemma or_none_not_empty s : or_none s <> Some EmptyString.
Proof. by destruct s. Qed.

Lemma extract_articles_loop_ok article_els articles seen_urls result :
  NoDup (map ArticleRecord.url articles) ->
  (forall u, u ∈ map ArticleRecord.url articles -> u ∈ seen_urls) ->
  Forall (Notions.article_ok netloc_ok self) articles ->
  _extract_articles_loop netloc_ok self article_els articles seen_urls
  = Ret result ->
  NoDup (map ArticleRecord.url result)
  /\ length result <= length articles + length article_els
  /\ Forall (Notions.article_ok netloc_ok self) result.
Proof.
  revert articles seen_urls.
  induction article_els as [|article_el rest IH];
    intros articles seen_urls Hnd Hseen Hok; cbn [_extract_articles_loop].
  { intros [= <-]. split; [done|]. split; [cbn; lia | done]. }
  assert (Hskip :
            _extract_articles_loop netloc_ok self rest articles seen_urls
            = Ret result ->
            NoDup (map ArticleRecord.url result)
            /\ length result <= length articles + length (article_el :: rest)
            /\ Forall (Notions.article_ok netloc_ok self) result).
  { intros H. destruct (IH _ _ Hnd Hseen Hok H) as (? & ? & ?).
    split; [done|]. split; [cbn; lia | done]. }
  destruct (match ET.find article_el "h2" with
            | Some h => ET.find h "a"
            | None => None
            end) as [link|]; [|done].
  set (title := if Str.nonempty (_text_content (Some link))
                then _text_content (Some link)
                else _text_content (ET.find article_el "h2")).
  set (href := Str.strip (or_empty (ET.get link "href"))).
  destruct (Str.nonempty title) eqn:Ht; cbn [negb orb]; [|done].
  destruct (Str.nonempty href) eqn:Hh; cbn [negb]; [|done].
  destruct (Urllib.urljoin netloc_ok (base_url self) href) as [url|] eqn:Hj;
    [|done].
  unfold mbind, exc_bind. case_bool_decide as Hin; [done|].
  intros H. apply IH in H.
  - destruct H as (? & Hlen & ?). split; [done|]. split; [|done].
    rewrite length_app in Hlen. cbn in *. lia.
  - rewrite List.map_app. apply NoDup_app. split; [done|].
    split; [|apply NoDup_singleton].
    intros x Hx ->%list_elem_of_singleton. by apply Hseen in Hx.
  - intros u. rewrite List.map_app.
    intros [Hu | ->%list_elem_of_singleton]%elem_of_app;
      apply elem_of_union; [right; by apply Hseen | left].
    by apply elem_of_singleton.
  - apply Forall_app. split; [done|]. apply Forall_cons. split; [|done].
    unfold Notions.article_ok. cbn.
    split; [done|]. split.
    { subst title. destruct (Str.nonempty (_text_content (Some link)));
        apply text_content_is_stripped. }
    split; [exists href; split; [done|]; split; [apply strip_stripped|done]|].
    split; [apply or_none_not_empty|].
    destruct (ET.find article_el "time"); [apply or_none_not_empty | done].
Qed.

(** Nothing in the extraction raises [ScraperError]: the only exception
    is the [ValueError] of the address resolution. *)
Lemma urlsplit_raises url scheme0 e :
  Urllib.urlsplit netloc_ok url scheme0 = Raise e -> e = ValueError.
Proof.
  unfold Urllib.urlsplit.
  destruct (match Urllib.split_scheme _ with
            | Some (s, rest) => (s, rest)
            | None => _
            end) as [sch url2].
  destruct (Str.startswith "//" url2).
  - destruct (Str.break Urllib.netloc_delim (Str.drop 2 url2)) as [loc rest].
    destruct (netloc_ok loc); unfold mbind, exc_bind.
    + destruct (Urllib.cut "#" rest) as [u4 f4].
      by destruct (Urllib.cut "?" u4).
    + by intros [= <-].
  - unfold mbind, exc_bind. destruct (Urllib.cut "#" url2) as [u4 f4].
    by destruct (Urllib.cut "?" u4).
Qed.

Lemma urlparse_with_raises url scheme0 e :
  Urllib.urlparse_with netloc_ok url scheme0 = Raise e -> e = ValueError.
Proof.
  unfold Urllib.urlparse_with.
  destruct (Urllib.urlsplit netloc_ok url scheme0)
    as [[[[[sch loc] pth] qry] frag]|e'] eqn:E.
  - unfold mbind, exc_bind. by destruct (if _ : bool then _ else _).
  - unfold mbind, exc_bind. intros [= <-]. by eapply urlsplit_raises.
Qed.

Lemma urljoin_raises base url e :
  Urllib.urljoin netloc_ok base url = Raise e -> e = ValueError.
Proof.
  unfold Urllib.urljoin.
  destruct (negb (Str.nonempty base)); [done|].
  destruct (negb (Str.nonempty url)); [done|].
  destruct (Urllib.urlparse_with netloc_ok base EmptyString) as [b|e'] eqn:Eb.
  2:{ unfold mbind, exc_bind. intros [= <-].
      by eapply urlparse_with_raises. }
  unfold mbind at 1, exc_bind at 1.
  destruct (Urllib.urlparse_with netloc_ok url (scheme b)) as [u|e'] eqn:Eu.
  2:{ unfold mbind, exc_bind. intros [= <-].
      by eapply urlparse_with_raises. }
  unfold mbind, exc_bind.
  repeat match goal with
         | |- context [if ?c then _ else _] => destruct c
         end; done.
Qed.

Lemma extract_articles_loop_raises article_els articles seen_urls e :
  _extract_articles_loop netloc_ok self article_els articles seen_urls
  = Raise e -> e = ValueError.
Proof.
  revert articles seen_urls.
  induction article_els as [|article_el rest IH]; intros articles seen_urls;
    cbn [_extract_articles_loop]; [done|].
  destruct (match ET.find article_el "h2" with
            | Some h => ET.find h "a"
            | None => None
            end) as [link|]; [|apply IH].
  destruct (negb _ || negb _); [apply IH|].
  destruct (Urllib.urljoin _ _ _) as [url|e'] eqn:Hj.
  - unfold mbind, exc_bind. case_bool_decide; apply IH.
  - unfold mbind, exc_bind. intros [= <-]. by eapply urljoin_raises.
Qed.

Lemma find_next_link_loop_raises links e :
  _find_next_link_loop netloc_ok self links = Raise e -> e = ValueError.
Proof.
  induction links as [|link rest IH]; cbn [_find_next_link_loop]; [done|].
  destruct (_contains_flag _ _ || _contains_flag _ _); [|apply IH].
  destruct (Str.nonempty _); [|apply IH].
  destruct (Urllib.urljoin _ _ _) as [url|e'] eqn:Hj; [done|].
  cbn. intros [= <-]. by eapply urljoin_raises.
Qed.

End ArticleFacts.

(** X3. The articles [_extract_articles] returns for a page have
    pairwise different addresses, are at most as many as the page has
    [article] elements, and each has a non-empty title without
    surrounding whitespace, an address resolved from a non-empty stripped
    [href], and a summary and a date that are absent rather than
    empty. *)
Theorem extract_articles_well_formed (netloc_ok : string -> bool)
    (self : Scraper.t) (root : Element) (articles : list ArticleRecord.t) :
  Scraper._extract_articles netloc_ok self root = Ret articles ->
  NoDup (map ArticleRecord.url articles)
  /\ length articles <= length (ET.findall root "article")
  /\ Forall (Notions.article_ok netloc_ok self) articles.
Proof.
  intros H. apply extract_articles_loop_ok in H; [done | | | done].
  - apply NoDup_nil_2.
  - by intros u Hu%not_elem_of_nil.
Qed.

Lemma extract_articles_well_formed_witness :
  exists articles,
    Scraper._extract_articles Examples.host_check Examples.test_scraper
      Examples.test_listing = Ret articles
    /\ NoDup (map ArticleRecord.url articles)
    /\ length articles <= 2.
Proof.
  destruct (Scraper._extract_articles Examples.host_check
              Examples.test_scraper Examples.test_listing)
    as [articles|e] eqn:E.
  - exists articles. split; [reflexivity|].
    destruct (extract_articles_well_formed _ _ _ _ E) as (Hnd & Hlen & _).
    split; [exact Hnd | exact Hlen].
  - vm_compute in E. discriminate E.
Defined.



(** ** First-seen order *)

Section KeepFirst.

#[local] Abbreviation url_is f :=
  (fun b : ArticleRecord.t => f (ArticleRecord.url b)).

Lemma filter_filter_comm {A : Type} (f g : A -> bool) (l : list A) :
  List.filter f (List.filter g l) = List.filter g (List.filter f l).
Proof.
  induction l as [|x l IH]; [done|]. cbn [List.filter].
  destruct (f x) eqn:Hf, (g x) eqn:Hg; cbn [List.filter];
    rewrite ?Hf, ?Hg, IH; done.
Qed.

Lemma filter_filter_and {A : Type} (f g : A -> bool) (l : list A) :
  List.filter f (List.filter g l) = List.filter (fun x => f x && g x) l.
Proof.
  induction l as [|x l IH]; [done|]. cbn [List.filter].
  destruct (g x) eqn:Hg; cbn [List.filter]; rewrite ?andb_true_r, ?andb_false_r.
  - destruct (f x); by rewrite IH.
  - done.
Qed.

Lemma filter_all {A : Type} (f : A -> bool) (l : list A) :
  (forall x, f x = true) -> List.filter f l = l.
Proof.
  intros Hf. induction l as [|x l IH]; [done|]. cbn. by rewrite Hf, IH.
Qed.

Lemma keep_first_filter (f : string -> bool) (l : list ArticleRecord.t) :
  Notions.keep_first (List.filter (url_is f) l)
  = List.filter (url_is f) (Notions.keep_first l).
Proof.
  induction l as [|a l IH]; [done|]. cbn [List.filter Notions.keep_first].
  destruct (f (ArticleRecord.url a)) eqn:Hf.
  - cbn [Notions.keep_first List.filter]. cbv beta. rewrite IH. f_equal.
    apply filter_filter_comm.
  - rewrite IH, filter_filter_and. apply List.filter_ext. intros b.
    destruct (f (ArticleRecord.url b)) eqn:Hb; [|done]. cbn [andb].
    symmetry. apply negb_true_iff, String.eqb_neq. intros He. congruence.
Qed.

(** The loop of [scrape] over a page's articles appends, in order, the
    first article of every address that was not seen before. *)
Lemma merge_articles_keep_first articles seen acc :
  Scraper.merge_articles articles seen acc
  = (list_to_set (map ArticleRecord.url articles) ∪ seen,
     acc ++ Notions.keep_first
              (List.filter
                 (url_is (fun u => negb (bool_decide (u ∈ seen))))
                 articles)).
Proof.
  unfold Scraper.merge_articles. revert seen acc.
  induction articles as [|a rest IH]; intros seen acc;
    cbn [fold_left map List.filter list_to_set foldr].
  { by rewrite union_empty_l_L, app_nil_r. }
  case_bool_decide as Hin; cbn [negb].
  - rewrite IH. f_equal.
    apply set_eq. intros x. rewrite !elem_of_union, elem_of_singleton.
    split; [tauto|]. intros [[-> | ?] | ?]; tauto.
  - rewrite IH. cbn [Notions.keep_first]. f_equal.
    + apply set_eq. intros x. rewrite !elem_of_union, elem_of_singleton.
      tauto.
    + rewrite <- app_assoc. cbn [app]. do 2 f_equal.
      rewrite <- (keep_first_filter
                    (fun u => negb (String.eqb u (ArticleRecord.url a)))).
      f_equal. rewrite filter_filter_and. apply List.filter_ext. intros b.
      destruct (String.eqb_spec (ArticleRecord.url b) (ArticleRecord.url a))
        as [He | Hne]; cbn [negb andb].
      * apply negb_false_iff, bool_decide_eq_true, elem_of_union.
        left. by apply elem_of_singleton.
      * f_equal. apply bool_decide_ext. rewrite elem_of_union, elem_of_singleton.
        tauto.
Qed.

Lemma merge_articles_app l1 l2 seen acc :
  Scraper.merge_articles (l1 ++ l2) seen acc
  = let '(seen', acc') := Scraper.merge_articles l1 seen acc in
    Scraper.merge_articles l2 seen' acc'.
Proof.
  unfold Scraper.merge_articles. rewrite fold_left_app.
  by destruct (fold_left _ l1 (seen, acc)).
Qed.

End KeepFirst.

(** ** The paginator along a chain of pages *)

Section StaticRun.

Variable netloc_ok : string -> bool.
Variable fromstring : string -> option Element.
Variable self : Scraper.t.
Variable web : string -> option string.

#[local] Abbreviation run_open :=
  (fun (w : unit) (url : string) => (web url, w)).
#[local] Abbreviation run_body :=
  (Scraper.scrape_body netloc_ok unit run_open fromstring self).
#[local] Abbreviation run_loop :=
  (Scraper.scrape_loop netloc_ok unit run_open fromstring self).
#[local] Abbreviation next' :=
  (Spec.next_of netloc_ok fromstring self web).
#[local] Abbreviation articles_of' :=
  (Notions.articles_of netloc_ok fromstring self web).

Import Scraper.

Lemma next_of_articles p q :
  next' p = Some q -> exists articles, articles_of' p = Some articles.
Proof.
  unfold Spec.next_of, Notions.articles_of.
  destruct (web p) as [html|]; [|done].
  destruct (parse_listing netloc_ok fromstring self html)
    as [[articles possible_next]|]; [|done]. eauto.
Qed.

(** A page that can be fetched and parsed never aborts the loop, and its
    articles are merged into the collected ones. *)
Lemma scrape_body_page_ok (st : State unit) articles :
  articles_of' (next_page st) = Some articles ->
  (seen_articles (after (run_body st)), collected (after (run_body st)))
  = merge_articles articles (seen_articles st) (collected st)
  /\ forall e s, run_body st <> Abort e s.
Proof.
  unfold Notions.articles_of, scrape_body, _fetch.
  destruct (web (next_page st)) as [html|]; [|done].
  destruct (parse_listing netloc_ok fromstring self html)
    as [[arts possible_next]|]; [|done].
  intros [= ->].
  destruct (merge_articles articles (seen_articles st) (collected st))
    as [seen acc].
  by destruct (negb (truthy possible_next) || _).
Qed.

(** A page that cannot be fetched, or whose markup cannot be parsed,
    aborts the loop with [ScraperError]. *)
Lemma scrape_body_page_fails (st : State unit) :
  web (next_page st) = None
  \/ (exists html, web (next_page st) = Some html /\ fromstring html = None) ->
  exists s, run_body st = Abort ScraperError s
            /\ fetched s = fetched st ++ [next_page st].
Proof.
  unfold scrape_body, _fetch.
  intros [-> | (html & -> & Hp)]; [eauto|].
  unfold parse_listing, _parse_html. rewrite Hp. cbn. eauto.
Qed.

Lemma last_cons_default {A : Type} (x : A) l d d' :
  List.last (x :: l) d = List.last (x :: l) d'.
Proof.
  revert x. induction l as [|y l IH]; intros x; [done|].
  change (List.last (y :: l) d = List.last (y :: l) d'). apply IH.
Qed.

(** Up to its last page, a chain of distinct unvisited pages is walked
    by passes that all continue. *)
Lemma scrape_loop_chain_prefix rest :
  forall p (st : State unit),
    next_page st = p -> Str.nonempty p = true ->
    NoDup (p :: rest) ->
    (forall u, u ∈ p :: rest -> u ∉ visited_pages st) ->
    Spec.next_chain next' (p :: rest) ->
    exists n (st_k : State unit) before,
      (forall fuel, run_loop (n + fuel) st = run_loop fuel st_k)
      /\ next_page st_k = List.last (p :: rest) p
      /\ scrape_guard st_k = true
      /\ fetched st_k = fetched st ++ removelast (p :: rest)
      /\ (forall u, u ∈ visited_pages st_k <->
                    u ∈ removelast (p :: rest) \/ u ∈ visited_pages st)
      /\ Forall2 (fun u articles => articles_of' u = Some articles)
                 (removelast (p :: rest)) before
      /\ (seen_articles st_k, collected st_k)
         = merge_articles (List.concat before) (seen_articles st)
             (collected st).
Proof.
  induction rest as [|q rest IH]; intros p st Hp Hne Hnd Hfresh Hchain.
  - exists 0, st, []. cbn [removelast List.last List.concat].
    split; [done|]. split; [done|]. split.
    { apply scrape_guard_true. rewrite Hp. split; [done|].
      apply Hfresh, list_elem_of_singleton. done. }
    split; [by rewrite app_nil_r|]. split.
    { intros u. split; [by right|]. by intros [?%not_elem_of_nil|]. }
    split; [constructor | done].
  - assert (Hg : scrape_guard st = true).
    { apply scrape_guard_true. rewrite Hp. split; [done|].
      apply Hfresh, elem_of_cons. by left. }
    pose proof (scrape_body_next netloc_ok fromstring self web st)
      as (Hf & Hv & Hn). cbv zeta in *. rewrite Hp in Hn, Hf, Hv.
    inversion Hchain as [|p' q' l' Hnext Hchain']; subst p' q' l'.
    rewrite Hnext in Hn. destruct Hn as [Hqne Hn].
    apply NoDup_cons in Hnd as [Hpq Hnd'].
    rewrite bool_decide_eq_false_2 in Hn.
    2:{ intros [->%elem_of_singleton | Hq]%elem_of_union.
        - apply Hpq, elem_of_cons. by left.
        - apply (Hfresh q); [|done]. apply elem_of_cons. right.
          apply elem_of_cons. by left. }
    destruct Hn as [Hb Hq].
    destruct (next_of_articles p q Hnext) as [articles Ha].
    rewrite <- Hp in Ha.
    destruct (scrape_body_page_ok st articles Ha) as [Hmerge _].
    destruct (IH q (after (run_body st)) Hq Hqne Hnd')
      as (n & st_k & before & Hrun & Hlast & Hgk & Hfk & Hvk & Hall & Hmk).
    + intros u Hu. rewrite Hv.
      intros [->%elem_of_singleton | Hu']%elem_of_union.
      * by apply Hpq.
      * apply (Hfresh u); [|done]. apply elem_of_cons. by right.
    + done.
    + exists (S n), st_k, (articles :: before).
      change (removelast (p :: q :: rest))
        with (p :: removelast (q :: rest)).
      change (List.last (p :: q :: rest) p) with (List.last (q :: rest) p).
      split.
      { intros fuel. cbn [Nat.add scrape_loop]. by rewrite Hg, Hb. }
      split.
      { rewrite Hlast. apply last_cons_default. }
      split; [done|]. split.
      { rewrite Hfk, Hf. by rewrite <- app_assoc. }
      split.
      { intros u. rewrite Hvk, Hv, elem_of_union, elem_of_singleton,
          elem_of_cons. tauto. }
      split.
      { constructor; [by rewrite <- Hp|done]. }
      rewrite Hmk. cbn [List.concat]. rewrite merge_articles_app.
      by rewrite <- Hmerge.
Qed.

Lemma removelast_last_app (p : string) rest :
  removelast (p :: rest) ++ [List.last (p :: rest) p] = p :: rest.
Proof. symmetry. by apply app_removelast_last. Qed.

Lemma forall2_functional {A B : Type} (f : A -> option B) l l1 l2 :
  Forall2 (fun a b => f a = Some b) l l1 ->
  Forall2 (fun a b => f a = Some b) l l2 -> l1 = l2.
Proof.
  intros H1. revert l2. induction H1 as [|a b l l1 Hab H1 IH]; intros l2 H2.
  - by inversion H2.
  - inversion H2 as [|a' b' l' l2' Hab' H2']; subst. f_equal; [congruence|].
    by apply IH.
Qed.

End StaticRun.

Lemma last_map_some {A : Type} (x : A) l d :
  List.last (map Some (x :: l)) None = Some (List.last (x :: l) d).
Proof.
  revert x. induction l as [|y l IH]; intros x; [done|].
  change (List.last (map Some (y :: l)) None = Some (List.last (y :: l) d)).
  apply IH.
Qed.





(** ** The crawler's start address *)

Section InitFacts.

Implicit Types (s r : string) (p : ascii -> bool) (c : ascii).

Lemma rstrip_app_char p c r :
  p c = true -> Str.rstrip p r = r ->
  Str.rstrip p (r +:+ String c EmptyString) = r.
Proof.
  intros Hc. induction r as [|x r IH]; intros Hr.
  - cbn. by rewrite Hc.
  - change (String x r +:+ String c EmptyString)
      with (String x (r +:+ String c EmptyString)).
    rewrite rstrip_cons, (IH (rstrip_tail_fixed _ _ _ Hr)).
    destruct r as [|y r]; [|done].
    cbn in Hr. destruct (p x); [done|]. done.
Qed.

Lemma endswith_app_char c r :
  Str.endswith (String c EmptyString) (r +:+ String c EmptyString) = true.
Proof.
  induction r as [|x r IH].
  - apply endswith_refl.
  - change (String x r +:+ String c EmptyString)
      with (String x (r +:+ String c EmptyString)).
    by apply endswith_tail.
Qed.

Lemma endswith_double_char c r :
  Str.rstrip (Str.ch c) r = r ->
  Str.endswith (String c (String c EmptyString)) (r +:+ String c EmptyString)
  = false.
Proof.
  induction r as [|x r IH]; intros Hr.
  - cbn. by destruct (Ascii.eqb c c).
  - change (String x r +:+ String c EmptyString)
      with (String x (r +:+ String c EmptyString)).
    cbn [Str.endswith]. rewrite (IH (rstrip_tail_fixed _ _ _ Hr)).
    rewrite orb_false_r. apply String.eqb_neq. intros [= -> He].
    destruct r as [|y r]; [|by destruct r].
    cbn in Hr. unfold Str.ch in Hr. by rewrite Ascii.eqb_refl in Hr.
Qed.

End InitFacts.

(** X7. Whatever number of slashes the given address ends with, the
    [base_url] a crawler keeps ends with exactly one; building a crawler
    from a kept [base_url] keeps it unchanged; and a new crawler has
    visited nothing. *)
Theorem crawler_base_url_one_slash (base_url : string) (max_pages : Z) :
  let self := BFSkinnerScraper.__init__ base_url max_pages in
  Str.endswith "/" (BFSkinnerScraper.base_url self) = true
  /\ Str.endswith "//" (BFSkinnerScraper.base_url self) = false
  /\ BFSkinnerScraper.__init__ (BFSkinnerScraper.base_url self) max_pages
     = self
  /\ BFSkinnerScraper._visited self = ∅.
Proof.
  intros self. subst self. unfold BFSkinnerScraper.__init__.
  cbn [BFSkinnerScraper.base_url BFSkinnerScraper._visited].
  pose proof (rstrip_rstrip (Str.ch "/") base_url) as Hr.
  split; [apply endswith_app_char|].
  split; [by apply endswith_double_char|].
  split; [|done]. by rewrite (rstrip_app_char (Str.ch "/") "/").
Qed.

(** ** The crawler's records and links *)

Section ResourceFacts.

Variable netloc_ok : string -> bool.
Variable self : BFSkinnerScraper.t.

#[local] Abbreviation normalize' :=
  (BFSkinnerScraper._normalize_url netloc_ok).
#[local] Abbreviation is_internal' :=
  (BFSkinnerScraper._is_internal_url netloc_ok self).

Import BFSkinnerScraper.

Lemma classify_resource_range resource_url anchor_text ty :
  _classify_resource netloc_ok self resource_url anchor_text = Ret (Some ty) ->
  ty = "page" \/ In (String "." ty) RESOURCE_EXTENSIONS.
Proof.
  unfold _classify_resource, _classify_resource_in.
  destruct (Urllib.urlparse netloc_ok resource_url) as [parsed|]; [|done].
  unfold mbind at 1, exc_bind at 1.
  destruct (negb (Str.startswith "http" (scheme parsed))); [done|].
  destruct (List.find _ RESOURCE_EXTENSIONS) as [ext|] eqn:E.
  - intros [= <-]. right. apply find_some in E as [Hin _].
    by rewrite <- (extension_name ext Hin).
  - destruct (existsb _ KEYWORD_HINTS); [|done].
    destruct (is_internal' resource_url) as [[|]|]; [|done|done].
    intros [= <-]. by left.
Qed.

Lemma derive_description_not_empty anchor :
  _derive_description anchor <> Some EmptyString.
Proof.
  unfold _derive_description.
  destruct (Anchor.parent_text anchor) as [[|c s]|]; cbn;
    try done; apply or_none_not_empty.
Qed.

(** The record [_extract_resources] builds for an anchor. *)
Lemma extract_resources_loop_step page_url page_title anchor rest found :
  _extract_resources_loop netloc_ok self page_url page_title (anchor :: rest)
    found
  = if negb (Str.nonempty (Anchor.href anchor))
    then _extract_resources_loop netloc_ok self page_url page_title rest found
    else
      resource_url ← Urllib.urljoin netloc_ok page_url (Anchor.href anchor);
      resource_type ← _classify_resource netloc_ok self resource_url
                         (Anchor.text anchor);
      match resource_type with
      | None =>
          _extract_resources_loop netloc_ok self page_url page_title rest found
      | Some ty =>
          pu ← normalize' page_url;
          ru ← normalize' resource_url;
          let record :=
            ResourceRecord.mk pu ru
              (if Str.nonempty (Anchor.text anchor) then Anchor.text anchor
               else or_empty page_title)
              ty page_title (_derive_description anchor) in
          _extract_resources_loop netloc_ok self page_url page_title rest
            (if bool_decide (record ∈ found) then found
             else found ++ [record])
      end.
Proof. done. Qed.

Lemma extract_resources_loop_fields page_url page_title anchors found batch
    (P : ResourceRecord.t -> Prop) :
  (forall pu ru ty anchor resource_url,
     In anchor anchors ->
     Str.nonempty (Anchor.href anchor) = true ->
     Urllib.urljoin netloc_ok page_url (Anchor.href anchor) = Ret resource_url ->
     _classify_resource netloc_ok self resource_url (Anchor.text anchor)
     = Ret (Some ty) ->
     normalize' page_url = Ret pu -> normalize' resource_url = Ret ru ->
     P (ResourceRecord.mk pu ru
          (if Str.nonempty (Anchor.text anchor) then Anchor.text anchor
           else or_empty page_title)
          ty page_title (_derive_description anchor))) ->
  Forall P found ->
  _extract_resources_loop netloc_ok self page_url page_title anchors found
  = Ret batch ->
  Forall P batch /\ length batch <= length found + length anchors.
Proof.
  revert found. induction anchors as [|anchor rest IH]; intros found HP Hfound.
  { intros [= <-]. split; [done | cbn; lia]. }
  rewrite extract_resources_loop_step.
  assert (Hskip :
            _extract_resources_loop netloc_ok self page_url page_title rest
              found = Ret batch ->
            Forall P batch
            /\ length batch <= length found + length (anchor :: rest)).
  { intros H. apply IH in H as [? ?]; [|by intros; eapply HP; eauto; right|done].
    split; [done | cbn; lia]. }
  destruct (Str.nonempty (Anchor.href anchor)) eqn:Hh; cbn [negb]; [|done].
  destruct (Urllib.urljoin netloc_ok page_url (Anchor.href anchor))
    as [resource_url|] eqn:Hj; [|done].
  unfold mbind at 1, exc_bind at 1.
  destruct (_classify_resource netloc_ok self resource_url (Anchor.text anchor))
    as [[ty|]|] eqn:Hc; [| done | done].
  unfold mbind at 1, exc_bind at 1.
  destruct (normalize' page_url) as [pu|] eqn:Hpu; [|done].
  unfold mbind at 1, exc_bind at 1.
  destruct (normalize' resource_url) as [ru|] eqn:Hru; [|done].
  unfold mbind at 1, exc_bind at 1. cbv zeta.
  intros H. apply IH in H as [? Hlen].
  - split; [done|]. case_bool_decide; rewrite ?length_app in Hlen; cbn in *; lia.
  - intros. eapply HP; eauto. by right.
  - case_bool_decide; [done|]. apply Forall_app. split; [done|].
    apply Forall_cons. split; [|done]. eapply HP; eauto. by left.
Qed.

Lemma extract_resources_loop_keeps page_url page_title anchors found batch r :
  _extract_resources_loop netloc_ok self page_url page_title anchors found
  = Ret batch ->
  r ∈ found -> r ∈ batch.
Proof.
  revert found. induction anchors as [|anchor rest IH]; intros found.
  { by intros [= <-]. }
  rewrite extract_resources_loop_step.
  destruct (negb (Str.nonempty (Anchor.href anchor))); [apply IH|].
  destruct (Urllib.urljoin netloc_ok page_url (Anchor.href anchor))
    as [resource_url|]; [|done].
  unfold mbind at 1, exc_bind at 1.
  destruct (_classify_resource netloc_ok self resource_url (Anchor.text anchor))
    as [[ty|]|]; [| apply IH | done].
  unfold mbind at 1, exc_bind at 1.
  destruct (normalize' page_url) as [pu|]; [|done].
  unfold mbind at 1, exc_bind at 1.
  destruct (normalize' resource_url) as [ru|]; [|done].
  unfold mbind at 1, exc_bind at 1. cbv zeta.
  intros H Hr. eapply IH; [exact H|].
  case_bool_decide; [done|]. apply elem_of_app. by left.
Qed.

Lemma extract_resources_loop_complete page_url page_title anchors found batch
    anchor resource_url ty :
  _extract_resources_loop netloc_ok self page_url page_title anchors found
  = Ret batch ->
  In anchor anchors ->
  Str.nonempty (Anchor.href anchor) = true ->
  Urllib.urljoin netloc_ok page_url (Anchor.href anchor) = Ret resource_url ->
  _classify_resource netloc_ok self resource_url (Anchor.text anchor)
  = Ret (Some ty) ->
  exists pu ru,
    normalize' page_url = Ret pu /\ normalize' resource_url = Ret ru
    /\ ResourceRecord.mk pu ru
         (if Str.nonempty (Anchor.text anchor) then Anchor.text anchor
          else or_empty page_title)
         ty page_title (_derive_description anchor) ∈ batch.
Proof.
  revert found. induction anchors as [|a rest IH]; intros found; [done|].
  rewrite extract_resources_loop_step. intros H [-> | Hin] Hh Hj Hc.
  - rewrite Hh, Hj in H. cbn [negb] in H.
    unfold mbind at 1, exc_bind at 1 in H. rewrite Hc in H.
    unfold mbind at 1, exc_bind at 1 in H.
    destruct (normalize' page_url) as [pu|]; [|done].
    unfold mbind at 1, exc_bind at 1 in H.
    destruct (normalize' resource_url) as [ru|]; [|done].
    unfold mbind at 1, exc_bind at 1 in H. cbv zeta in H.
    exists pu, ru. split; [done|]. split; [done|].
    eapply extract_resources_loop_keeps; [exact H|].
    case_bool_decide; [done|]. apply elem_of_app. right.
    by apply list_elem_of_singleton.
  - destruct (negb (Str.nonempty (Anchor.href a))); [by eapply IH|].
    destruct (Urllib.urljoin netloc_ok page_url (Anchor.href a))
      as [ru0|]; [|done].
    unfold mbind at 1, exc_bind at 1 in H.
    destruct (_classify_resource netloc_ok self ru0 (Anchor.text a))
      as [[ty0|]|]; [| by eapply IH | done].
    unfold mbind at 1, exc_bind at 1 in H.
    destruct (normalize' page_url) as [pu|]; [|done].
    unfold mbind at 1, exc_bind at 1 in H.
    destruct (normalize' ru0) as [ru|]; [|done].
    unfold mbind at 1, exc_bind at 1 in H. cbv zeta in H.
    by eapply IH.
Qed.

(** Normalizing an address with a host keeps its host. *)
Lemma normalize_internal_same u v b :
  normalize' u = Ret v -> is_internal' u = Ret b -> is_internal' v = Ret b.
Proof.
  unfold _normalize_url at 1, _is_internal_url at 1.
  destruct (Urllib.urlparse netloc_ok u) as [p|] eqn:E; [|done].
  unfold mbind at 1 2, exc_bind at 1 2. cbv zeta.
  destruct (Str.nonempty (netloc p)) eqn:Hn; intros <-%Ret_inj.
  - destruct (Urllib.urlparse netloc_ok (base_url self)) as [base|] eqn:Eb;
      [|done].
    unfold mbind, exc_bind. intros <-%Ret_inj.
    unfold _is_internal_url.
    rewrite (urlparse_rebuild netloc_ok u p E Hn), Eb.
    unfold mbind, exc_bind. cbn [netloc path]. by rewrite Hn.
  - intros H. unfold _is_internal_url. rewrite E.
    unfold mbind at 1, exc_bind at 1. rewrite Hn. exact H.
Qed.

Lemma extract_internal_links_ok page_url anchors links :
  _extract_internal_links_loop netloc_ok self page_url anchors = Ret links ->
  Forall (fun u => Str.nonempty u = true /\ normalize' u = Ret u
                   /\ is_internal' u = Ret true) links
  /\ length links <= length anchors.
Proof.
  revert links. induction anchors as [|anchor rest IH]; intros links;
    cbn [_extract_internal_links_loop].
  { intros [= <-]. split; [done | cbn; lia]. }
  assert (Hskip :
            _extract_internal_links_loop netloc_ok self page_url rest
            = Ret links ->
            Forall (fun u => Str.nonempty u = true /\ normalize' u = Ret u
                             /\ is_internal' u = Ret true) links
            /\ length links <= length (anchor :: rest)).
  { intros H. apply IH in H as [? ?]. split; [done | cbn; lia]. }
  destruct (negb (Str.nonempty (Anchor.href anchor))); [done|].
  destruct (Urllib.urljoin netloc_ok page_url (Anchor.href anchor))
    as [absolute|]; [|done].
  unfold mbind at 1, exc_bind at 1.
  destruct (is_internal' absolute) as [[|]|] eqn:Hi; [| done | done].
  unfold mbind at 1, exc_bind at 1.
  destruct (normalize' absolute) as [cleaned|] eqn:Hc; [|done].
  unfold mbind at 1, exc_bind at 1.
  destruct (_extract_internal_links_loop netloc_ok self page_url rest)
    as [more|]; [|done].
  unfold mbind, exc_bind. intros <-%Ret_inj.
  destruct (IH more eq_refl) as [Hall Hlen].
  destruct (Str.nonempty cleaned) eqn:Hne.
  - split; [|cbn; lia]. apply Forall_cons. split; [|done].
    split; [done|]. split; [by eapply normalize_url_fixed|].
    by eapply normalize_internal_same.
  - split; [done | cbn; lia].
Qed.

End ResourceFacts.

(** X8. Every record [_extract_resources] returns for a page carries the
    normalized address of the page and a normalized resource address,
    the page title it was given, a type that is [page] or one of the
    recognized extensions without its dot, and a description that is
    absent rather than empty; there are at most as many records as
    anchors. *)
Theorem extract_resources_well_formed (netloc_ok : string -> bool)
    (self : BFSkinnerScraper.t) (page_url : string)
    (page_title : option string) (soup : Soup.t)
    (batch : list ResourceRecord.t) :
  BFSkinnerScraper._extract_resources netloc_ok self page_url page_title soup
  = Ret batch ->
  Forall
    (fun r =>
       BFSkinnerScraper._normalize_url netloc_ok page_url
       = Ret (ResourceRecord.page_url r)
       /\ BFSkinnerScraper._normalize_url netloc_ok
            (ResourceRecord.resource_url r)
          = Ret (ResourceRecord.resource_url r)
       /\ ResourceRecord.page_title r = page_title
       /\ (ResourceRecord.resource_type r = "page"
           \/ In (String "." (ResourceRecord.resource_type r))
                 BFSkinnerScraper.RESOURCE_EXTENSIONS)
       /\ ResourceRecord.description r <> Some EmptyString)
    batch
  /\ length batch <= length (Soup.anchors soup).
Proof.
  intros H. eapply extract_resources_loop_fields in H; [exact H | | done].
  intros pu ru ty anchor resource_url _ _ _ Hc Hpu Hru. cbn.
  split; [done|]. split; [by eapply normalize_url_fixed|]. split; [done|].
  split; [by eapply classify_resource_range|].
  apply derive_description_not_empty.
Qed.

Lemma extract_resources_well_formed_witness :
  exists batch,
    BFSkinnerScraper._extract_resources Examples.host_check
      (Examples.crawler 10) "https://www.bfskinner.org/library#top"
      (Some "Library") Examples.library_soup = Ret batch
    /\ Forall (fun r => ResourceRecord.page_title r = Some "Library") batch
    /\ length batch <= 5.
Proof.
  destruct (BFSkinnerScraper._extract_resources Examples.host_check
              (Examples.crawler 10) "https://www.bfskinner.org/library#top"
              (Some "Library") Examples.library_soup) as [batch|e] eqn:E.
  - exists batch. split; [reflexivity|].
    destruct (extract_resources_well_formed _ _ _ _ _ _ E) as [Hall Hlen].
    split; [|exact Hlen].
    eapply Forall_impl; [exact Hall|]. cbv beta. tauto.
  - vm_compute in E. discriminate E.
Defined.

(** X9. [_extract_resources] loses no resource: for every anchor of the
    page with a non-empty [href] whose resolved address has a resource
    type, the record built from that anchor (normalized addresses, the
    anchor text or else the page title as title, the description
    derived from the anchor) is among the records returned. *)
Theorem extract_resources_complete (netloc_ok : string -> bool)
    (self : BFSkinnerScraper.t) (page_url : string)
    (page_title : option string) (soup : Soup.t)
    (batch : list ResourceRecord.t) (anchor : Anchor.t)
    (resource_url ty : string) :
  BFSkinnerScraper._extract_resources netloc_ok self page_url page_title soup
  = Ret batch ->
  In anchor (Soup.anchors soup) ->
  Str.nonempty (Anchor.href anchor) = true ->
  Urllib.urljoin netloc_ok page_url (Anchor.href anchor) = Ret resource_url ->
  BFSkinnerScraper._classify_resource netloc_ok self resource_url
    (Anchor.text anchor) = Ret (Some ty) ->
  exists pu ru,
    BFSkinnerScraper._normalize_url netloc_ok page_url = Ret pu
    /\ BFSkinnerScraper._normalize_url netloc_ok resource_url = Ret ru
    /\ ResourceRecord.mk pu ru
         (if Str.nonempty (Anchor.text anchor) then Anchor.text anchor
          else or_empty page_title)
         ty page_title (BFSkinnerScraper._derive_description anchor)
       ∈ batch.
Proof. apply extract_resources_loop_complete. Qed.

Lemma extract_resources_complete_witness :
  exists batch,
    BFSkinnerScraper._extract_resources Examples.host_check
      (Examples.crawler 10) "https://www.bfskinner.org/library#top"
      (Some "Library") Examples.library_soup = Ret batch
    /\ ResourceRecord.mk "https://www.bfskinner.org/library"
         "https://www.bfskinner.org/about" "Download the free guide" "page"
         (Some "Library") (Some "Download the free guide")
       ∈ batch.
Proof.
  destruct (BFSkinnerScraper._extract_resources Examples.host_check
              (Examples.crawler 10) "https://www.bfskinner.org/library#top"
              (Some "Library") Examples.library_soup) as [batch|e] eqn:E.
  - exists batch. split; [reflexivity|].
    destruct (extract_resources_complete Examples.host_check
                (Examples.crawler 10) "https://www.bfskinner.org/library#top"
                (Some "Library") Examples.library_soup batch
                (Anchor.mk "/about" "Download the free guide" None)
                "https://www.bfskinner.org/about" "page" E)
      as (pu & ru & Hpu & Hru & Hin).
    + right. left. reflexivity.
    + reflexivity.
    + vm_compute. reflexivity.
    + vm_compute. reflexivity.
    + vm_compute in Hpu. injection Hpu as <-.
      vm_compute in Hru. injection Hru as <-. exact Hin.
  - vm_compute in E. discriminate E.
Defined.

(** X10. Normalizing an address does not change whether it is internal:
    an address and its normalized form are both internal or both
    external. *)
Theorem normalize_keeps_internal (netloc_ok : string -> bool)
    (self : BFSkinnerScraper.t) (u v : string) (b : bool) :
  BFSkinnerScraper._normalize_url netloc_ok u = Ret v ->
  BFSkinnerScraper._is_internal_url netloc_ok self u = Ret b ->
  BFSkinnerScraper._is_internal_url netloc_ok self v = Ret b.
Proof. apply normalize_internal_same. Qed.

Lemma normalize_keeps_internal_witness :
  BFSkinnerScraper._is_internal_url Examples.host_check (Examples.crawler 10)
    "https://www.bfskinner.org/about?x=1"
  = Ret true.
Proof.
  exact (normalize_keeps_internal Examples.host_check (Examples.crawler 10)
           "//www.bfskinner.org/about;v=2?x=1#top"
           "https://www.bfskinner.org/about?x=1" true eq_refl eq_refl).
Defined.

(** X11. Every address [_extract_internal_links] yields for a page is
    non-empty, normalized and internal, and there are at most as many as
    the page has anchors. *)
Theorem extract_internal_links_internal (netloc_ok : string -> bool)
    (self : BFSkinnerScraper.t) (page_url : string) (soup : Soup.t)
    (links : list string) :
  BFSkinnerScraper._extract_internal_links netloc_ok self page_url soup
  = Ret links ->
  Forall
    (fun u =>
       Str.nonempty u = true
       /\ BFSkinnerScraper._normalize_url netloc_ok u = Ret u
       /\ BFSkinnerScraper._is_internal_url netloc_ok self u = Ret true)
    links
  /\ length links <= length (Soup.anchors soup).
Proof. apply extract_internal_links_ok. Qed.

Lemma extract_internal_links_internal_witness :
  exists links,
    BFSkinnerScraper._extract_internal_links Examples.host_check
      (Examples.crawler 10) "https://www.bfskinner.org/library#top"
      Examples.library_soup = Ret links
    /\ length links <= 5.
Proof.
  destruct (BFSkinnerScraper._extract_internal_links Examples.host_check
              (Examples.crawler 10) "https://www.bfskinner.org/library#top"
              Examples.library_soup) as [links|e] eqn:E.
  - exists links. split; [reflexivity|].
    exact (proj2 (extract_internal_links_internal _ _ _ _ _ E)).
  - vm_compute in E. discriminate E.
Defined.

(** ** Runs of the crawler *)

Section CrawlMore.

Variable netloc_ok : string -> bool.
Variable World : Type.
Variable session_get : World -> string -> option Response.t * World.
Variable BeautifulSoup : string -> Soup.t.

#[local] Abbreviation body_of self :=
  (BFSkinnerScraper.crawl_body netloc_ok self World session_get
     BeautifulSoup).
#[local] Abbreviation loop_of self :=
  (BFSkinnerScraper.crawl_loop netloc_ok self World session_get
     BeautifulSoup).
#[local] Abbreviation crawl_of self :=
  (BFSkinnerScraper.crawl netloc_ok self World session_get BeautifulSoup).

Import BFSkinnerScraper.

Lemma crawl_on_site self fuel w o :
  crawl_of self fuel w = Some o ->
  Forall (Notions.on_site netloc_ok self) (queue (final o))
  /\ Forall (Notions.on_site netloc_ok self) (map fst (fetched (final o))).
Proof.
  unfold crawl.
  apply (crawl_loop_invariant netloc_ok self World session_get BeautifulSoup
           (fun st =>
              Forall (Notions.on_site netloc_ok self) (queue st)
              /\ Forall (Notions.on_site netloc_ok self)
                   (map fst (fetched st)))).
  - intros st url q [Hq Hf] Eq _. rewrite Eq in Hq.
    apply Forall_cons in Hq as [Hurl Hq]. split.
    + apply Forall_forall. intros u Hu.
      apply crawl_body_queue in Hu as [Hu | (soup & links & Hl & Hu)].
      * by eapply Forall_forall in Hq.
      * apply extract_internal_links_ok in Hl as [Hl _].
        eapply Forall_forall in Hl; [|exact Hu]. by right.
    + pose proof (crawl_body_shape netloc_ok self World session_get
                    BeautifulSoup st url q) as Hshape.
      cbv zeta in Hshape.
      destruct Hshape as [(_ & _ & _ & [-> | [_ ->]] & _) | (_ & _ & -> & _)];
        [done | | ]; rewrite List.map_app; apply Forall_app; split; try done;
        by apply Forall_cons.
  - cbn. split; [|done]. apply Forall_cons. split; [by left | done].
Qed.

Lemma crawl_visited_exact self fuel w o :
  crawl_of self fuel w = Some o ->
  visited (final o)
  = _visited self ∪ list_to_set (returned_fetches (fetched (final o))).
Proof.
  unfold crawl.
  apply (crawl_loop_invariant netloc_ok self World session_get BeautifulSoup
           (fun st =>
              visited st
              = _visited self
                ∪ list_to_set (returned_fetches (fetched st)))).
  - intros st url q Hinv _ _.
    pose proof (crawl_body_shape netloc_ok self World session_get
                  BeautifulSoup st url q) as Hshape.
    cbv zeta in Hshape.
    destruct Hshape as [(-> & _ & _ & [-> | [_ ->]] & _) | (_ & -> & -> & _)].
    + done.
    + by rewrite returned_app_false.
    + rewrite returned_app_true, list_to_set_app_L, Hinv.
      cbn [list_to_set]. apply set_eq. intros x.
      rewrite !elem_of_union, elem_of_singleton, elem_of_empty. tauto.
  - cbn. apply set_eq. intros x.
    rewrite !elem_of_union, elem_of_empty. tauto.
Qed.

(** With nothing left to visit the loop is left at once. *)
Lemma crawl_nothing_to_do self fuel w :
  (max_pages self <= Z.of_nat (size (_visited self)))%Z
  \/ base_url self ∈ _visited self ->
  2 <= fuel ->
  exists st,
    crawl_of self fuel w = Some (Returned st)
    /\ resources st = [] /\ fetched st = []
    /\ visited st = _visited self /\ world st = w.
Proof.
  intros Hwhy Hfuel. destruct fuel as [|[|fuel]]; [lia | lia |].
  unfold crawl, crawl_init. cbn [crawl_loop queue visited].
  destruct (Z.ltb_spec (Z.of_nat (size (_visited self))) (max_pages self))
    as [Hlt | Hge]; [|by eexists].
  destruct Hwhy as [Hle | Hin]; [lia|].
  unfold crawl_body. cbn [visited]. rewrite bool_decide_true by done.
  cbn [queue]. by eexists.
Qed.

Lemma crawl_loop_visited_grows self fuel st o :
  loop_of self fuel st = Some o -> visited st ⊆ visited (final o).
Proof.
  apply (crawl_loop_invariant netloc_ok self World session_get BeautifulSoup
           (fun st' => visited st ⊆ visited st')); [|done].
  intros st' url q Hsub _ _.
  destruct (crawl_body_shape netloc_ok self World session_get
              BeautifulSoup st' url q)
    as [(-> & _) | (_ & -> & _)]; [done|].
  etrans; [exact Hsub | apply union_subseteq_r].
Qed.

(** Once the start page was asked for and the request returned, the
    start address is visited. *)
Lemma crawl_records_start self fuel w o :
  crawl_of self fuel w = Some o ->
  fst (session_get w (base_url self)) <> None ->
  (max_pages self <= Z.of_nat (size (visited (final o))))%Z
  \/ base_url self ∈ visited (final o).
Proof.
  intros Hrun Hget.
  destruct (Z.ltb_spec (Z.of_nat (size (_visited self))) (max_pages self))
    as [Hlt | Hge].
  2:{ left. etrans; [exact Hge|]. apply inj_le, subseteq_size.
      unfold crawl in Hrun. by apply crawl_loop_visited_grows in Hrun. }
  right. destruct fuel as [|fuel]; [done|].
  unfold crawl, crawl_init in Hrun. cbn [crawl_loop queue visited] in Hrun.
  destruct (Z.ltb_spec (Z.of_nat (size (_visited self))) (max_pages self));
    [|lia].
  set (st0 := mkState [base_url self] (_visited self) [] w []) in *.
  pose proof (crawl_body_shape netloc_ok self World session_get
                BeautifulSoup st0 (base_url self) []) as Hshape.
  cbv zeta in Hshape.
  assert (Hin : base_url self ∈ visited (after (body_of self st0 (base_url self) []))).
  { unfold crawl_body. cbn [visited world st0].
    case_bool_decide as Hv; [done|]. unfold _fetch.
    destruct (session_get w (base_url self)) as [[response|] w']; [|done].
    assert (Hadd : base_url self ∈ ({[base_url self]} ∪ _visited self
                                    : gset string)).
    { apply elem_of_union. left. by apply elem_of_singleton. }
    destruct (negb (Response.ok response)); [done|].
    destruct (negb (Str.contains _ _)); [done|].
    destruct (_extract_resources _ _ _ _ _); [|done].
    by destruct (_extract_internal_links _ _ _ _). }
  destruct (body_of self st0 (base_url self) []) as [st'|st'|e st'];
    cbn [after] in Hin.
  - apply crawl_loop_visited_grows in Hrun. by apply Hrun.
  - by injection Hrun as <-.
  - by injection Hrun as <-.
Qed.

(** When no request raises, every call to [_fetch] returns. *)
Lemma crawl_all_returned self fuel w o :
  (forall w' u, fst (session_get w' u) <> None) ->
  crawl_of self fuel w = Some o ->
  returned_fetches (fetched (final o)) = map fst (fetched (final o)).
Proof.
  intros Hget. unfold crawl.
  apply (crawl_loop_invariant netloc_ok self World session_get BeautifulSoup
           (fun st => returned_fetches (fetched st) = map fst (fetched st)));
    [|done].
  intros st url q Hinv _ _. unfold crawl_body.
  case_bool_decide; [done|]. unfold _fetch.
  specialize (Hget (world st) url).
  destruct (session_get (world st) url) as [[response|] w']; [|done].
  assert (Hlog : returned_fetches (fetched st ++ [(url, true)])
                 = map fst (fetched st ++ [(url, true)])).
  { by rewrite returned_app_true, List.map_app, Hinv. }
  destruct (negb (Response.ok response)); [done|].
  destruct (negb (Str.contains _ _)); [done|].
  destruct (_extract_resources _ _ _ _ _); [|done].
  by destruct (_extract_internal_links _ _ _ _).
Qed.

End CrawlMore.

(** X12. A crawl never leaves the site: every address it hands to
    [_fetch], and every address still in the frontier when it stops, is
    the start address or a non-empty, normalized, internal address. *)
Theorem crawl_stays_on_site (netloc_ok : string -> bool) (World : Type)
    (session_get : World -> string -> option Response.t * World)
    (BeautifulSoup : string -> Soup.t) (self : BFSkinnerScraper.t)
    (fuel : nat) (w : World) (o : outcome (BFSkinnerScraper.State World)) :
  BFSkinnerScraper.crawl netloc_ok self World session_get BeautifulSoup
    fuel w = Some o ->
  Forall (Notions.on_site netloc_ok self)
    (map fst (BFSkinnerScraper.fetched (final o)))
  /\ Forall (Notions.on_site netloc_ok self)
       (BFSkinnerScraper.queue (final o)).
Proof.
  intros Hrun. by apply crawl_on_site in Hrun as [? ?].
Qed.

Lemma crawl_stays_on_site_witness :
  match Examples.site_crawl 2 with
  | Some o =>
      Forall (Notions.on_site Examples.host_check (Examples.crawler 2))
        (map fst (BFSkinnerScraper.fetched (final o)))
  | None => False
  end.
Proof.
  destruct (Examples.site_crawl 2) as [o|] eqn:E.
  - exact (proj1 (crawl_stays_on_site _ _ _ _ _ _ _ _ E)).
  - vm_compute in E. discriminate E.
Defined.

(** X13. When [crawl] is left, [_visited] holds what it held before
    together with the addresses whose fetch returned, and nothing
    else. *)
Theorem crawl_visited_is_returned (netloc_ok : string -> bool) (World : Type)
    (session_get : World -> string -> option Response.t * World)
    (BeautifulSoup : string -> Soup.t) (self : BFSkinnerScraper.t)
    (fuel : nat) (w : World) (o : outcome (BFSkinnerScraper.State World)) :
  BFSkinnerScraper.crawl netloc_ok self World session_get BeautifulSoup
    fuel w = Some o ->
  forall u,
    u ∈ BFSkinnerScraper.visited (final o)
    <-> u ∈ BFSkinnerScraper._visited self
        \/ In (u, true) (BFSkinnerScraper.fetched (final o)).
Proof.
  intros Hrun u. rewrite (crawl_visited_exact _ _ _ _ _ _ _ _ Hrun).
  rewrite elem_of_union, elem_of_list_to_set.
  unfold BFSkinnerScraper.returned_fetches.
  rewrite <- list_elem_of_In, list_elem_of_fmap.
  split; (intros [? | H]; [by left | right]).
  - destruct H as ([u' b] & -> & [Hin Hb]%list_elem_of_In%List.filter_In).
    cbn in Hb. subst b. by apply list_elem_of_In.
  - exists (u, true). split; [done|].
    apply list_elem_of_In, List.filter_In. by apply list_elem_of_In in H.
Qed.

Lemma crawl_visited_is_returned_witness :
  match Examples.site_crawl 2 with
  | Some o =>
      "https://www.bfskinner.org/b" ∈ BFSkinnerScraper.visited (final o)
  | None => False
  end.
Proof.
  destruct (Examples.site_crawl 2) as [o|] eqn:E.
  - apply (crawl_visited_is_returned _ _ _ _ _ _ _ _ E). right.
    vm_compute in E. injection E as <-. vm_compute. tauto.
  - vm_compute in E. discriminate E.
Defined.

(** X14. A crawl that has nothing to visit asks for nothing: when
    [_visited] already holds [max_pages] addresses or more (so for every
    [max_pages] that is not positive), or already holds the start
    address, [crawl] returns the empty list without a single request and
    leaves [_visited] as it was. *)
Theorem crawl_without_budget (netloc_ok : string -> bool) (World : Type)
    (session_get : World -> string -> option Response.t * World)
    (BeautifulSoup : string -> Soup.t) (self : BFSkinnerScraper.t)
    (fuel : nat) (w : World) :
  (BFSkinnerScraper.max_pages self
   <= Z.of_nat (size (BFSkinnerScraper._visited self)))%Z
  \/ BFSkinnerScraper.base_url self ∈ BFSkinnerScraper._visited self ->
  2 <= fuel ->
  exists st,
    BFSkinnerScraper.crawl netloc_ok self World session_get BeautifulSoup
      fuel w = Some (Returned st)
    /\ BFSkinnerScraper.resources st = []
    /\ BFSkinnerScraper.fetched st = []
    /\ BFSkinnerScraper.visited st = BFSkinnerScraper._visited self
    /\ BFSkinnerScraper.world st = w.
Proof. apply crawl_nothing_to_do. Qed.

Lemma crawl_without_budget_witness :
  exists st,
    Examples.site_crawl 0 = Some (Returned st)
    /\ BFSkinnerScraper.fetched st = [].
Proof.
  destruct (crawl_without_budget Examples.host_check unit Examples.site_get
              Examples.site_soup (Examples.crawler 0) 10 tt)
    as (st & Hrun & _ & Hf & _).
  - left. vm_compute. discriminate.
  - lia.
  - exists st. split; [exact Hrun | exact Hf].
Defined.

(** X15. Crawling again with the same scraper object finds nothing: after
    a run of [crawl] in which the request for the start page did not
    raise, every further run on the scraper as it was left returns the
    empty list without a single request. *)
Theorem crawl_again_finds_nothing (netloc_ok : string -> bool) (World : Type)
    (session_get : World -> string -> option Response.t * World)
    (BeautifulSoup : string -> Soup.t) (self : BFSkinnerScraper.t)
    (fuel : nat) (w : World) (o : outcome (BFSkinnerScraper.State World))
    (fuel' : nat) (w' : World) :
  BFSkinnerScraper.crawl netloc_ok self World session_get BeautifulSoup
    fuel w = Some o ->
  fst (session_get w (BFSkinnerScraper.base_url self)) <> None ->
  2 <= fuel' ->
  exists st,
    BFSkinnerScraper.crawl netloc_ok (Notions.crawled self (final o)) World
      session_get BeautifulSoup fuel' w' = Some (Returned st)
    /\ BFSkinnerScraper.resources st = []
    /\ BFSkinnerScraper.fetched st = []
    /\ BFSkinnerScraper.visited st = BFSkinnerScraper.visited (final o)
    /\ BFSkinnerScraper.world st = w'.
Proof.
  intros Hrun Hget Hfuel.
  apply (crawl_nothing_to_do netloc_ok World session_get BeautifulSoup
           (Notions.crawled self (final o))); [|done].
  exact (crawl_records_start netloc_ok World session_get BeautifulSoup self
           fuel w o Hrun Hget).
Qed.

Lemma crawl_again_finds_nothing_witness :
  match Examples.site_crawl 2 with
  | Some o =>
      exists st,
        BFSkinnerScraper.crawl Examples.host_check
          (Notions.crawled (Examples.crawler 2) (final o)) unit
          Examples.site_get Examples.site_soup 10 tt = Some (Returned st)
        /\ BFSkinnerScraper.resources st = []
        /\ BFSkinnerScraper.fetched st = []
  | None => False
  end.
Proof.
  destruct (Examples.site_crawl 2) as [o|] eqn:E.
  - destruct (crawl_again_finds_nothing Examples.host_check unit
                Examples.site_get Examples.site_soup (Examples.crawler 2)
                10 tt o 10 tt E)
      as (st & Hrun & Hr & Hf & _).
    + vm_compute. discriminate.
    + lia.
    + exists st. split; [exact Hrun|]. split; [exact Hr | exact Hf].
  - vm_compute in E. discriminate E.
Defined.

(** X16. When no request raises, [max_pages] bounds the requests
    themselves: a crawl asks for at most [max_pages] addresses (less the
    number already in [_visited]), and for no address twice. *)
Theorem crawl_requests_within_budget (netloc_ok : string -> bool)
    (World : Type)
    (session_get : World -> string -> option Response.t * World)
    (BeautifulSoup : string -> Soup.t) (self : BFSkinnerScraper.t)
    (fuel : nat) (w : World) (o : outcome (BFSkinnerScraper.State World)) :
  (forall w' u, fst (session_get w' u) <> None) ->
  BFSkinnerScraper.crawl netloc_ok self World session_get BeautifulSoup
    fuel w = Some o ->
  NoDup (map fst (BFSkinnerScraper.fetched (final o)))
  /\ (Z.of_nat (length (BFSkinnerScraper.fetched (final o)))
      <= Z.max 0 (BFSkinnerScraper.max_pages self
                  - Z.of_nat (size (BFSkinnerScraper._visited self))))%Z.
Proof.
  intros Hget Hrun.
  pose proof (crawl_all_returned _ _ _ _ _ _ _ _ Hget Hrun) as Hall.
  destruct (crawl_final_state _ _ _ _ _ _ _ _ Hrun)
    as (Hsz & Hle & Hnd & _). cbv zeta in *.
  rewrite Hall in Hsz, Hnd. rewrite length_map in Hsz.
  split; [done | lia].
Qed.

Lemma crawl_requests_within_budget_witness :
  match BFSkinnerScraper.crawl Examples.host_check (Examples.crawler 2) unit
          MoreExamples.steady_get Examples.site_soup 10 tt with
  | Some o => (Z.of_nat (length (BFSkinnerScraper.fetched (final o))) <= 2)%Z
  | None => False
  end.
Proof.
  destruct (BFSkinnerScraper.crawl Examples.host_check (Examples.crawler 2)
              unit MoreExamples.steady_get Examples.site_soup 10 tt)
    as [o|] eqn:E.
  - refine (proj2 (crawl_requests_within_budget _ _ _ _ _ _ _ _ _ E)).
    intros [] u. unfold MoreExamples.steady_get.
    destruct (Examples.site_get tt u) as [[response|] w']; cbn; discriminate.
  - vm_compute in E. discriminate E.
Defined.

(** X17. What normalization does to an address that [urlparse] accepts:
    with a host, the normalized address parses into the same host and
    query, the scheme or else [https], the path or else [/], and neither
    parameters nor fragment; without a host the address is returned as
    it is, fragment included. *)
Theorem normalize_url_components (netloc_ok : string -> bool)
    (u v : string) (p : ParseResult) :
  Urllib.urlparse netloc_ok u = Ret p ->
  BFSkinnerScraper._normalize_url netloc_ok u = Ret v ->
  if Str.nonempty (netloc p)
  then Urllib.urlparse netloc_ok v
       = Ret (mkParseResult
                (if Str.nonempty (scheme p) then scheme p else "https")
                (netloc p)
                (if Str.nonempty (path p) then path p else "/")
                EmptyString (query p) EmptyString)
  else v = u.
Proof.
  intros Hp. unfold BFSkinnerScraper._normalize_url. rewrite Hp.
  unfold mbind, exc_bind. cbv zeta.
  destruct (Str.nonempty (netloc p)) eqn:Hn; intros <-%Ret_inj; [|done].
  exact (urlparse_rebuild netloc_ok u p Hp Hn).
Qed.

Lemma normalize_url_components_witness :
  Urllib.urlparse Examples.host_check "http://www.bfskinner.org/about?x=1"
  = Ret (mkParseResult "http" "www.bfskinner.org" "/about" EmptyString "x=1"
           EmptyString)
  /\ "archive/list;v=2#top" = "archive/list;v=2#top".
Proof.
  split.
  - exact (normalize_url_components Examples.host_check
             "HTTP://www.bfskinner.org/about;v=2?x=1#top"
             "http://www.bfskinner.org/about?x=1"
             (mkParseResult "http" "www.bfskinner.org" "/about" "v=2" "x=1"
                "top")
             eq_refl eq_refl).
  - exact (normalize_url_components Examples.host_check
             "archive/list;v=2#top" "archive/list;v=2#top"
             (mkParseResult EmptyString EmptyString "archive/list" "v=2"
                EmptyString "top")
             eq_refl eq_refl).
Defined.

(** X18. A start page that cannot be used ends the crawl quietly: when
    the request for it raises, or is answered with an error status or
    with something that is not HTML, [crawl] returns the empty list
    after that single request and raises nothing. *)
Theorem crawl_start_page_unusable (netloc_ok : string -> bool) (World : Type)
    (session_get : World -> string -> option Response.t * World)
    (BeautifulSoup : string -> Soup.t) (self : BFSkinnerScraper.t)
    (fuel : nat) (w : World) :
  BFSkinnerScraper.base_url self ∉ BFSkinnerScraper._visited self ->
  (Z.of_nat (size (BFSkinnerScraper._visited self))
   < BFSkinnerScraper.max_pages self)%Z ->
  match fst (session_get w (BFSkinnerScraper.base_url self)) with
  | None => True
  | Some response =>
      Response.ok response = false
      \/ Str.contains "text/html" (Response.content_type response) = false
  end ->
  2 <= fuel ->
  exists st,
    BFSkinnerScraper.crawl netloc_ok self World session_get BeautifulSoup
      fuel w = Some (Returned st)
    /\ BFSkinnerScraper.resources st = []
    /\ map fst (BFSkinnerScraper.fetched st) = [BFSkinnerScraper.base_url self]
    /\ BFSkinnerScraper.queue st = []
    /\ BFSkinnerScraper.world st
       = snd (session_get w (BFSkinnerScraper.base_url self)).
Proof.
  intros Hnew Hlt Hget Hfuel. destruct fuel as [|[|fuel]]; [lia | lia |].
  unfold BFSkinnerScraper.crawl, BFSkinnerScraper.crawl_init.
  cbn [BFSkinnerScraper.crawl_loop BFSkinnerScraper.queue
         BFSkinnerScraper.visited].
  destruct (Z.ltb_spec
              (Z.of_nat (size (BFSkinnerScraper._visited self)))
              (BFSkinnerScraper.max_pages self)); [|lia].
  unfold BFSkinnerScraper.crawl_body.
  cbn [BFSkinnerScraper.visited BFSkinnerScraper.world
         BFSkinnerScraper.resources BFSkinnerScraper.fetched].
  rewrite bool_decide_false by done. unfold BFSkinnerScraper._fetch.
  destruct (session_get w (BFSkinnerScraper.base_url self))
    as [[response|] w']; cbn [fst snd] in *.
  - destruct Hget as [-> | Hct]; cbn [negb].
    + cbn. by eexists.
    + destruct (negb (Response.ok response)); [cbn; by eexists|].
      rewrite Hct. cbn. by eexists.
  - cbn. by eexists.
Qed.

Lemma crawl_start_page_unusable_witness :
  exists st,
    BFSkinnerScraper.crawl Examples.host_check
      (BFSkinnerScraper.__init__ "https://www.bfskinner.org/a" 5) unit
      Examples.site_get Examples.site_soup 10 tt = Some (Returned st)
    /\ BFSkinnerScraper.resources st = [].
Proof.
  destruct (crawl_start_page_unusable Examples.host_check unit
              Examples.site_get Examples.site_soup
              (BFSkinnerScraper.__init__ "https://www.bfskinner.org/a" 5)
              10 tt)
    as (st & Hrun & Hr & _).
  - cbn. apply not_elem_of_empty.
  - vm_compute. reflexivity.
  - vm_compute. exact I.
  - lia.
  - exists st. split; [exact Hrun | exact Hr].
Defined.

(** X19. Every record a crawl has gathered, whether it returns or is
    stopped by an exception, comes from a page whose fetch returned: it
    carries that page's normalized address, a normalized resource
    address, a type that is [page] or a recognized extension without its
    dot, and a description that is absent rather than empty. *)
Theorem crawl_records_well_formed (netloc_ok : string -> bool) (World : Type)
    (session_get : World -> string -> option Response.t * World)
    (BeautifulSoup : string -> Soup.t) (self : BFSkinnerScraper.t)
    (fuel : nat) (w : World) (o : outcome (BFSkinnerScraper.State World)) :
  BFSkinnerScraper.crawl netloc_ok self World session_get BeautifulSoup
    fuel w = Some o ->
  Forall
    (fun r =>
       (exists u,
          u ∈ BFSkinnerScraper.returned_fetches
                (BFSkinnerScraper.fetched (final o))
          /\ BFSkinnerScraper._normalize_url netloc_ok u
             = Ret (ResourceRecord.page_url r))
       /\ BFSkinnerScraper._normalize_url netloc_ok
            (ResourceRecord.resource_url r)
          = Ret (ResourceRecord.resource_url r)
       /\ (ResourceRecord.resource_type r = "page"
           \/ In (String "." (ResourceRecord.resource_type r))
                 BFSkinnerScraper.RESOURCE_EXTENSIONS)
       /\ ResourceRecord.description r <> Some EmptyString)
    (BFSkinnerScraper.resources (final o)).
Proof.
  intros Hrun.
  destruct (crawl_final_state _ _ _ _ _ _ _ _ Hrun)
    as (_ & _ & _ & _ & _ & batches & -> & _ & Hlog & Hex).
  cbv zeta in *. clear Hrun.
  induction batches as [|[u batch] rest IH]; cbn [map snd List.concat];
    [done|].
  apply Forall_cons in Hex as [(page_title & soup & Hx) Hex].
  cbn [fst snd] in Hx. apply Forall_app. split.
  - eapply extract_resources_loop_fields in Hx as [Hx _];
      [exact Hx | | done].
    intros pu ru ty anchor resource_url _ _ _ Hc Hpu Hru. cbn. split.
    { exists u. split; [|done]. apply Hlog. cbn. apply elem_of_cons.
      by left. }
    split; [by eapply normalize_url_fixed|].
    split; [by eapply classify_resource_range|].
    apply derive_description_not_empty.
  - apply IH; [|done]. intros u' Hu'. apply Hlog. cbn.
    apply elem_of_cons. by right.
Qed.

Lemma crawl_records_well_formed_witness :
  match Examples.site_crawl 2 with
  | Some o =>
      Forall
        (fun r =>
           BFSkinnerScraper._normalize_url Examples.host_check
             (ResourceRecord.resource_url r)
           = Ret (ResourceRecord.resource_url r))
        (BFSkinnerScraper.resources (final o))
      /\ BFSkinnerScraper.resources (final o) <> []
  | None => False
  end.
Proof.
  destruct (Examples.site_crawl 2) as [o|] eqn:E.
  - split.
    + eapply Forall_impl; [exact (crawl_records_well_formed _ _ _ _ _ _ _ _ E)|].
      cbv beta. tauto.
    + vm_compute in E. injection E as <-. discriminate.
  - vm_compute in E. discriminate E.
Defined.

Section ScrapeMore.

Variable netloc_ok : string -> bool.
Variable World : Type.
Variable opener_open : World -> string -> option string * World.
Variable fromstring : string -> option Element.
Variable self : Scraper.t.

Import Scraper.

Lemma merge_articles_fields (P : ArticleRecord.t -> Prop) articles seen acc :
  Forall P articles -> Forall P acc ->
  seen = list_to_set (map ArticleRecord.url acc) ->
  let '(seen', acc') := merge_articles articles seen acc in
  Forall P acc' /\ seen' = list_to_set (map ArticleRecord.url acc').
Proof.
  unfold merge_articles. revert seen acc.
  induction articles as [|article rest IH]; intros seen acc Ha Hacc Hseen;
    cbn [fold_left]; [done|].
  apply Forall_cons in Ha as [Ha Hrest].
  case_bool_decide; [by apply IH|]. apply IH; [done | |].
  - apply Forall_app. split; [done|]. by apply Forall_cons.
  - rewrite List.map_app, list_to_set_app_L, Hseen. cbn [map list_to_set].
    apply set_eq. intros x.
    rewrite !elem_of_union, elem_of_singleton, elem_of_empty. tauto.
Qed.

Lemma parse_listing_articles_ok html articles possible_next :
  parse_listing netloc_ok fromstring self html = Ret (articles, possible_next) ->
  Forall (Notions.article_ok netloc_ok self) articles.
Proof.
  unfold parse_listing.
  destruct (_parse_html fromstring html) as [root|]; [|done].
  unfold mbind at 1, exc_bind at 1.
  destruct (_extract_articles netloc_ok self root) as [found|] eqn:Ex; [|done].
  unfold mbind at 1, exc_bind at 1.
  destruct (_find_next_link netloc_ok self root) as [next_url|]; [|done].
  unfold mbind, exc_bind. intros [= <- _].
  apply extract_articles_loop_ok in Ex as (_ & _ & Hok); [done | | | done].
  - apply NoDup_nil_2.
  - by intros u Hu%not_elem_of_nil.
Qed.

Lemma scrape_collected_ok fuel start_url w o :
  scrape netloc_ok World opener_open fromstring self fuel start_url w
  = Some o ->
  Forall (Notions.article_ok netloc_ok self) (collected (final o))
  /\ seen_articles (final o)
     = list_to_set (map ArticleRecord.url (collected (final o))).
Proof.
  unfold scrape.
  apply (scrape_loop_invariant netloc_ok World opener_open fromstring self
           (fun st =>
              Forall (Notions.article_ok netloc_ok self) (collected st)
              /\ seen_articles st
                 = list_to_set (map ArticleRecord.url (collected st))));
    [|done].
  intros st [Hok Hseen] _. unfold scrape_body.
  destruct (_fetch World opener_open (world st) (next_page st))
    as [[html|e] w']; [|done].
  destruct (parse_listing netloc_ok fromstring self html)
    as [[articles possible_next]|e] eqn:Hp; [|done].
  apply parse_listing_articles_ok in Hp.
  pose proof (merge_articles_fields _ articles _ _ Hp Hok Hseen) as Hm.
  destruct (merge_articles articles (seen_articles st) (collected st))
    as [seen acc].
  by destruct (negb (truthy possible_next) || _).
Qed.

End ScrapeMore.

(** X20. Every article [scrape] has collected, on any network and
    whether it returns or is stopped by an exception, has a non-empty
    title without surrounding whitespace, an address resolved against
    [base_url] from a non-empty stripped [href], and a summary and a date
    that are absent rather than empty; and an address is in
    [seen_articles] exactly when a collected article has it. *)
Theorem scrape_articles_well_formed (netloc_ok : string -> bool)
    (World : Type) (opener_open : World -> string -> option string * World)
    (fromstring : string -> option Element) (self : Scraper.t)
    (fuel : nat) (start_url : option string) (w : World)
    (o : outcome (Scraper.State World)) :
  Scraper.scrape netloc_ok World opener_open fromstring self fuel start_url w
  = Some o ->
  Forall (Notions.article_ok netloc_ok self) (Scraper.collected (final o))
  /\ forall u,
       u ∈ Scraper.seen_articles (final o)
       <-> exists a, In a (Scraper.collected (final o))
                     /\ ArticleRecord.url a = u.
Proof.
  intros Hrun. apply scrape_collected_ok in Hrun as [Hok Hseen].
  split; [done|]. intros u. rewrite Hseen, elem_of_list_to_set.
  rewrite list_elem_of_In, in_map_iff.
  split; intros (a & ? & ?); by exists a.
Qed.

Lemma scrape_articles_well_formed_witness :
  match Examples.listing_scrape with
  | Some o =>
      Forall (Notions.article_ok Examples.host_check Examples.paginator)
        (Scraper.collected (final o))
      /\ Scraper.collected (final o) <> []
  | None => False
  end.
Proof.
  destruct Examples.listing_scrape as [o|] eqn:E.
  - split.
    + exact (proj1 (scrape_articles_well_formed _ _ _ _ _ _ _ _ _ E)).
    + vm_compute in E. injection E as <-. discriminate.
  - vm_compute in E. discriminate E.
Defined.

(** X21. A scraper built by [__init__] always starts somewhere: [scrape]
    first fetches [start_url] when one is given and not empty, and
    [base_url] otherwise, so that at least this one page is fetched. *)
Theorem scrape_starts_at_start_url (netloc_ok : string -> bool)
    (World : Type) (opener_open : World -> string -> option string * World)
    (fromstring : string -> option Element)
    (base_url user_agent : string) (timeout : Z) (self : Scraper.t)
    (fuel : nat) (start_url : option string) (w : World)
    (o : outcome (Scraper.State World)) :
  Scraper.__init__ base_url user_agent timeout = Ret self ->
  Scraper.scrape netloc_ok World opener_open fromstring self fuel start_url w
  = Some o ->
  exists rest,
    Scraper.fetched (final o)
    = match start_url with
      | Some (String c s) => String c s
      | _ => base_url
      end :: rest.
Proof.
  unfold Scraper.__init__.
  destruct (Str.nonempty base_url) eqn:Hbase; [|done].
  cbn [negb]. intros <-%Ret_inj.
  set (self := Scraper.mk base_url user_agent timeout).
  set (first := match start_url with
                | Some (String c s) => String c s
                | _ => base_url
                end).
  assert (Hinit : Scraper.scrape_init World self start_url w
                  = Scraper.mkState first ∅ ∅ [] w []).
  { unfold Scraper.scrape_init. by destruct start_url as [[|c s]|]. }
  assert (Hfirst : Str.nonempty first = true).
  { subst first. by destruct start_url as [[|c s]|]. }
  unfold Scraper.scrape. rewrite Hinit. clear Hinit.
  destruct fuel as [|fuel]; [done|]. cbn [Scraper.scrape_loop].
  set (st0 := Scraper.mkState first ∅ ∅ [] w []).
  assert (Hg : Scraper.scrape_guard st0 = true).
  { apply scrape_guard_true. split; [done | apply not_elem_of_empty]. }
  rewrite Hg.
  destruct (scrape_body_shape netloc_ok World opener_open fromstring self st0)
    as (_ & Hf & _).
  cbn [Scraper.fetched Scraper.next_page st0 app] in Hf.
  destruct (Scraper.scrape_body netloc_ok World opener_open fromstring self
              st0) as [st'|st'|e st']; cbn [after] in Hf.
  - apply (scrape_loop_invariant netloc_ok World opener_open fromstring self
             (fun st => exists rest, Scraper.fetched st = first :: rest));
      [|by exists []].
    intros st [rest Hst] _.
    destruct (scrape_body_shape netloc_ok World opener_open fromstring self
                st) as (_ & -> & _).
    rewrite Hst. by eexists.
  - intros [= <-]. by exists [].
  - intros [= <-]. by exists [].
Qed.

Lemma scrape_starts_at_start_url_witness :
  match Scraper.scrape Examples.host_check unit Examples.listing_open
          Examples.listing_fromstring Examples.paginator 5
          (Some EmptyString) tt with
  | Some o => exists rest,
      Scraper.fetched (final o) = "https://example.com/" :: rest
  | None => False
  end.
Proof.
  destruct (Scraper.scrape Examples.host_check unit Examples.listing_open
              Examples.listing_fromstring Examples.paginator 5
              (Some EmptyString) tt) as [o|] eqn:E.
  - exact (scrape_starts_at_start_url Examples.host_check unit
             Examples.listing_open Examples.listing_fromstring
             "https://example.com/" Scraper.DEFAULT_USER_AGENT
             Scraper.DEFAULT_TIMEOUT Examples.paginator 5 (Some EmptyString)
             tt o eq_refl E).
  - vm_compute in E. discriminate E.
Defined.
